(** * HR-Management-System: the guarded SQL pipeline of the agents

    A shallow embedding of [backend/agents/sql/sql_agent.py],
    [backend/database/db_setup.py], [backend/agents/policy/policy_agent.py]
    (its [query] entry point), [backend/agents/main_agent.py],
    [backend/agents/employee/employee_agent.py] and
    [backend/utils/payslip_generator.py], followed by the properties of the
    pipeline.

    Modelling conventions.
    - A Python [str] is a [string] of 8-bit characters (the UTF-8 bytes of the
      text).  [lower], [upper], [strip] and [split] are those of Python on
      ASCII text: they map the ASCII letters, leave every other byte alone,
      and whitespace is ASCII whitespace.  Outside ASCII Python does more
      ([str.upper] takes U+017F to S, [str.lower] takes U+212A to k,
      [str.strip] removes U+00A0), so a property whose statement depends on
      the letter case or the whitespace of a text supplied by the model, the
      caller or the table is stated for ASCII text ([Lexicon.is_ascii]).
      The properties about what reaches the store are stated for every
      text: a text that starts with the ASCII letters of a keyword does so
      under the mapping of Python too, and under a role that is not HR no
      row changes whatever the text starts with.  Lengths and slices count
      characters, not bytes.
    - A Python [dict] with string keys is a [gmap string PyVal].
    - The SQLite file, the generative model and the policy index are abstract
      states of a [Platform]; every call into them is a field of that class and
      may raise.
    - Code that can raise is written in the monad [M]: a world is threaded
      through, and a call returns either the raised exception or a value. *)

From Stdlib Require Import ZArith NArith Ascii String Bool List Lia.
From stdpp Require Import base option strings gmap list pretty.

Open Scope Z_scope.

Set Warnings "-register-all".

(* ===================================================================== *)
(** * Part I: definitions                                                 *)
(* ===================================================================== *)

(** ** Python string built-ins used by the agents *)

Module PyStr.

Definition is_ascii_upper (c : ascii) : bool :=
  let n := N_of_ascii c in (65 <=? n)%N && (n <=? 90)%N.

Definition is_ascii_lower (c : ascii) : bool :=
  let n := N_of_ascii c in (97 <=? n)%N && (n <=? 122)%N.

Definition lower_char (c : ascii) : ascii :=
  if is_ascii_upper c then ascii_of_N (N_of_ascii c + 32) else c.

Definition upper_char (c : ascii) : ascii :=
  if is_ascii_lower c then ascii_of_N (N_of_ascii c - 32) else c.

(** [s.lower()] and [s.upper()]. *)
Fixpoint lower (s : string) : string :=
  match s with
  | EmptyString => EmptyString
  | String c s' => String (lower_char c) (lower s')
  end.

Fixpoint upper (s : string) : string :=
  match s with
  | EmptyString => EmptyString
  | String c s' => String (upper_char c) (upper s')
  end.

(** [s.startswith(p)]. *)
Fixpoint startswith (s p : string) {struct p} : bool :=
  match p, s with
  | EmptyString, _ => true
  | String _ _, EmptyString => false
  | String a p', String b s' => if Ascii.eqb a b then startswith s' p' else false
  end.

(** [s.startswith((p1, p2, ...))]: a tuple of prefixes. *)
Definition startswith_any (s : string) (ps : list string) : bool :=
  existsb (startswith s) ps.

(** [sub in s]. *)
Fixpoint contains (sub s : string) : bool :=
  startswith s sub ||
  match s with
  | EmptyString => false
  | String _ s' => contains sub s'
  end.

(** [any(k in s for k in ks)]. *)
Definition any_in (ks : list string) (s : string) : bool :=
  existsb (fun k => contains k s) ks.

(** Whitespace as [str.strip()] and [str.split()] see it, on 8-bit
    characters: TAB, LF, VT, FF, CR, FS, GS, RS, US and the space. *)
Definition isspace (c : ascii) : bool :=
  let n := N_of_ascii c in
  ((9 <=? n)%N && (n <=? 13)%N) || ((28 <=? n)%N && (n <=? 32)%N).

Fixpoint lstrip_by (f : ascii -> bool) (s : string) : string :=
  match s with
  | EmptyString => EmptyString
  | String c s' => if f c then lstrip_by f s' else s
  end.

Fixpoint rstrip_by (f : ascii -> bool) (s : string) : string :=
  match s with
  | EmptyString => EmptyString
  | String c s' =>
      match rstrip_by f s' with
      | EmptyString => if f c then EmptyString else String c EmptyString
      | r => String c r
      end
  end.

(** [s.strip()]. *)
Definition strip (s : string) : string :=
  lstrip_by isspace (rstrip_by isspace s).

Fixpoint mem_char (c : ascii) (chars : string) : bool :=
  match chars with
  | EmptyString => false
  | String d chars' => if Ascii.eqb c d then true else mem_char c chars'
  end.

(** [s.rstrip(chars)]. *)
Definition rstrip_chars (s chars : string) : string :=
  rstrip_by (fun c => mem_char c chars) s.

(** [s.split(sep)] for a non-empty [sep]: scan left to right, cutting at
    every occurrence of [sep] that does not overlap the previous one.
    [skip] counts the characters of a matched separator still to drop and
    [cur] is the piece under construction, reversed. *)
Fixpoint split_go (sep s : string) (skip : nat) (cur : list ascii)
  : list string :=
  match s with
  | EmptyString => [string_of_list_ascii (rev cur)]
  | String c s' =>
      match skip with
      | S k => split_go sep s' k cur
      | O =>
          if startswith s sep
          then string_of_list_ascii (rev cur)
                 :: split_go sep s' (String.length sep - 1) []
          else split_go sep s' O (c :: cur)
      end
  end.

Definition split (s sep : string) : list string := split_go sep s O [].

(** [s.replace(old, new)] for a non-empty [old]. *)
Fixpoint replace_go (old new s : string) (skip : nat) : string :=
  match s with
  | EmptyString => EmptyString
  | String c s' =>
      match skip with
      | S k => replace_go old new s' k
      | O =>
          if startswith s old
          then new +:+ replace_go old new s' (String.length old - 1)
          else String c (replace_go old new s' O)
      end
  end.

Definition replace (s old new : string) : string := replace_go old new s O.

(** [s.split()]: the maximal runs of non-whitespace characters. *)
Fixpoint words_go (s : string) (cur : list ascii) : list string :=
  match s with
  | EmptyString =>
      match cur with
      | [] => []
      | _ => [string_of_list_ascii (rev cur)]
      end
  | String c s' =>
      if isspace c
      then match cur with
           | [] => words_go s' []
           | _ => string_of_list_ascii (rev cur) :: words_go s' []
           end
      else words_go s' (c :: cur)
  end.

Definition split_ws (s : string) : list string := words_go s [].

(** A byte that continues a character of more than one byte. *)
Definition is_continuation (c : ascii) : bool :=
  let n := N_of_ascii c in (128 <=? n)%N && (n <=? 191)%N.

(** [len(s)]: the number of characters. *)
Fixpoint len (s : string) : nat :=
  match s with
  | EmptyString => O
  | String c s' => if is_continuation c then len s' else S (len s')
  end.

(** [s[:n]]: the first [n] characters, each with all its bytes. *)
Fixpoint take (n : nat) (s : string) : string :=
  match s with
  | EmptyString => EmptyString
  | String c s' =>
      if is_continuation c then String c (take n s')
      else match n with
           | O => EmptyString
           | S k => String c (take k s')
           end
  end.

(** [sep.join(parts)]. *)
Fixpoint join (sep : string) (parts : list string) : string :=
  match parts with
  | [] => EmptyString
  | [p] => p
  | p :: rest => p +:+ sep +:+ join sep rest
  end.

End PyStr.

(** ** Values, exceptions and the platform *)

(** Line feed, the separator of [sql.split('\n')]. *)
Definition LF : string := String (ascii_of_nat 10) EmptyString.

(** The Python values that travel in result dictionaries.  A float is kept
    by the bit pattern of its IEEE double; a row of a result set is a
    [PRecord], its columns in order. *)
Inductive PyVal : Type :=
| PNone
| PBool (b : bool)
| PInt (z : Z)
| PFloat (bits : Z)
| PStr (s : string)
| PList (l : list PyVal)
| PRecord (r : list (string * PyVal)).

(** A dictionary literal [{k1: v1, ...}]. *)
Definition dict_of (l : list (string * PyVal)) : gmap string PyVal :=
  list_to_map l.

(** [k in d]. *)
Definition has_key (k : string) (d : gmap string PyVal) : bool :=
  bool_decide (is_Some (d !! k)).

(** Truth value of [d.get(k)]: a missing key gives [None], which is false. *)
Definition truthy (v : option PyVal) : bool :=
  match v with
  | None | Some PNone => false
  | Some (PBool b) => b
  | Some (PInt z) => negb (z =? 0)
  | Some (PFloat bits) => negb (bits =? 0) && negb (bits =? 2 ^ 63)
  | Some (PStr s) => negb (String.eqb s "")
  | Some (PList l) => negb (Nat.eqb (length l) 0)
  | Some (PRecord r) => negb (Nat.eqb (length r) 0)
  end.

(** Exceptions, by the classes that [execute_sql] tells apart. *)
Inductive PyExc : Type :=
| IntegrityError (msg : string)
| OperationalError (msg : string)
| PyException (msg : string).

(** [str(e)]. *)
Definition exc_str (e : PyExc) : string :=
  match e with
  | IntegrityError m | OperationalError m | PyException m => m
  end.

Definition IndexError : PyExc := PyException "list index out of range".

(** A pandas data frame: column labels and rows of cells. *)
Record DataFrame : Type := mkDataFrame {
  df_columns : list string;
  df_rows : list (list PyVal)
}.

(** [df.empty]: some axis has length zero. *)
Definition df_empty (df : DataFrame) : bool :=
  Nat.eqb (length (df_rows df)) 0 || Nat.eqb (length (df_columns df)) 0.

(** [d[k] = v] on a dictionary kept in the order of insertion. *)
Fixpoint set_item (k : string) (v : PyVal) (d : list (string * PyVal))
  : list (string * PyVal) :=
  match d with
  | [] => [(k, v)]
  | (k', v') :: d' =>
      if String.eqb k' k then (k', v) :: d' else (k', v') :: set_item k v d'
  end.

(** [dict(zip(columns, row))]: under a label that is repeated, the last
    cell. *)
Definition row_dict (columns : list string) (row : list PyVal)
  : list (string * PyVal) :=
  fold_left (fun d kv => set_item (fst kv) (snd kv) d) (zip columns row) [].

(** [df.to_dict(orient="records")]. *)
Definition df_to_records (df : DataFrame) : list (list (string * PyVal)) :=
  map (row_dict (df_columns df)) (df_rows df).

(** What the agents rest on: the SQLite file behind [config.DB_PATH], the
    generative model, the FAISS policy index, the text of the prompt
    templates, and the rendering of values by [str] and [round].  The
    methods of the policy agent that wrap FAISS and regular expressions
    ([load_existing_index], [_build_context], [_clean_text],
    [_format_bullets]) are taken by their signature; the properties below
    hold whatever they return. *)
Class Platform : Type := {
  (** the rows of the SQLite file, the state of the model, the state of the
      policy agent *)
  DB : Type;
  LLM : Type;
  Index : Type;
  (** [sqlite3.connect(config.DB_PATH)] *)
  sqlite_connect : DB -> PyExc + unit;
  (** [PRAGMA table_info(employees)]: name and type of every column *)
  pragma_table_info : DB -> PyExc + list (string * string);
  (** [pd.read_sql(sql, conn)].  SQLite runs one statement per call and
      [execute_sql] only calls this on a text that starts with SELECT: it
      returns rows or raises, and changes none. *)
  pd_read_sql : string -> DB -> PyExc + DataFrame;
  (** [cursor.execute(sql)]: the store after the statement, to be committed,
      and [cursor.rowcount] *)
  cursor_execute : string -> DB -> PyExc + (DB * Z);
  (** [conn.commit()], from the rows of the file and the pending ones: it
      raises, for instance on a file that another connection has locked, or
      the pending rows become those of the file *)
  conn_commit : DB -> DB -> PyExc + unit;
  (** [round(value, 2)] on a float *)
  round2 : Z -> Z;
  (** [str(value)] *)
  py_str : PyVal -> string;
  (** [llm._call(prompt)] *)
  llm_call : string -> LLM -> (PyExc + string) * LLM;
  (** the f-string templates: schema, query *)
  prompt_update : string -> string -> string;
  prompt_insert : string -> string -> string;
  prompt_delete : string -> string -> string;
  (** schema, hints_text, user_context, query, the identifier of the example *)
  prompt_select : string -> string -> string -> string -> string -> string;
  (** question, context *)
  prompt_policy : string -> string -> string;
  (** employee data, policy answer, question *)
  prompt_fusion : string -> string -> string -> string;
  (** [PolicyAgent.is_loaded], [load_existing_index], [_build_context] *)
  policy_is_loaded : Index -> bool;
  policy_load_existing_index : Index -> gmap string PyVal * Index;
  policy_build_context : string -> nat -> Index -> (PyExc + string) * Index;
  (** [PolicyAgent._clean_text], [_format_bullets] *)
  policy_clean_text : string -> string;
  policy_format_bullets : string -> nat -> string
}.

(** What reaches the employee store through the connections the agents
    and the payslip generators open: a connection made, a text read with
    [pd.read_sql], alone or with parameters, a text run with
    [cursor.execute], a commit that went through, a connection closed.  The
    PRAGMA reads of [database/db_setup.py] are not recorded. *)
Inductive DbOp : Type :=
| OpConnect
| OpReadSql (sql : string)
| OpReadParams (sql : string) (params : list string)
| OpExecute (sql : string)
| OpCommit
| OpClose.

(** [OpExecute] and [OpCommit] are the operations that change rows. *)
Definition is_mutation_op (o : DbOp) : bool :=
  match o with
  | OpExecute _ | OpCommit => true
  | _ => false
  end.

Section Worlds.
Context `{Platform}.

Record World : Type := mkWorld {
  w_db : DB;
  w_llm : LLM;
  w_index : Index;
  w_trace : list DbOp
}.

(** Computations that thread the world and may raise. *)
Definition M (A : Type) : Type := World -> (PyExc + A) * World.

Definition ret {A} (a : A) : M A := fun w => (inr a, w).

Definition raise {A} (e : PyExc) : M A := fun w => (inl e, w).

Definition bind {A B} (m : M A) (k : A -> M B) : M B :=
  fun w =>
    match m w with
    | (inl e, w') => (inl e, w')
    | (inr a, w') => k a w'
    end.

(** [try: m  except Exception as e: h(e)] around a computation that then
    cannot raise. *)
Definition try_except {A} (m : M A) (h : PyExc -> A) : World -> A * World :=
  fun w =>
    match m w with
    | (inl e, w') => (h e, w')
    | (inr a, w') => (a, w')
    end.

Definition lift {A} (r : PyExc + A) : M A := fun w => (r, w).

Definition log (o : DbOp) : M unit :=
  fun w => (inr tt, mkWorld (w_db w) (w_llm w) (w_index w) (w_trace w ++ [o])).

(** [self.llm._call(prompt)]. *)
Definition llm__call (prompt : string) : M string :=
  fun w =>
    let '(r, l) := llm_call prompt (w_llm w) in
    (r, mkWorld (w_db w) l (w_index w) (w_trace w)).

End Worlds.

Notation "'do' x <- m ; k" := (bind m (fun x => k))
  (at level 10, x name, m at level 100, k at level 200).
Notation "'run' m ; k" := (bind m (fun _ => k))
  (at level 10, m at level 100, k at level 200).

(** ** database/db_setup.py *)

Module DbSetup.
Section WithPlatform.
Context `{Platform}.

(** [get_table_schema()]: the schema as text, or the text of the error. *)
Definition get_table_schema (d : DB) : string :=
  match pragma_table_info d with
  | inr schema_info =>
      fold_left
        (fun schema_text info =>
           schema_text +:+ "- " +:+ fst info +:+ " (" +:+ snd info +:+ ")" +:+ LF)
        schema_info ("employees table columns:" +:+ LF)
  | inl e => "Schema error: " +:+ exc_str e
  end.

(** The test of the detection loop of [get_employee_id_column]. *)
Definition looks_like_employee_id (col : string) : bool :=
  PyStr.contains "emp" (PyStr.lower col)
  && (PyStr.contains "id" (PyStr.lower col)
      || PyStr.contains "number" (PyStr.lower col)).

(** [get_employee_id_column()]; any exception gives ["id"]. *)
Definition get_employee_id_column (d : DB) : string :=
  match pragma_table_info d with
  | inr info =>
      let columns := map fst info in
      match find looks_like_employee_id columns with
      | Some col => col
      | None =>
          if bool_decide ("EmployeeNumber" ∈ columns) then "EmployeeNumber"
          else if bool_decide ("EmpID" ∈ columns) then "EmpID"
          else match columns with
               | col :: _ => col
               | [] => "id"
               end
      end
  | inl _ => "id"
  end.

End WithPlatform.
End DbSetup.

(** ** agents/sql/sql_agent.py *)

Module SQLAgent.

(** The four values [classify_sql_intent] returns. *)
Inductive Intent : Type := SELECT | UPDATE | INSERT | DELETE.

(** The keyword a statement of that kind starts with. *)
Definition keyword (i : Intent) : string :=
  match i with
  | SELECT => "SELECT"
  | UPDATE => "UPDATE"
  | INSERT => "INSERT"
  | DELETE => "DELETE"
  end.

(** [user_role != "hr"]; the orchestrator starts with the role [None]. *)
Definition is_hr (user_role : option string) : bool :=
  match user_role with
  | Some r => String.eqb r "hr"
  | None => false
  end.

Definition query_mapping : list (string * string) :=
  [ ("location", "Location"); ("address", "Location");
    ("job role", "JobRole"); ("role", "JobRole"); ("position", "JobRole");
    ("name", "Name"); ("employee name", "Name"); ("email", "email");
    ("salary", "MonthlyIncome"); ("income", "MonthlyIncome");
    ("pay", "MonthlyIncome"); ("department", "Department");
    ("dept", "Department"); ("age", "Age");
    ("experience", "TotalWorkingYears"); ("years", "TotalWorkingYears");
    ("overtime", "OverTime"); ("education", "Education");
    ("qualification", "Education"); ("marital status", "MaritalStatus");
    ("gender", "Gender"); ("distance", "DistanceFromHome");
    ("satisfaction", "JobSatisfaction");
    ("performance", "PerformanceRating") ].

Definition update_keywords : list string :=
  ["change"; "update"; "modify"; "edit"; "set"; "alter"].
Definition insert_keywords : list string :=
  ["add"; "create"; "insert"; "new employee"; "hire"].
Definition delete_keywords : list string :=
  ["delete"; "remove"; "fire"; "terminate"].

Definition classify_sql_intent (nl_query : string) (user_role : option string)
  : Intent :=
  let query_lower := PyStr.lower nl_query in
  if negb (is_hr user_role) then SELECT
  else if PyStr.any_in update_keywords query_lower then UPDATE
  else if PyStr.any_in insert_keywords query_lower then INSERT
  else if PyStr.any_in delete_keywords query_lower then DELETE
  else SELECT.

(** [_clean_sql]: the fenced block if there is one, then the first line
    that starts like a statement, without trailing semicolons. *)
Definition _clean_sql (sql : string) : PyExc + string :=
  let fenced (fence : string) : PyExc + string :=
    match PyStr.split sql fence with
    | _ :: inner :: _ =>
        match PyStr.split inner "```" with
        | first :: _ => inr (PyStr.strip first)
        | [] => inl IndexError
        end
    | _ => inl IndexError
    end in
  let unfenced :=
    if PyStr.contains "```sql" sql then fenced "```sql"
    else if PyStr.contains "```" sql then fenced "```"
    else inr sql in
  match unfenced with
  | inl e => inl e
  | inr sql =>
      let lines := map PyStr.strip (PyStr.split sql LF) in
      let sql :=
        match find (fun line =>
                      PyStr.startswith_any (PyStr.upper line)
                        ["SELECT"; "UPDATE"; "INSERT"; "DELETE"]) lines with
        | Some line => line
        | None => sql
        end in
      inr (PyStr.strip (PyStr.rstrip_chars sql ";"))
  end.

(** The condition [_ensure_user_filter] appends after WHERE or AND. *)
Definition user_condition (id_col user_id : string) : string :=
  id_col +:+ " = '" +:+ user_id +:+ "'".

Section WithPlatform.
Context `{Platform}.

Definition _ensure_user_filter (d : DB) (sql user_id : string) : string :=
  let sql_lower := PyStr.lower sql in
  let id_col := DbSetup.get_employee_id_column d in
  if negb (PyStr.contains "where" sql_lower)
  then sql +:+ " WHERE " +:+ user_condition id_col user_id
  else if negb (PyStr.contains (PyStr.lower id_col) sql_lower)
          || negb (PyStr.contains user_id sql)
  then sql +:+ " AND " +:+ user_condition id_col user_id
  else sql.

(** The handler of every generator:
    [except Exception as e: return f"REJECTED_SQL: Generation error: {str(e)}"]. *)
Definition generation_error (e : PyExc) : string :=
  "REJECTED_SQL: Generation error: " +:+ exc_str e.

Definition generate_update_sql (nl_query : string) : World -> string * World :=
  fun w =>
    let schema := DbSetup.get_table_schema (w_db w) in
    let prompt := prompt_update schema nl_query in
    try_except
      (do raw_response <- llm__call prompt;
       do sql <- lift (_clean_sql raw_response);
       if negb (PyStr.startswith (PyStr.upper sql) "UPDATE")
       then ret ("REJECTED_SQL: Must be UPDATE statement -> " +:+ sql)
       else if negb (PyStr.contains "WHERE" (PyStr.upper sql))
       then ret ("REJECTED_SQL: UPDATE must have WHERE clause for safety -> "
                   +:+ sql)
       else ret sql)
      generation_error w.

Definition generate_insert_sql (nl_query : string) : World -> string * World :=
  fun w =>
    let schema := DbSetup.get_table_schema (w_db w) in
    let prompt := prompt_insert schema nl_query in
    try_except
      (do raw_response <- llm__call prompt;
       do sql <- lift (_clean_sql raw_response);
       if negb (PyStr.startswith (PyStr.upper sql) "INSERT")
       then ret ("REJECTED_SQL: Must be INSERT statement -> " +:+ sql)
       else ret sql)
      generation_error w.

Definition generate_delete_sql (nl_query : string) : World -> string * World :=
  fun w =>
    let schema := DbSetup.get_table_schema (w_db w) in
    let prompt := prompt_delete schema nl_query in
    try_except
      (do raw_response <- llm__call prompt;
       do sql <- lift (_clean_sql raw_response);
       if negb (PyStr.startswith (PyStr.upper sql) "DELETE")
       then ret ("REJECTED_SQL: Must be DELETE statement -> " +:+ sql)
       else if negb (PyStr.contains "WHERE" (PyStr.upper sql))
       then ret ("REJECTED_SQL: DELETE must have WHERE clause for safety -> "
                   +:+ sql)
       else ret sql)
      generation_error w.

(** The lines of [column_hints], joined under their heading. *)
Definition hints_text (nl_query : string) : string :=
  let nl_lower := PyStr.lower nl_query in
  let column_hints :=
    map (fun tc => "  - '" +:+ fst tc +:+ "' → column '" +:+ snd tc +:+ "'")
        (filter (fun tc => PyStr.contains (fst tc) nl_lower = true)
                query_mapping) in
  match column_hints with
  | [] => ""
  | _ => LF +:+ "Column Mappings:" +:+ LF +:+ PyStr.join LF column_hints
  end.

Definition user_context (d : DB) (user_id : option string) : string :=
  match user_id with
  | Some uid =>
      let id_col := DbSetup.get_employee_id_column d in
      LF +:+ "CRITICAL SECURITY RULE: This query is from employee ID '"
         +:+ uid +:+ "'." +:+ LF
         +:+ "You MUST add: WHERE " +:+ id_col +:+ " = '" +:+ uid +:+ "'" +:+ LF
  | None => ""
  end.

(** [user_id if user_id else 'E001'] in the first example of the prompt. *)
Definition example_id (user_id : option string) : string :=
  match user_id with
  | Some uid => if String.eqb uid "" then "E001" else uid
  | None => "E001"
  end.

Definition generate_select_sql (nl_query : string) (user_id : option string)
  : World -> string * World :=
  fun w =>
    let schema := DbSetup.get_table_schema (w_db w) in
    let prompt :=
      prompt_select schema (hints_text nl_query) (user_context (w_db w) user_id)
                    nl_query (example_id user_id) in
    try_except
      (do raw_response <- llm__call prompt;
       do sql <- lift (_clean_sql raw_response);
       if negb (PyStr.startswith (PyStr.upper sql) "SELECT")
       then ret ("REJECTED_SQL: Must be SELECT statement -> " +:+ sql)
       else
         match user_id with
         | Some uid => fun w' => (inr (_ensure_user_filter (w_db w') sql uid), w')
         | None => ret sql
         end)
      generation_error w.

Definition generate_sql (nl_query : string) (user_id : option string)
    (user_role : option string) : World -> string * World :=
  match classify_sql_intent nl_query user_role with
  | UPDATE => generate_update_sql nl_query
  | INSERT => generate_insert_sql nl_query
  | DELETE => generate_delete_sql nl_query
  | SELECT => generate_select_sql nl_query user_id
  end.

(** The store operations of [execute_sql]. *)
Definition connect : M unit :=
  fun w =>
    match sqlite_connect (w_db w) with
    | inl e => (inl e, w)
    | inr _ => log OpConnect w
    end.

Definition read_sql (sql : string) : M DataFrame :=
  run log (OpReadSql sql); fun w => (pd_read_sql sql (w_db w), w).

(** [cursor.execute(sql)]: the changed store is pending until [commit]. *)
Definition execute (sql : string) : M (DB * Z) :=
  run log (OpExecute sql); fun w => (cursor_execute sql (w_db w), w).

(** [conn.commit()]: when it raises the file keeps its rows. *)
Definition commit (pending : DB) : M unit :=
  fun w =>
    match conn_commit (w_db w) pending with
    | inl e => (inl e, w)
    | inr _ =>
        (inr tt,
         mkWorld pending (w_llm w) (w_index w) (w_trace w ++ [OpCommit]))
    end.

Definition close : M unit := log OpClose.

(** [record[key] = round(value, 2)] for the floats of a record. *)
Definition round_record (record : list (string * PyVal))
  : list (string * PyVal) :=
  map (fun kv =>
         match snd kv with
         | PFloat bits => (fst kv, PFloat (round2 bits))
         | _ => kv
         end) record.

Definition permission_denied : string :=
  "Permission denied. Only HR can modify employee data.".

(** The body of the [try] of [execute_sql]. *)
Definition execute_sql_body (sql : string) (user_role : option string)
  : M (gmap string PyVal) :=
  run connect;
  let sql_upper := PyStr.upper sql in
  if PyStr.startswith sql_upper "SELECT" then
    do df <- read_sql sql;
    run close;
    if df_empty df then
      ret (dict_of [ ("success", PBool true);
                     ("message", PStr "No results found");
                     ("sql", PStr sql);
                     ("data", PList []);
                     ("count", PInt 0) ])
    else
      let records := map round_record (df_to_records df) in
      ret (dict_of [ ("success", PBool true);
                     ("sql", PStr sql);
                     ("data", PList (map PRecord records));
                     ("count", PInt (Z.of_nat (length (df_rows df))));
                     ("columns", PList (map PStr (df_columns df))) ])
  else if PyStr.startswith_any sql_upper ["UPDATE"; "INSERT"; "DELETE"] then
    if negb (is_hr user_role) then
      run close;
      ret (dict_of [ ("error", PStr permission_denied); ("sql", PStr sql) ])
    else
      do done <- execute sql;
      run commit (fst done);
      let rows_affected := snd done in
      run close;
      match PyStr.split_ws sql with
      | [] => raise IndexError
      | first :: _ =>
          let operation := PyStr.upper first in
          ret (dict_of [ ("success", PBool true);
                         ("message",
                          PStr ("✅ " +:+ operation +:+ " successful! "
                                  +:+ pretty rows_affected
                                  +:+ " row(s) affected."));
                         ("sql", PStr sql);
                         ("rows_affected", PInt rows_affected);
                         ("operation", PStr operation) ])
      end
  else
    run close;
    ret (dict_of [ ("error", PStr "Unsupported SQL operation") ]).

(** The three [except] clauses of [execute_sql]. *)
Definition execution_error (sql : string) (e : PyExc) : gmap string PyVal :=
  match e with
  | IntegrityError m =>
      dict_of [ ("error", PStr ("Database constraint violation: " +:+ m));
                ("sql", PStr sql);
                ("suggestion",
                 PStr "Check if employee ID already exists or required fields are missing") ]
  | OperationalError m =>
      dict_of [ ("error", PStr ("Database error: " +:+ m));
                ("sql", PStr sql);
                ("suggestion",
                 PStr "Please check column names and table structure") ]
  | PyException m =>
      dict_of [ ("error", PStr ("Execution error: " +:+ m));
                ("sql", PStr sql) ]
  end.

Definition execute_sql (sql : string) (user_role : option string)
  : World -> gmap string PyVal * World :=
  fun w =>
    if PyStr.startswith sql "REJECTED_SQL"
    then (dict_of [ ("error", PStr (PyStr.replace sql "REJECTED_SQL: " "")) ], w)
    else try_except (execute_sql_body sql user_role) (execution_error sql) w.

End WithPlatform.
End SQLAgent.

(** ** agents/policy/policy_agent.py: [PolicyAgent.query] *)

Module PolicyAgent.
Section WithPlatform.
Context `{Platform}.

Definition with_index (w : World) (ix : Index) : World :=
  mkWorld (w_db w) (w_llm w) ix (w_trace w).

Definition _build_context (question : string) (k : nat) : M string :=
  fun w =>
    let '(r, ix) := policy_build_context question k (w_index w) in
    (r, with_index w ix).

Definition no_context : string := "No relevant policy information found.".

(** The paragraphs shown by [source_preview]. *)
Definition preview (context : string) : list PyVal :=
  if negb (String.eqb context "") && negb (String.eqb context no_context)
  then map (fun para =>
              PStr (if (300 <? PyStr.len para)%nat
                    then PyStr.take 300 para +:+ "..."
                    else para))
           (take 5 (PyStr.split context (LF +:+ LF)))
  else [].

Definition query (question : string) (return_raw : bool)
  : M (gmap string PyVal) :=
  fun w =>
    let '(load_failed, w1) :=
      if policy_is_loaded (w_index w) then (false, w)
      else
        let '(load_result, ix) := policy_load_existing_index (w_index w) in
        (has_key "error" load_result, with_index w ix) in
    if load_failed then
      (inr (dict_of
              [ ("error",
                 PStr "Policy database not initialized. Please upload a policy PDF first.");
                ("answer", PStr "• Policy not found — consult HR.") ]), w1)
    else
      (do built <- _build_context question 6;
       let context := if String.eqb built "" then no_context else built in
       let prompt := prompt_policy question context in
       fun w2 =>
         match llm__call prompt w2 with
         | (inl e, w3) =>
             (inr (dict_of
                     [ ("error", PStr ("LLM call failed: " +:+ exc_str e));
                       ("answer",
                        PStr "• Internal LLM error. Please try again later.") ]),
              w3)
         | (inr raw, w3) =>
             let cleaned := policy_clean_text raw in
             let bullets := policy_format_bullets cleaned 6 in
             if negb return_raw then
               (inr (dict_of [ ("success", PBool true);
                               ("answer", PStr bullets) ]), w3)
             else
               (inr (dict_of [ ("success", PBool true);
                               ("answer", PStr bullets);
                               ("raw_model_output", PStr raw);
                               ("source_preview", PList (preview context)) ]),
                w3)
         end) w1.

End WithPlatform.
End PolicyAgent.

(** ** agents/main_agent.py: the fusion path *)

Module MainAgent.
Section WithPlatform.
Context `{Platform}.

(** The user context of the orchestrator; both fields start as [None]. *)
Record Agent : Type := mkAgent {
  current_user_id : option string;
  current_user_role : option string
}.

Definition set_user (user_id : option string) (user_role : string) : Agent :=
  mkAgent user_id (Some user_role).

(** A value inside an f-string. *)
Definition fmt (v : PyVal) : string :=
  match v with
  | PStr s => s
  | _ => py_str v
  end.

Definition _format_sql_result (result : gmap string PyVal) : string :=
  match result !! "error" with
  | Some e => "Error: " +:+ fmt e
  | None =>
      match result !! "data" with
      | Some data => py_str data
      | None => "No data available"
      end
  end.

Definition employee_database : string := "📊 Employee Database".
Definition policy_documents : string := "📋 Company Policy Documents".

(** The list [sources] of [execute_fusion_query]. *)
Definition fusion_sources (sql_result policy_result : gmap string PyVal)
  : list string :=
  (if has_key "success" sql_result then [employee_database] else [])
  ++ (if truthy (policy_result !! "source_documents")
      then [policy_documents] else []).

(** The two branches of the fusion path, before the combining model call:
    the statement, the result of its execution and the result of the
    policy agent. *)
Definition fusion_branches (a : Agent) (question : string)
  : M (string * gmap string PyVal * gmap string PyVal) :=
  fun w =>
    let '(sql, w1) :=
      SQLAgent.generate_sql question (current_user_id a) (Some "employee") w in
    let '(sql_result, w2) := SQLAgent.execute_sql sql (Some "employee") w1 in
    (do policy_result <- PolicyAgent.query question false;
     ret (sql, sql_result, policy_result)) w2.

Definition execute_fusion_query (a : Agent) (question : string) : M string :=
  do branches <- fusion_branches a question;
  let sql_result := snd (fst branches) in
  let policy_result := snd branches in
  let fusion_prompt :=
    prompt_fusion (_format_sql_result sql_result)
      (fmt (default (PStr "No policy information found")
                    (policy_result !! "answer")))
      question in
  do response <- llm__call fusion_prompt;
  let augmented_response := PyStr.strip response in
  let sources := fusion_sources sql_result policy_result in
  ret (augmented_response +:+ LF +:+ LF +:+ "---" +:+ LF +:+ "📚 Sources: "
         +:+ PyStr.join ", " sources).

End WithPlatform.
End MainAgent.

(** ** Reading a statement: where a WHERE clause is *)

(** The guardrail of the source looks for the letters WHERE anywhere in the
    text.  To compare it with what a statement means, [sql_words] reads a
    statement the way SQLite's tokenizer delimits words: text between single
    quotes is a literal and yields no word, and outside literals a word is a
    maximal run of letters, digits and underscores. *)
Module SqlText.

Definition is_word_char (c : ascii) : bool :=
  let n := N_of_ascii c in
  PyStr.is_ascii_upper c || PyStr.is_ascii_lower c
  || ((48 <=? n)%N && (n <=? 57)%N) || (n =? 95)%N.

Definition flush (cur : list ascii) : list string :=
  match cur with
  | [] => []
  | _ => [string_of_list_ascii (rev cur)]
  end.

Fixpoint sql_words_go (s : string) (quoted : bool) (cur : list ascii)
  : list string :=
  match s with
  | EmptyString => flush cur
  | String c s' =>
      if quoted then
        sql_words_go s' (negb (Ascii.eqb c "'")) []
      else if Ascii.eqb c "'" then flush cur ++ sql_words_go s' true []
      else if is_word_char c then sql_words_go s' false (c :: cur)
      else flush cur ++ sql_words_go s' false []
  end.

Definition sql_words (sql : string) : list string := sql_words_go sql false [].

(** The statement has the keyword WHERE, in any case, as a word. *)
Definition has_where_clause (sql : string) : bool :=
  existsb (fun w => String.eqb (PyStr.upper w) "WHERE") (sql_words sql).

(** The leading keyword of a statement: its first word, in upper case. *)
Definition leading_keyword (sql : string) : string :=
  match sql_words sql with
  | w :: _ => PyStr.upper w
  | [] => ""
  end.

End SqlText.

(** ** A small platform to run the agents on *)

(** An employee table held in memory, a model that answers from a script and
    a policy index that is either absent or returns one context. *)
Module Demo.

Record Store : Type := mkStore {
  reachable : bool;
  columns : list (string * string);
  rows : list (list PyVal)
}.

Definition employees_columns : list (string * string) :=
  [ ("EmployeeNumber", "TEXT"); ("Name", "TEXT");
    ("Department", "TEXT"); ("MonthlyIncome", "REAL") ].

Definition unreachable : PyExc :=
  OperationalError "unable to open database file".

Definition guarded {A} (d : Store) (a : A) : PyExc + A :=
  if reachable d then inr a else inl unreachable.

(** The store does not parse statements: a read returns every row, and a
    statement that changes rows is taken to hit every row, so that the table
    is emptied and the count of its rows reported. *)
Definition platform : Platform := {|
  DB := Store;
  LLM := list (PyExc + string);
  Index := option string;
  sqlite_connect d := guarded d tt;
  pragma_table_info d := guarded d (columns d);
  pd_read_sql _ d := guarded d (mkDataFrame (map fst (columns d)) (rows d));
  cursor_execute _ d :=
    guarded d (mkStore (reachable d) (columns d) [], Z.of_nat (length (rows d)));
  conn_commit d _ := guarded d tt;
  round2 bits := bits;
  py_str _ := "<value>";
  llm_call _ script :=
    match script with
    | [] => (inl (PyException "model call timed out"), [])
    | answer :: rest => (answer, rest)
    end;
  prompt_update schema q := schema +:+ q;
  prompt_insert schema q := schema +:+ q;
  prompt_delete schema q := schema +:+ q;
  prompt_select schema hints ctx q ex := schema +:+ hints +:+ ctx +:+ q +:+ ex;
  prompt_policy q ctx := q +:+ ctx;
  prompt_fusion data policy q := data +:+ policy +:+ q;
  policy_is_loaded ix := bool_decide (is_Some ix);
  policy_load_existing_index ix :=
    (dict_of [ ("error", PStr "No existing policy index found. Please upload a policy PDF first.") ], ix);
  policy_build_context _ _ ix := (inr (default "" ix), ix);
  policy_clean_text raw := raw;
  policy_format_bullets text _ := text
|}.

Definition employees : list (list PyVal) :=
  [ [PStr "1"; PStr "Asha"; PStr "Sales"; PFloat 0];
    [PStr "10"; PStr "Ravi"; PStr "IT"; PFloat 0] ].

Definition store : Store := mkStore true employees_columns employees.
Definition empty_store : Store := mkStore true employees_columns [].
Definition offline_store : Store := mkStore false employees_columns employees.

Definition world (d : Store) (script : list (PyExc + string))
    (ix : option string) : @World platform :=
  @mkWorld platform d script ix [].

End Demo.

(** ** Vocabulary of the properties *)

Module Pipeline.
Section WithPlatform.
Context `{Platform}.
Import SQLAgent.

(** The prompt the generator of each kind sends to the model. *)
Definition prompt_for (intent : Intent) (nl_query : string)
    (user_id : option string) (d : DB) : string :=
  let schema := DbSetup.get_table_schema d in
  match intent with
  | UPDATE => prompt_update schema nl_query
  | INSERT => prompt_insert schema nl_query
  | DELETE => prompt_delete schema nl_query
  | SELECT =>
      prompt_select schema (hints_text nl_query) (user_context d user_id)
                    nl_query (example_id user_id)
  end.

(** The generator [generate_sql] hands a query of each kind to. *)
Definition generator (intent : Intent) (nl_query : string)
    (user_id : option string) : World -> string * World :=
  match intent with
  | UPDATE => generate_update_sql nl_query
  | INSERT => generate_insert_sql nl_query
  | DELETE => generate_delete_sql nl_query
  | SELECT => generate_select_sql nl_query user_id
  end.

(** The world after a model call that left the model in state [l]. *)
Definition after_model (w : World) (l : LLM) : World :=
  mkWorld (w_db w) l (w_index w) (w_trace w).

(** A generator returned the [REJECTED_SQL] sentinel. *)
Definition is_rejected (sql : string) : bool :=
  PyStr.startswith sql "REJECTED_SQL".

(** The sentinel of the UPDATE and DELETE generators for a statement
    without the letters WHERE. *)
Definition missing_where (intent : Intent) (sql : string) : string :=
  "REJECTED_SQL: " +:+ keyword intent
    +:+ " must have WHERE clause for safety -> " +:+ sql.

(** The test of the mutating branch of [execute_sql]. *)
Definition is_mutating (sql : string) : bool :=
  PyStr.startswith_any (PyStr.upper sql) ["UPDATE"; "INSERT"; "DELETE"].

(** No operation of [ops] changes rows. *)
Definition read_only (ops : list DbOp) : bool :=
  forallb (fun o => negb (is_mutation_op o)) ops.

(** From [w] to [w'] the rows of the store are the same and the
    operations that reached it in between are [ops]. *)
Definition store_saw (w w' : World) (ops : list DbOp) : Prop :=
  w_db w' = w_db w /\ w_trace w' = w_trace w ++ ops.

End WithPlatform.
End Pipeline.

(** ** utils/payslip_generator.py *)

(** What the payslip generators, the employee agent and the orchestrator
    rest on besides the [Platform]: the read with a bound parameter, the
    part of a generator that follows the read, the mailer of
    [utils/email_utils.py], and the text of three more prompts.  What
    follows the read computes amounts in floating point, takes the date
    from the clock and writes a file, as text or through reportlab; it is
    one step on the desk, which may raise.  In the source neither that step
    nor the mailer holds a connection to the employee store. *)
Class Services `{Platform} : Type := {
  (** the directory of generated payslips, the clock and the mail server *)
  Desk : Type;
  (** [pd.read_sql(query, conn, params=(emp_id,))]: SQLite runs the one
      statement of the text, which starts with SELECT; it returns rows or
      raises, and changes none *)
  pd_read_sql_params : string -> list string -> DB -> PyExc + DataFrame;
  (** the rest of [generate_payslip_text(emp_id)] and of
      [generate_payslip_pdf(emp_id)] once the row is read: from the
      identifier and the row to the name of the file written *)
  write_payslip_text :
    string -> list (string * PyVal) -> Desk -> (PyExc + string) * Desk;
  write_payslip_pdf :
    string -> list (string * PyVal) -> Desk -> (PyExc + string) * Desk;
  (** [send_payslip_email(emp_id, email, payslip_path)] of the mailer *)
  mail_payslip :
    string -> string -> string -> Desk -> (PyExc + gmap string PyVal) * Desk;
  (** [str(result)] of a dictionary *)
  dict_str : gmap string PyVal -> string;
  (** the classification prompt: role, question *)
  prompt_classify : option string -> string -> string;
  (** the prompt that extracts an employee identifier: question *)
  prompt_extract_id : string -> string;
  (** the augmentation prompt: question, statement, data *)
  prompt_augment : string -> string -> string -> string
}.

(** What is asked of the desk. *)
Inductive DeskOp : Type :=
| OpWriteText (emp_id : string)
| OpWritePdf (emp_id : string)
| OpMail (emp_id email payslip_path : string).

Definition is_mail (o : DeskOp) : bool :=
  match o with
  | OpMail _ _ _ => true
  | _ => false
  end.

Module PayslipGenerator.
Section WithServices.
Context `{Services}.

(** The world of the agents together with the desk and what was asked of
    it. *)
Record Site : Type := mkSite {
  s_world : World;
  s_desk : Desk;
  s_calls : list DeskOp
}.

(** [f"SELECT * FROM employees WHERE {col_id}=?"]. *)
Definition payslip_query (col_id : string) : string :=
  "SELECT * FROM employees WHERE " +:+ col_id +:+ "=?".

Definition read_sql_params (sql : string) (params : list string)
  : M DataFrame :=
  run log (OpReadParams sql params);
  fun w => (pd_read_sql_params sql params (w_db w), w).

(** The first lines of both generators: the row of the employee. *)
Definition read_employee (emp_id : string) : M DataFrame :=
  fun w =>
    let col_id := DbSetup.get_employee_id_column (w_db w) in
    (run SQLAgent.connect;
     do df <- read_sql_params (payslip_query col_id) [emp_id];
     run SQLAgent.close;
     ret df) w.

(** [df.iloc[0].to_dict()]. *)
Definition first_record (df : DataFrame) : list (string * PyVal) :=
  match df_rows df with
  | row :: _ => row_dict (df_columns df) row
  | [] => []
  end.

Definition not_found (emp_id : string) : option string * string :=
  (None, "❌ Employee " +:+ emp_id +:+ " not found in database").

(** [generate_payslip_text(emp_id)]: the file name, or [None], and a
    message; every exception is caught. *)
Definition generate_payslip_text (emp_id : string)
  : Site -> (option string * string) * Site :=
  fun s =>
    let '(looked, w) := read_employee emp_id (s_world s) in
    let s1 := mkSite w (s_desk s) (s_calls s) in
    match looked with
    | inl e =>
        ((None, "❌ Error generating text payslip: " +:+ exc_str e), s1)
    | inr df =>
        if df_empty df then (not_found emp_id, s1)
        else
          let '(written, desk) :=
            write_payslip_text emp_id (first_record df) (s_desk s) in
          let s2 := mkSite w desk (s_calls s ++ [OpWriteText emp_id]) in
          match written with
          | inl e =>
              ((None, "❌ Error generating text payslip: " +:+ exc_str e), s2)
          | inr filename =>
              ((Some filename, "✅ Text payslip generated: " +:+ filename), s2)
          end
    end.

(** [generate_payslip_pdf(emp_id)], called with the identifier alone. *)
Definition generate_payslip_pdf (emp_id : string)
  : Site -> (option string * string) * Site :=
  fun s =>
    let '(looked, w) := read_employee emp_id (s_world s) in
    let s1 := mkSite w (s_desk s) (s_calls s) in
    match looked with
    | inl e =>
        ((None, "❌ Error generating PDF payslip: " +:+ exc_str e), s1)
    | inr df =>
        if df_empty df then (not_found emp_id, s1)
        else
          let '(written, desk) :=
            write_payslip_pdf emp_id (first_record df) (s_desk s) in
          let s2 := mkSite w desk (s_calls s ++ [OpWritePdf emp_id]) in
          match written with
          | inl e =>
              ((None, "❌ Error generating PDF payslip: " +:+ exc_str e), s2)
          | inr filename =>
              ((Some filename, "✅ PDF payslip generated: " +:+ filename), s2)
          end
    end.

End WithServices.
End PayslipGenerator.

(** ** agents/employee/employee_agent.py *)

Module EmployeeAgent.

(** The values [classify_employee_intent] returns. *)
Inductive Intent : Type :=
| GENERATE_PAYSLIP
| SEND_PAYSLIP_EMAIL
| SEND_EMAIL
| CREATE_EMPLOYEE
| UPDATE_EMPLOYEE
| DELETE_EMPLOYEE
| QUERY_DATA.

Definition payslip_words : list string := ["payslip"; "pay slip"; "salary slip"].
Definition generate_words : list string := ["generate"; "create"; "make"].
Definition mail_words : list string := ["email"; "send"; "mail"].
Definition create_words : list string :=
  ["create"; "add"; "insert"; "new employee"].
Definition update_words : list string := ["update"; "modify"; "change"; "edit"].
Definition delete_words : list string := ["delete"; "remove"].

Definition classify_employee_intent (query : string)
    (user_role : option string) : Intent :=
  let query_lower := PyStr.lower query in
  if PyStr.any_in payslip_words query_lower then
    if PyStr.any_in generate_words query_lower then GENERATE_PAYSLIP
    else if PyStr.any_in mail_words query_lower then SEND_PAYSLIP_EMAIL
    else GENERATE_PAYSLIP
  else if PyStr.any_in mail_words query_lower && SQLAgent.is_hr user_role
  then SEND_EMAIL
  else if SQLAgent.is_hr user_role then
    if PyStr.any_in create_words query_lower then CREATE_EMPLOYEE
    else if PyStr.any_in update_words query_lower then UPDATE_EMPLOYEE
    else if PyStr.any_in delete_words query_lower then DELETE_EMPLOYEE
    else QUERY_DATA
  else QUERY_DATA.

(** [s.strip(chars)]. *)
Definition strip_chars (s chars : string) : string :=
  PyStr.lstrip_by (fun c => PyStr.mem_char c chars)
    (PyStr.rstrip_by (fun c => PyStr.mem_char c chars) s).

(** The loop of [generate_payslip] and [send_payslip_email] over the words
    of the query: the word after the first marker that is followed by a
    word with something left once [",.;"] is stripped. *)
Fixpoint id_after (markers : list string) (words : list string)
  : option string :=
  match words with
  | [] => None
  | word :: rest =>
      match rest with
      | [] => None
      | next :: _ =>
          if bool_decide (PyStr.lower word ∈ markers) then
            let potential_id := strip_chars next ",.;" in
            if String.eqb potential_id "" then id_after markers rest
            else Some potential_id
          else id_after markers rest
      end
  end.

(** [emp_id] after the HR-only loop. *)
Definition target_id (markers : list string) (query : string)
    (user_id user_role : option string) : option string :=
  if SQLAgent.is_hr user_role then
    match id_after markers (PyStr.split_ws query) with
    | Some potential_id => Some potential_id
    | None => user_id
    end
  else user_id.

(** [not emp_id]. *)
Definition missing (emp_id : option string) : bool :=
  match emp_id with
  | None => true
  | Some s => String.eqb s ""
  end.

Definition not_specified : gmap string PyVal :=
  dict_of [ ("error", PStr "❌ Employee ID not specified") ].

Definition not_permitted : gmap string PyVal :=
  dict_of [ ("error", PStr "❌ Operation not permitted or unknown intent") ].

(** The cell of the first row of a frame under a column label. *)
Definition first_row (df : DataFrame) : list (string * PyVal) :=
  match df_rows df with
  | row :: _ => zip (df_columns df) row
  | [] => []
  end.

Definition cell (label : string) (row : list (string * PyVal))
  : option PyVal :=
  snd <$> find (fun kv => String.eqb (fst kv) label) row.

Section WithServices.
Context `{Services}.
Import PayslipGenerator.

(** [generate_payslip].  The generators catch every exception themselves,
    so the handler of the [try] around the call is never entered. *)
Definition generate_payslip (query : string) (user_id user_role : option string)
  : Site -> gmap string PyVal * Site :=
  fun s =>
    match target_id ["for"; "of"] query user_id user_role with
    | Some emp_id =>
        if String.eqb emp_id "" then (not_specified, s)
        else
          let use_pdf :=
            PyStr.contains "pdf" (PyStr.lower query)
            || PyStr.contains "PDF" query in
          let '(made, s') :=
            (if use_pdf then generate_payslip_pdf else generate_payslip_text)
              emp_id s in
          match made with
          | (Some filename, message) =>
              if String.eqb filename "" then
                (dict_of [ ("error", PStr message) ], s')
              else
                (dict_of [ ("success", PBool true);
                           ("message", PStr message);
                           ("filename", PStr filename);
                           ("employee_id", PStr emp_id) ], s')
          | (None, message) => (dict_of [ ("error", PStr message) ], s')
          end
    | None => (not_specified, s)
    end.

(** The statement that looks up the address of an employee. *)
Definition email_lookup (col_id emp_id : string) : string :=
  "SELECT email, Name FROM employees WHERE " +:+ col_id +:+ "='"
    +:+ emp_id +:+ "'".

Definition type_error (what : string) : PyExc :=
  PyException ("argument of type '" +:+ what +:+ "' is not iterable").

(** [not email or '@' not in email]; a number that is not zero has no
    members to look through. *)
Definition invalid_email (email : PyVal) : PyExc + bool :=
  match email with
  | PStr s => inr (String.eqb s "" || negb (PyStr.contains "@" s))
  | PNone => inr true
  | PBool b => if b then inl (type_error "bool") else inr true
  | PInt z => if truthy (Some email) then inl (type_error "int") else inr true
  | PFloat bits =>
      if truthy (Some email) then inl (type_error "float") else inr true
  | PList _ | PRecord _ => inr true
  end.

(** The part of [send_payslip_email] inside [try], from the row found. *)
Definition send_found (emp_id : string) (df : DataFrame)
  : Site -> (PyExc + gmap string PyVal) * Site :=
  fun s =>
    match cell "email" (first_row df) with
    | None => (inl (PyException "'email'"), s)
    | Some email =>
        let name := default (PStr emp_id) (cell "Name" (first_row df)) in
        match invalid_email email with
        | inl e => (inl e, s)
        | inr true =>
            (inr (dict_of
                    [ ("error",
                       PStr ("❌ No valid email found for employee " +:+ emp_id)) ]),
             s)
        | inr false =>
            let '(made, s1) := generate_payslip_pdf emp_id s in
            match made with
            | (filename, message) =>
                match filename with
                | Some (String c f) =>
                    let '(sent, desk2) :=
                      mail_payslip emp_id (MainAgent.fmt email) (String c f)
                                   (s_desk s1) in
                    let s2 :=
                      mkSite (s_world s1) desk2
                             (s_calls s1
                                ++ [OpMail emp_id (MainAgent.fmt email)
                                           (String c f)]) in
                    match sent with
                    | inl e => (inl e, s2)
                    | inr result =>
                        if truthy (result !! "success") then
                          (inr (dict_of
                                  [ ("success", PBool true);
                                    ("message",
                                     PStr ("✅ Payslip sent to " +:+ MainAgent.fmt name
                                             +:+ " (" +:+ MainAgent.fmt email +:+ ")"));
                                    ("email", email);
                                    ("filename", PStr (String c f)) ]), s2)
                        else
                          (inr (dict_of
                                  [ ("error",
                                     default (PStr "Email sending failed")
                                             (result !! "message")) ]), s2)
                    end
                | _ =>
                    (inr (dict_of
                            [ ("error",
                               PStr ("❌ Failed to generate payslip: "
                                       +:+ message)) ]), s1)
                end
            end
        end
    end.

Definition send_payslip_email (query : string)
    (user_id user_role : option string) : Site -> gmap string PyVal * Site :=
  fun s =>
    match target_id ["for"; "to"] query user_id user_role with
    | Some emp_id =>
        if String.eqb emp_id "" then (not_specified, s)
        else
          let col_id := DbSetup.get_employee_id_column (w_db (s_world s)) in
          let '(looked, w) :=
            (run SQLAgent.connect;
             do df <- SQLAgent.read_sql (email_lookup col_id emp_id);
             run SQLAgent.close;
             ret df) (s_world s) in
          let s1 := mkSite w (s_desk s) (s_calls s) in
          let '(outcome, s2) :=
            match looked with
            | inl e => (inl e, s1)
            | inr df =>
                if df_empty df then
                  (inr (dict_of
                          [ ("error",
                             PStr ("❌ Employee " +:+ emp_id +:+ " not found")) ]),
                   s1)
                else send_found emp_id df s1
            end in
          match outcome with
          | inr result => (result, s2)
          | inl e =>
              (dict_of [ ("error", PStr ("❌ Error: " +:+ exc_str e)) ], s2)
          end
    | None => (not_specified, s)
    end.

Definition send_email : gmap string PyVal :=
  dict_of [ ("message", PStr "📧 Custom email sending not yet implemented") ].
Definition create_employee : gmap string PyVal :=
  dict_of [ ("message", PStr "🔨 Employee creation not yet implemented") ].
Definition update_employee : gmap string PyVal :=
  dict_of [ ("message", PStr "🔨 Employee update not yet implemented") ].
Definition delete_employee : gmap string PyVal :=
  dict_of [ ("message", PStr "🔨 Employee deletion not yet implemented") ].

(** [generate_sql] and [execute_sql] are called without a role. *)
Definition query_employee_data (query : string) (user_id : option string)
  : World -> gmap string PyVal * World :=
  fun w =>
    let '(sql, w1) := SQLAgent.generate_sql query user_id (Some "employee") w in
    SQLAgent.execute_sql sql (Some "employee") w1.

Definition handle_query (query : string) (user_role user_id : option string)
  : Site -> gmap string PyVal * Site :=
  fun s =>
    match classify_employee_intent query user_role with
    | GENERATE_PAYSLIP => generate_payslip query user_id user_role s
    | SEND_PAYSLIP_EMAIL => send_payslip_email query user_id user_role s
    | SEND_EMAIL => (send_email, s)
    | CREATE_EMPLOYEE =>
        if SQLAgent.is_hr user_role then (create_employee, s)
        else (not_permitted, s)
    | UPDATE_EMPLOYEE =>
        if SQLAgent.is_hr user_role then (update_employee, s)
        else (not_permitted, s)
    | DELETE_EMPLOYEE =>
        if SQLAgent.is_hr user_role then (delete_employee, s)
        else (not_permitted, s)
    | QUERY_DATA =>
        let '(result, w) := query_employee_data query user_id (s_world s) in
        (result, mkSite w (s_desk s) (s_calls s))
    end.

End WithServices.
End EmployeeAgent.

(** ** agents/main_agent.py: classification and routing *)

Module Orchestrator.
Import MainAgent.

(** The dictionary [classify_intent] returns, and the three variables of
    its loop. *)
Record Routing : Type := mkRouting {
  agents : list string;
  action : string;
  is_fusion : bool
}.

(** One turn of the loop over the lines of the model's answer. *)
Definition read_line (r : Routing) (raw_line : string) : Routing :=
  let line := PyStr.strip raw_line in
  if PyStr.startswith line "AGENTS:" then
    let agents_text := PyStr.strip (PyStr.replace line "AGENTS:" "") in
    mkRouting
      (agents r
         ++ (if PyStr.contains "SQL" agents_text then ["SQL"] else [])
         ++ (if PyStr.contains "POLICY" agents_text then ["POLICY"] else []))
      (action r) (is_fusion r)
  else if PyStr.startswith line "ACTION:" then
    mkRouting (agents r)
      (PyStr.lower (PyStr.strip (PyStr.replace line "ACTION:" "")))
      (is_fusion r)
  else if PyStr.startswith line "FUSION:" then
    mkRouting (agents r) (action r) (PyStr.contains "true" (PyStr.lower line))
  else r.

(** From the answer of the model, stripped, to the dictionary. *)
Definition read_routing (response : string) : Routing :=
  let r := fold_left read_line (PyStr.split response LF)
             (mkRouting [] "query_data" false) in
  mkRouting (agents r) (action r)
            (is_fusion r || (1 <? length (agents r))%nat).

(** [result.get("operation") in ["UPDATE", "INSERT", "DELETE"]]. *)
Definition reports_mutation (operation : option PyVal) : bool :=
  match operation with
  | Some (PStr op) => bool_decide (op ∈ ["UPDATE"; "INSERT"; "DELETE"])
  | _ => false
  end.

Definition database_footer : string :=
  LF +:+ LF +:+ "---" +:+ LF +:+ "📊 Source: Employee Database".

Definition policy_footer : string :=
  LF +:+ LF +:+ "---" +:+ LF +:+ "📚 Source: Company Policy Documents".

(** The line of one referenced section: [f"\n  {i}. {doc['content'][:100]}..."]. *)
Definition section_line (i : nat) (doc : PyVal) : PyExc + string :=
  match doc with
  | PRecord r =>
      match EmployeeAgent.cell "content" r with
      | Some (PStr content) =>
          inr (LF +:+ "  " +:+ pretty i +:+ ". " +:+ PyStr.take 100 content
                 +:+ "...")
      | Some _ => inl (PyException "content is not a string")
      | None => inl (PyException "'content'")
      end
  | _ => inl (PyException "document is not a dictionary")
  end.

Fixpoint section_lines (i : nat) (docs : list PyVal) : PyExc + string :=
  match docs with
  | [] => inr ""
  | doc :: rest =>
      match section_line i doc with
      | inl e => inl e
      | inr line =>
          match section_lines (S i) rest with
          | inl e => inl e
          | inr lines => inr (line +:+ lines)
          end
      end
  end.

(** What [execute_policy_query] adds for a value of [source_documents]
    that is true; a value that is not a list cannot be sliced into
    documents and raises (the text of that exception is not modelled). *)
Definition referenced_sections (sources : option PyVal) : PyExc + string :=
  if truthy sources then
    match sources with
    | Some (PList docs) =>
        match section_lines 1 (take 3 docs) with
        | inl e => inl e
        | inr lines => inr (LF +:+ "📄 Referenced Sections:" +:+ lines)
        end
    | _ => inl (PyException "sources are not a list of documents")
    end
  else inr "".

Section WithServices.
Context `{Services}.
Import PayslipGenerator EmployeeAgent.

Definition classify_intent (a : Agent) (question : string) : M Routing :=
  do response <- llm__call (prompt_classify (current_user_role a) question);
  ret (read_routing (PyStr.strip response)).

Definition execute_sql_query (a : Agent) (question : string) : M string :=
  fun w =>
    let '(sql, w1) :=
      SQLAgent.generate_sql question (current_user_id a)
                            (current_user_role a) w in
    let '(result, w2) := SQLAgent.execute_sql sql (current_user_role a) w1 in
    match result !! "error" with
    | Some e => (inr ("❌ " +:+ MainAgent.fmt e), w2)
    | None =>
        if reports_mutation (result !! "operation") then
          (inr (MainAgent.fmt
                  (default (PStr "✅ Operation completed successfully")
                           (result !! "message"))), w2)
        else
          (do response <-
             llm__call
               (prompt_augment question
                  (MainAgent.fmt (default (PStr "N/A") (result !! "sql")))
                  (py_str (default (PList []) (result !! "data"))));
           ret (PyStr.strip response +:+ database_footer)) w2
    end.

Definition execute_policy_query (question : string) : M string :=
  do result <- PolicyAgent.query question false;
  match result !! "error" with
  | Some e => ret ("❌ " +:+ MainAgent.fmt e)
  | None =>
      let answer :=
        MainAgent.fmt (default (PStr "No answer found") (result !! "answer")) in
      do sections <- lift (referenced_sections (result !! "source_documents"));
      ret (answer +:+ policy_footer +:+ sections)
  end.

(** A computation on the world, run on the site. *)
Definition at_site {A} (m : M A) : Site -> (PyExc + A) * Site :=
  fun s =>
    let '(r, w) := m (s_world s) in (r, mkSite w (s_desk s) (s_calls s)).

(** [emp_id] of the two handlers: the caller's own identifier, or for HR
    the one the model extracts from the question unless it answers NONE or
    nothing. *)
Definition resolve_emp_id (a : Agent) (question : string)
  : M (option string) :=
  if SQLAgent.is_hr (current_user_role a) then
    do response <- llm__call (prompt_extract_id question);
    let extracted_id := PyStr.strip response in
    if negb (String.eqb extracted_id "NONE") && negb (String.eqb extracted_id "")
    then ret (Some extracted_id)
    else ret (current_user_id a)
  else ret (current_user_id a).

Definition handle_payslip_generation (a : Agent) (question : string)
  : Site -> (PyExc + string) * Site :=
  fun s =>
    match at_site (resolve_emp_id a question) s with
    | (inl e, s1) => (inl e, s1)
    | (inr emp_id, s1) =>
        match emp_id with
        | Some (String c i) =>
            let emp_id := String c i in
            let '(result, s2) :=
              handle_query ("generate payslip for " +:+ emp_id)
                           (current_user_role a) (Some emp_id) s1 in
            if truthy (result !! "success") then
              (inr ("✅ Payslip generated successfully for employee "
                      +:+ emp_id +:+ "!" +:+ LF +:+ LF
                      +:+ MainAgent.fmt (default (PStr "") (result !! "message"))
                      +:+ LF +:+ LF +:+ "📁 File saved: "
                      +:+ MainAgent.fmt
                            (default (PStr "payslip.pdf") (result !! "filename"))),
               s2)
            else (inr ("❌ Error generating payslip: " +:+ dict_str result), s2)
        | _ =>
            (inr "❌ Please specify an employee ID for payslip generation.", s1)
        end
    end.

Definition handle_email_sending (a : Agent) (question : string)
  : Site -> (PyExc + string) * Site :=
  fun s =>
    match at_site (resolve_emp_id a question) s with
    | (inl e, s1) => (inl e, s1)
    | (inr emp_id, s1) =>
        match emp_id with
        | Some (String c i) =>
            let emp_id := String c i in
            let '(result, s2) :=
              handle_query ("send payslip email to " +:+ emp_id)
                           (current_user_role a) (Some emp_id) s1 in
            if truthy (result !! "success") then
              (inr ("✅ Email sent successfully to employee " +:+ emp_id
                      +:+ "!" +:+ LF +:+ LF
                      +:+ MainAgent.fmt (default (PStr "") (result !! "message"))),
               s2)
            else (inr ("❌ Error sending email: " +:+ dict_str result), s2)
        | _ => (inr "❌ Please specify an employee ID for sending email.", s1)
        end
    end.

Definition undetermined : string :=
  "❌ Could not determine how to handle this query. Please try rephrasing.".

(** The body of the [try] of [query]. *)
Definition route (a : Agent) (question : string)
  : Site -> (PyExc + string) * Site :=
  fun s =>
    match at_site (classify_intent a question) s with
    | (inl e, s1) => (inl e, s1)
    | (inr intent, s1) =>
        if String.eqb (action intent) "generate_payslip" then
          handle_payslip_generation a question s1
        else if String.eqb (action intent) "send_email" then
          handle_email_sending a question s1
        else if is_fusion intent then
          at_site (execute_fusion_query a question) s1
        else if bool_decide ("POLICY" ∈ agents intent) then
          at_site (execute_policy_query question) s1
        else if bool_decide ("SQL" ∈ agents intent) then
          at_site (execute_sql_query a question) s1
        else (inr undetermined, s1)
    end.

Definition query (a : Agent) (question : string) : Site -> string * Site :=
  fun s =>
    match route a question s with
    | (inr answer, s') => (answer, s')
    | (inl e, s') => ("❌ Error processing query: " +:+ exc_str e, s')
    end.

End WithServices.
End Orchestrator.

(** ** Services for the small platform *)

Module DemoServices.

(** The desk is the list of what was written and sent.  A read with a
    parameter returns the rows whose first cell is the parameter. *)
Definition row_of (params : list string) (row : list PyVal) : bool :=
  match row with
  | PStr id :: _ => bool_decide (id ∈ params)
  | _ => false
  end.

Definition read_params (sql : string) (params : list string) (d : Demo.Store)
  : PyExc + DataFrame :=
  Demo.guarded d
    (mkDataFrame (map fst (Demo.columns d))
                 (filter (fun row => row_of params row = true) (Demo.rows d))).

Definition written (ext emp_id : string) (data : list (string * PyVal))
    (desk : list string) : (PyExc + string) * list string :=
  let filename := "generated_payslips/payslip_" +:+ emp_id +:+ ext in
  (inr filename, desk ++ [filename]).

Definition mailed (emp_id email path : string) (desk : list string)
  : (PyExc + gmap string PyVal) * list string :=
  (inr (dict_of [ ("success", PBool true);
                  ("message", PStr ("Email sent to " +:+ email)) ]),
   desk ++ ["mail to " +:+ email]).

Definition services : @Services Demo.platform :=
  @Build_Services Demo.platform
    (list string)
    read_params
    (written ".txt")
    (written ".pdf")
    mailed
    (fun _ => "<dict>")
    (fun _ question => question)
    (fun question => question)
    (fun question sql data => question +:+ sql +:+ data).

Definition site (d : Demo.Store) (script : list (PyExc + string))
    (ix : option string) : @PayslipGenerator.Site Demo.platform services :=
  @PayslipGenerator.mkSite Demo.platform services
    (Demo.world d script ix) [] [].

End DemoServices.

(** ** A platform whose store refuses every change *)

Module DemoLocked.

Definition conflict : PyExc :=
  IntegrityError "UNIQUE constraint failed: employees.EmployeeNumber".

(** The small platform, except that [cursor.execute] raises. *)
Definition platform : Platform :=
  @Build_Platform
    Demo.Store (list (PyExc + string)) (option string)
    (@sqlite_connect Demo.platform)
    (@pragma_table_info Demo.platform)
    (@pd_read_sql Demo.platform)
    (fun _ _ => inl conflict)
    (@conn_commit Demo.platform)
    (@round2 Demo.platform)
    (@py_str Demo.platform)
    (@llm_call Demo.platform)
    (@prompt_update Demo.platform)
    (@prompt_insert Demo.platform)
    (@prompt_delete Demo.platform)
    (@prompt_select Demo.platform)
    (@prompt_policy Demo.platform)
    (@prompt_fusion Demo.platform)
    (@policy_is_loaded Demo.platform)
    (@policy_load_existing_index Demo.platform)
    (@policy_build_context Demo.platform)
    (@policy_clean_text Demo.platform)
    (@policy_format_bullets Demo.platform).

Definition world (d : Demo.Store) : @World platform :=
  @mkWorld platform d [] None [].

End DemoLocked.

(** ** A platform whose store cannot commit *)

Module DemoBusy.

Definition locked : PyExc := OperationalError "database is locked".

(** The small platform, except that [conn.commit()] raises. *)
Definition platform : Platform :=
  @Build_Platform
    Demo.Store (list (PyExc + string)) (option string)
    (@sqlite_connect Demo.platform)
    (@pragma_table_info Demo.platform)
    (@pd_read_sql Demo.platform)
    (@cursor_execute Demo.platform)
    (fun _ _ => inl locked)
    (@round2 Demo.platform)
    (@py_str Demo.platform)
    (@llm_call Demo.platform)
    (@prompt_update Demo.platform)
    (@prompt_insert Demo.platform)
    (@prompt_delete Demo.platform)
    (@prompt_select Demo.platform)
    (@prompt_policy Demo.platform)
    (@prompt_fusion Demo.platform)
    (@policy_is_loaded Demo.platform)
    (@policy_load_existing_index Demo.platform)
    (@policy_build_context Demo.platform)
    (@policy_clean_text Demo.platform)
    (@policy_format_bullets Demo.platform).

Definition world (d : Demo.Store) : @World platform :=
  @mkWorld platform d [] None [].

End DemoBusy.

(** ** A platform whose store reads the first word *)

Module DemoStrict.

Definition DQ : string := String (ascii_of_nat 34) EmptyString.

(** The message of SQLite for a text it cannot parse from its first
    word on. *)
Definition syntax_error (sql : string) : string :=
  "near " +:+ DQ +:+ hd "" (SqlText.sql_words sql) +:+ DQ
    +:+ ": syntax error".

(** The error of [pd.read_sql], which wraps the one of SQLite. *)
Definition read_failed (sql : string) : PyExc :=
  PyException ("Execution failed on sql '" +:+ sql +:+ "': "
                 +:+ syntax_error sql).

(** The small platform, except that the store looks at the first word of
    a text, as SQLite does before anything else: a read must begin with
    the word SELECT and a change with UPDATE, INSERT or DELETE, and any
    other text is a syntax error. *)
Definition platform : Platform :=
  @Build_Platform
    Demo.Store (list (PyExc + string)) (option string)
    (@sqlite_connect Demo.platform)
    (@pragma_table_info Demo.platform)
    (fun sql d =>
       if String.eqb (SqlText.leading_keyword sql) "SELECT"
       then @pd_read_sql Demo.platform sql d
       else inl (read_failed sql))
    (fun sql d =>
       if bool_decide (SqlText.leading_keyword sql
                         ∈ ["UPDATE"; "INSERT"; "DELETE"])
       then @cursor_execute Demo.platform sql d
       else inl (OperationalError (syntax_error sql)))
    (@conn_commit Demo.platform)
    (@round2 Demo.platform)
    (@py_str Demo.platform)
    (@llm_call Demo.platform)
    (@prompt_update Demo.platform)
    (@prompt_insert Demo.platform)
    (@prompt_delete Demo.platform)
    (@prompt_select Demo.platform)
    (@prompt_policy Demo.platform)
    (@prompt_fusion Demo.platform)
    (@policy_is_loaded Demo.platform)
    (@policy_load_existing_index Demo.platform)
    (@policy_build_context Demo.platform)
    (@policy_clean_text Demo.platform)
    (@policy_format_bullets Demo.platform).

Definition world (d : Demo.Store) (script : list (PyExc + string))
    (ix : option string) : @World platform :=
  @mkWorld platform d script ix [].

End DemoStrict.

(** ** Vocabulary of the further properties *)

Module Lexicon.
Import PyStr.

(** The keywords [_clean_sql] looks for at the start of a line. *)
Definition statement_keywords : list string :=
  ["SELECT"; "UPDATE"; "INSERT"; "DELETE"].

(** [s.isascii()]: the text is its own bytes, and [lower], [upper],
    [strip] and [split] above are Python's on it. *)
Definition is_ascii (s : string) : bool :=
  forallb (fun c => (N_of_ascii c <? 128)%N) (list_ascii_of_string s).

(** Whatever the model answers to the prompt of the generator of a kind
    is ASCII text. *)
Definition ascii_answer `{Platform} (intent : SQLAgent.Intent)
    (nl_query : string) (user_id : option string) (w : World) : Prop :=
  forall raw l,
    llm_call (Pipeline.prompt_for intent nl_query user_id (w_db w)) (w_llm w)
    = (inr raw, l) ->
    is_ascii raw = true.

(** Neither whitespace nor a semicolon. *)
Definition plain (c : ascii) : bool :=
  negb (isspace c) && negb (mem_char c ";").

Fixpoint all_plain (s : string) : bool :=
  match s with
  | EmptyString => true
  | String c s' => plain c && all_plain s'
  end.

Fixpoint all_upper (s : string) : bool :=
  match s with
  | EmptyString => true
  | String c s' => is_ascii_upper c && all_upper s'
  end.

(** The report [execute_sql] makes of a committed statement whose first
    word is [first]. *)
Definition mutation_report (sql first : string) (rows_affected : Z)
  : gmap string PyVal :=
  dict_of [ ("success", PBool true);
            ("message",
             PStr ("✅ " +:+ upper first +:+ " successful! "
                     +:+ pretty rows_affected +:+ " row(s) affected."));
            ("sql", PStr sql);
            ("rows_affected", PInt rows_affected);
            ("operation", PStr (upper first)) ].

(** Nothing of [calls] is a mail. *)
Definition no_mail (calls : list DeskOp) : bool :=
  forallb (fun o => negb (is_mail o)) calls.

(** From [w] to [w'] the rows of the store are the same and the store saw
    what a payslip generator does for [emp_id]: nothing when the
    connection cannot be opened, and otherwise one read, with the
    identifier as its one parameter, closed unless the read raised. *)
Definition payslip_reads `{Services} (emp_id : string) (w w' : World)
  : Prop :=
  let query :=
    PayslipGenerator.payslip_query (DbSetup.get_employee_id_column (w_db w)) in
  exists ops,
    Pipeline.store_saw w w' ops
    /\ (ops = []
        \/ ops = [OpConnect; OpReadParams query [emp_id]]
        \/ ops = [OpConnect; OpReadParams query [emp_id]; OpClose]).

(** The desk was asked for nothing, or for the one payslip of [emp_id]. *)
Definition payslip_written (pdf : bool) (emp_id : string)
    (calls calls' : list DeskOp) : Prop :=
  calls' = calls
  \/ calls' = calls ++ [if pdf then OpWritePdf emp_id else OpWriteText emp_id].

End Lexicon.

(* ===================================================================== *)
(** * Part II: properties                                                 *)
(* ===================================================================== *)

(** ** The string built-ins *)

Module PyStrFacts.
Import PyStr.

Lemma append_cons (c : ascii) (s t : string) :
  String c s +:+ t = String c (s +:+ t).
Proof. reflexivity. Qed.

Lemma append_empty_l (t : string) : "" +:+ t = t.
Proof. reflexivity. Qed.

Lemma append_assoc (s t u : string) : (s +:+ t) +:+ u = s +:+ t +:+ u.
Proof.
  induction s as [|c s IH]; [reflexivity|].
  rewrite !append_cons. now rewrite IH.
Qed.

Lemma lower_app (s t : string) : lower (s +:+ t) = lower s +:+ lower t.
Proof.
  induction s as [|c s IH]; [reflexivity|].
  rewrite append_cons. cbn [lower]. now rewrite IH, append_cons.
Qed.

Lemma upper_app (s t : string) : upper (s +:+ t) = upper s +:+ upper t.
Proof.
  induction s as [|c s IH]; [reflexivity|].
  rewrite append_cons. cbn [upper]. now rewrite IH, append_cons.
Qed.

Lemma startswith_app (s t p : string) :
  startswith s p = true -> startswith (s +:+ t) p = true.
Proof.
  revert s. induction p as [|a p IH]; intros s Hs; [reflexivity|].
  destruct s as [|b s]; [discriminate|].
  rewrite append_cons. cbn [startswith] in *.
  destruct (Ascii.eqb a b); [auto|discriminate].
Qed.

Lemma startswith_refl_app (p t : string) : startswith (p +:+ t) p = true.
Proof.
  induction p as [|a p IH]; [reflexivity|].
  rewrite append_cons. cbn [startswith].
  now rewrite Ascii.eqb_refl.
Qed.

Lemma contains_unfold (sub s : string) :
  contains sub s =
    startswith s sub
    || match s with EmptyString => false | String _ s' => contains sub s' end.
Proof. destruct s; reflexivity. Qed.

Lemma contains_app_l (sub s t : string) :
  contains sub s = true -> contains sub (s +:+ t) = true.
Proof.
  induction s as [|c s IH]; intros Hs.
  - rewrite contains_unfold in Hs. rewrite orb_false_r in Hs.
    destruct sub; [|discriminate].
    rewrite contains_unfold. now destruct ("" +:+ t).
  - rewrite append_cons. rewrite contains_unfold in Hs |- *.
    apply orb_true_iff in Hs as [Hs|Hs].
    + apply (startswith_app _ t) in Hs. rewrite append_cons in Hs.
      now rewrite Hs.
    + rewrite (IH Hs). apply orb_true_r.
Qed.

Lemma contains_app_r (sub s t : string) :
  contains sub t = true -> contains sub (s +:+ t) = true.
Proof.
  intros Ht. induction s as [|c s IH]; [exact Ht|].
  rewrite append_cons, contains_unfold, IH. apply orb_true_r.
Qed.

Lemma contains_refl_app (sub t : string) : contains sub (sub +:+ t) = true.
Proof. rewrite contains_unfold, startswith_refl_app. reflexivity. Qed.

Lemma startswith_refl (s : string) : startswith s s = true.
Proof.
  induction s as [|c s IH]; [reflexivity|].
  cbn [startswith]. now rewrite Ascii.eqb_refl.
Qed.

Lemma contains_refl (s : string) : contains s s = true.
Proof. now rewrite contains_unfold, startswith_refl. Qed.

Lemma contains_mid (sub s t : string) : contains sub (s +:+ sub +:+ t) = true.
Proof. apply contains_app_r, contains_refl_app. Qed.

(** [s.startswith(p)] and [sub in s], by the pieces of [s]. *)
Lemma startswith_inv (s p : string) :
  startswith s p = true -> exists b, s = p +:+ b.
Proof.
  revert s. induction p as [|a p IH]; intros s Hs; [now exists s|].
  destruct s as [|c s]; [discriminate|]. cbn [startswith] in Hs.
  destruct (Ascii.eqb_spec a c) as [->|]; [|discriminate].
  destruct (IH s Hs) as (b & ->). now exists b.
Qed.

Lemma contains_inv (sub s : string) :
  contains sub s = true -> exists a b, s = a +:+ sub +:+ b.
Proof.
  induction s as [|c s IH]; intros Hin; rewrite contains_unfold in Hin;
    apply orb_true_iff in Hin as [Hin|Hin]; try discriminate.
  - destruct (startswith_inv _ _ Hin) as (b & E). now exists "", b.
  - destruct (startswith_inv _ _ Hin) as (b & E). now exists "", b.
  - destruct (IH Hin) as (a & b & ->). now exists (String c a), b.
Qed.


(** A piece of a piece is a piece. *)
Lemma contains_part (x y z s : string) :
  contains (x +:+ y +:+ z) s = true -> contains y s = true.
Proof.
  intros Hin. destruct (contains_inv _ _ Hin) as (a & b & ->).
  rewrite !append_assoc, <- (append_assoc a x). apply contains_mid.
Qed.

Example startswith_is_prefix :
  startswith "UPDATED" "UPDATE" = true /\ startswith "UPDAT" "UPDATE" = false.
Proof. split; reflexivity. Qed.

Example lower_is_ascii : lower "Delete FROM x_Y" = "delete from x_y".
Proof. reflexivity. Qed.

Example split_drops_separators :
  split "a```sql b```c" "```" = ["a"; "sql b"; "c"]
  /\ split "aaaa" "aa" = [""; ""; ""]
  /\ split "abc" "x" = ["abc"].
Proof. repeat split; reflexivity. Qed.

Example replace_all_occurrences :
  replace "REJECTED_SQL: x REJECTED_SQL: y" "REJECTED_SQL: " "" = "x y".
Proof. reflexivity. Qed.

Example strip_rstrip :
  strip (String (ascii_of_nat 9) " a b ; ") = "a b ;"
  /\ rstrip_chars "a;b;;" ";" = "a;b".
Proof. split; reflexivity. Qed.

Example split_ws_words : split_ws " update  t set" = ["update"; "t"; "set"].
Proof. reflexivity. Qed.

End PyStrFacts.

(** ** Cleaning the answer of the model *)

Module CleanFacts.
Import PyStr PyStrFacts SQLAgent.

Lemma split_go_nonempty (sep s : string) (skip : nat) (cur : list ascii) :
  split_go sep s skip cur <> [].
Proof.
  revert skip cur. induction s as [|c s IH]; intros skip cur; [discriminate|].
  cbn [split_go]. destruct skip as [|k]; [|apply IH].
  destruct (startswith (String c s) sep); [discriminate|apply IH].
Qed.

(** [sep in s] gives [s.split(sep)] a second element. *)
Lemma split_has_second (sep s : string) :
  sep <> "" -> contains sep s = true ->
  exists first second rest, split s sep = first :: second :: rest.
Proof.
  intros Hsep. unfold split. generalize (@nil ascii) as cur.
  induction s as [|c s IH]; intros cur Hin.
  - destruct sep; [congruence|discriminate].
  - rewrite contains_unfold in Hin. cbn [split_go].
    destruct (startswith (String c s) sep) eqn:Hstart.
    + pose proof (split_go_nonempty sep s (String.length sep - 1) []) as Hne.
      destruct (split_go sep s (String.length sep - 1) []) as [|second rest];
        [congruence|eauto].
    + cbn [orb] in Hin. apply IH. exact Hin.
Qed.

(** [_clean_sql] never has an index out of range: it returns a statement
    for every answer of the model. *)
Lemma _clean_sql_total (raw : string) : exists sql, _clean_sql raw = inr sql.
Proof.
  unfold _clean_sql.
  destruct (contains "```sql" raw) eqn:Hsql;
    [|destruct (contains "```" raw) eqn:Hfence]; [| |eauto].
  - destruct (split_has_second "```sql" raw) as (a & b & rest & ->);
      [discriminate|assumption|].
    pose proof (split_go_nonempty "```" b 0 []) as Hne. unfold split.
    destruct (split_go "```" b 0 []); [congruence|eauto].
  - destruct (split_has_second "```" raw) as (a & b & rest & ->);
      [discriminate|assumption|].
    pose proof (split_go_nonempty "```" b 0 []) as Hne. unfold split.
    destruct (split_go "```" b 0 []); [congruence|eauto].
Qed.

Example clean_fenced :
  _clean_sql ("Here is the query:" +:+ LF +:+ "```sql" +:+ LF
                +:+ "select Name from employees;" +:+ LF +:+ "```")
  = inr "select Name from employees".
Proof. reflexivity. Qed.

Example clean_picks_first_statement_line :
  _clean_sql ("Sure." +:+ LF +:+ "  DELETE FROM employees ;; " +:+ LF
                +:+ "SELECT 1")
  = inr "DELETE FROM employees".
Proof. reflexivity. Qed.

Example clean_keeps_other_text : _clean_sql "I cannot do that." = inr "I cannot do that.".
Proof. reflexivity. Qed.

End CleanFacts.

(** ** The row filter of non-privileged reads *)

Module EnsureUserFilterFacts.
Section WithPlatform.
Context `{Platform}.
Import PyStr PyStrFacts SQLAgent.


(** Appending the condition, after either connective, gives a statement
    that mentions the identity column and the identifier. *)
Lemma appended_mentions_column (sql kw id_col user_id : string) :
  contains (lower id_col)
    (lower (sql +:+ kw +:+ user_condition id_col user_id)) = true.
Proof.
  unfold user_condition. rewrite !lower_app.
  apply contains_app_r, contains_mid.
Qed.

Lemma appended_mentions_user (sql kw id_col user_id : string) :
  contains user_id (sql +:+ kw +:+ user_condition id_col user_id) = true.
Proof.
  unfold user_condition.
  do 4 apply contains_app_r. apply contains_refl_app.
Qed.

Lemma appended_where (sql cond : string) :
  contains "where" (lower (sql +:+ " WHERE " +:+ cond)) = true.
Proof.
  rewrite !lower_app. apply contains_app_r, contains_app_l. reflexivity.
Qed.

End WithPlatform.
End EnsureUserFilterFacts.

Section Idempotence.
Context `{Platform}.
Import PyStr PyStrFacts SQLAgent EnsureUserFilterFacts.


End Idempotence.

Section IdempotenceExamples.
Import PyStr SQLAgent.


Example ensure_user_filter_adds_where_then_keeps :
  @_ensure_user_filter Demo.platform Demo.store
    "SELECT MonthlyIncome FROM employees" "E007"
  = "SELECT MonthlyIncome FROM employees WHERE EmployeeNumber = 'E007'"
  /\ @_ensure_user_filter Demo.platform Demo.store
       "SELECT Name FROM employees WHERE Department = 'Sales'" "E007"
     = "SELECT Name FROM employees WHERE Department = 'Sales' AND EmployeeNumber = 'E007'".
Proof. split; reflexivity. Qed.

End IdempotenceExamples.

(** ** Classification *)

Section Classification.
Import SQLAgent.

(** C1. For every query text, a caller whose role is not HR is classified
    SELECT, whatever mutating words the text holds: never UPDATE, INSERT
    or DELETE. *)
Theorem classify_non_hr_is_select (nl_query : string)
    (user_role : option string) :
  user_role <> Some "hr" ->
  classify_sql_intent nl_query user_role = SELECT.
Proof.
  intros Hrole. unfold classify_sql_intent.
  destruct user_role as [r|]; cbn [is_hr]; [|reflexivity].
  destruct (String.eqb_spec r "hr") as [->|_]; [congruence|reflexivity].
Qed.

Lemma classify_non_hr_is_select_witness :
  Some "employee" <> Some "hr"
  /\ classify_sql_intent "update my salary to 100000 and delete the rest"
       (Some "employee") = SELECT.
Proof.
  split; [discriminate|].
  apply classify_non_hr_is_select. discriminate.
Defined.

End Classification.

(** ** The execution engine *)

Module ExecuteFacts.
Section WithPlatform.
Context `{Platform}.
Import PyStr PyStrFacts SQLAgent Pipeline.

(** A sentinel starts with the letter R, a statement with S, U, I or D. *)
Lemma rejected_not_select (sql : string) :
  is_rejected sql = true -> startswith (upper sql) "SELECT" = false.
Proof.
  unfold is_rejected. destruct sql as [|c s]; [discriminate|].
  cbn [startswith upper].
  destruct (Ascii.eqb_spec "R" c) as [<-|]; [intros _; reflexivity|discriminate].
Qed.

Lemma rejected_not_mutating (sql : string) :
  is_rejected sql = true -> is_mutating sql = false.
Proof.
  unfold is_rejected, is_mutating. destruct sql as [|c s]; [discriminate|].
  cbn [startswith upper].
  destruct (Ascii.eqb_spec "R" c) as [<-|]; [intros _; reflexivity|discriminate].
Qed.

Lemma mutating_not_select (sql : string) :
  is_mutating sql = true -> startswith (upper sql) "SELECT" = false.
Proof.
  unfold is_mutating. destruct sql as [|c s]; [discriminate|].
  cbn [startswith_any existsb startswith upper].
  destruct (Ascii.eqb_spec "S" (upper_char c)) as [<-|]; [|reflexivity].
  discriminate.
Qed.

Lemma select_not_rejected (sql : string) :
  startswith (upper sql) "SELECT" = true -> is_rejected sql = false.
Proof.
  intros Hs. destruct (is_rejected sql) eqn:Hr; [|reflexivity].
  apply rejected_not_select in Hr. congruence.
Qed.

Lemma mutating_not_rejected (sql : string) :
  is_mutating sql = true -> is_rejected sql = false.
Proof.
  intros Hs. destruct (is_rejected sql) eqn:Hr; [|reflexivity].
  apply rejected_not_mutating in Hr. congruence.
Qed.

(** A sentinel is answered before the store is opened. *)
Lemma execute_sql_rejected (sql : string) (user_role : option string)
    (w : World) :
  is_rejected sql = true ->
  execute_sql sql user_role w
  = (dict_of [ ("error", PStr (replace sql "REJECTED_SQL: " "")) ], w).
Proof. intros Hr. unfold execute_sql. unfold is_rejected in Hr. now rewrite Hr. Qed.


Lemma not_hr (user_role : option string) :
  user_role <> Some "hr" -> is_hr user_role = false.
Proof.
  intros Hrole. destruct user_role as [r|]; [|reflexivity]. cbn.
  destruct (String.eqb_spec r "hr") as [->|_]; [congruence|reflexivity].
Qed.

(** The store cannot be opened: the handler of the exception answers. *)
Lemma execute_sql_connect_failed (sql : string) (user_role : option string)
    (w : World) (e : PyExc) :
  is_rejected sql = false ->
  sqlite_connect (w_db w) = inl e ->
  execute_sql sql user_role w = (execution_error sql e, w).
Proof.
  intros Hrej Hconn. unfold execute_sql, execute_sql_body.
  unfold is_rejected in Hrej. rewrite Hrej.
  unfold try_except, bind, connect. now rewrite Hconn.
Qed.

(** The mutating branch, for a caller who is not HR. *)
Lemma execute_sql_denied (sql : string) (user_role : option string)
    (w : World) :
  is_mutating sql = true ->
  is_hr user_role = false ->
  sqlite_connect (w_db w) = inr tt ->
  execute_sql sql user_role w
  = (dict_of [ ("error", PStr permission_denied); ("sql", PStr sql) ],
     mkWorld (w_db w) (w_llm w) (w_index w)
             (w_trace w ++ [OpConnect; OpClose])).
Proof.
  intros Hmut Hrole Hconn.
  pose proof (mutating_not_rejected _ Hmut) as Hrej.
  pose proof (mutating_not_select _ Hmut) as Hsel.
  unfold execute_sql, execute_sql_body.
  unfold is_rejected in Hrej. unfold is_mutating in Hmut.
  rewrite Hrej, Hsel, Hmut, Hrole.
  unfold try_except, bind, connect, close, log, ret. rewrite Hconn.
  cbn [negb w_db w_llm w_index w_trace]. now rewrite <- app_assoc.
Qed.

(** The reading branch. *)
Lemma execute_sql_select (sql : string) (user_role : option string)
    (w : World) :
  startswith (upper sql) "SELECT" = true ->
  sqlite_connect (w_db w) = inr tt ->
  execute_sql sql user_role w
  = match pd_read_sql sql (w_db w) with
    | inl e =>
        (execution_error sql e,
         mkWorld (w_db w) (w_llm w) (w_index w)
                 (w_trace w ++ [OpConnect; OpReadSql sql]))
    | inr df =>
        (if df_empty df then
           dict_of [ ("success", PBool true);
                     ("message", PStr "No results found");
                     ("sql", PStr sql);
                     ("data", PList []);
                     ("count", PInt 0) ]
         else
           dict_of [ ("success", PBool true);
                     ("sql", PStr sql);
                     ("data",
                      PList (map PRecord
                               (map round_record (df_to_records df))));
                     ("count", PInt (Z.of_nat (length (df_rows df))));
                     ("columns", PList (map PStr (df_columns df))) ],
         mkWorld (w_db w) (w_llm w) (w_index w)
                 (w_trace w ++ [OpConnect; OpReadSql sql; OpClose]))
    end.
Proof.
  intros Hsel Hconn.
  pose proof (select_not_rejected _ Hsel) as Hrej.
  unfold execute_sql, execute_sql_body.
  unfold is_rejected in Hrej. rewrite Hrej, Hsel.
  unfold try_except, bind, connect, read_sql, close, bind, log, ret.
  rewrite Hconn. cbn [w_db w_llm w_index w_trace].
  destruct (pd_read_sql sql (w_db w)) as [e|df].
  - now rewrite <- app_assoc.
  - destruct (df_empty df); now rewrite <- !app_assoc.
Qed.

(** Neither a sentinel, nor a SELECT, nor a mutation. *)
Lemma execute_sql_unsupported (sql : string) (user_role : option string)
    (w : World) :
  is_rejected sql = false ->
  startswith (upper sql) "SELECT" = false ->
  is_mutating sql = false ->
  sqlite_connect (w_db w) = inr tt ->
  execute_sql sql user_role w
  = (dict_of [ ("error", PStr "Unsupported SQL operation") ],
     mkWorld (w_db w) (w_llm w) (w_index w)
             (w_trace w ++ [OpConnect; OpClose])).
Proof.
  intros Hrej Hsel Hmut Hconn.
  unfold execute_sql, execute_sql_body.
  unfold is_rejected in Hrej. unfold is_mutating in Hmut.
  rewrite Hrej, Hsel, Hmut.
  unfold try_except, bind, connect, close, log, ret.
  rewrite Hconn. cbn [w_db w_llm w_index w_trace]. now rewrite <- !app_assoc.
Qed.

End WithPlatform.
End ExecuteFacts.

Section Execution.
Context `{Platform}.
Import PyStr PyStrFacts SQLAgent Pipeline ExecuteFacts.


(** C8. Every SELECT whose execution returns an empty result set gives a
    success result with count 0 and an empty data list, and no error. *)
Theorem empty_select_is_success (sql : string) (user_role : option string)
    (w : World) (df : DataFrame) :
  startswith (upper sql) "SELECT" = true ->
  sqlite_connect (w_db w) = inr tt ->
  pd_read_sql sql (w_db w) = inr df ->
  df_empty df = true ->
  let result := fst (execute_sql sql user_role w) in
  result = dict_of [ ("success", PBool true);
                     ("message", PStr "No results found");
                     ("sql", PStr sql);
                     ("data", PList []);
                     ("count", PInt 0) ]
  /\ result !! "success" = Some (PBool true)
  /\ result !! "count" = Some (PInt 0)
  /\ result !! "data" = Some (PList [])
  /\ has_key "error" result = false.
Proof.
  intros Hsel Hconn Hread Hempty. cbn zeta.
  rewrite (execute_sql_select _ _ _ Hsel Hconn), Hread, Hempty.
  cbn [fst]. repeat split.
Qed.

End Execution.

Section ExecutionExamples.
Import PyStr SQLAgent Pipeline.



Lemma empty_select_is_success_witness :
  fst (@execute_sql Demo.platform
         "SELECT Name FROM employees WHERE EmployeeNumber = '1'"
         (Some "employee") (Demo.world Demo.empty_store [] None))
  !! "count" = Some (PInt 0).
Proof.
  apply (@empty_select_is_success Demo.platform
           "SELECT Name FROM employees WHERE EmployeeNumber = '1'"
           (Some "employee") (Demo.world Demo.empty_store [] None)
           (mkDataFrame (map fst Demo.employees_columns) []));
    reflexivity.
Defined.

End ExecutionExamples.

(** ** The generators *)

Module GenerateFacts.
Import PyStr PyStrFacts SQLAgent Pipeline ExecuteFacts.

(** Unfold a generator down to the answer of the model. *)
Ltac open_generator :=
  unfold generate_update_sql, generate_insert_sql, generate_delete_sql,
    generate_select_sql, try_except, bind, llm__call, lift, ret.

Section WithPlatform.
Context `{Platform}.

Lemma generate_sql_dispatch (nl_query : string)
    (user_id user_role : option string) :
  generate_sql nl_query user_id user_role
  = generator (classify_sql_intent nl_query user_role) nl_query user_id.
Proof.
  unfold generate_sql, generator.
  now destruct (classify_sql_intent nl_query user_role).
Qed.

(** The model raised: every generator returns the generation-error
    sentinel. *)
Lemma generator_model_raises (intent : Intent) (nl_query : string)
    (user_id : option string) (w : World) (e : PyExc) (l : LLM) :
  llm_call (prompt_for intent nl_query user_id (w_db w)) (w_llm w)
  = (inl e, l) ->
  generator intent nl_query user_id w = (generation_error e, after_model w l).
Proof.
  unfold generator, prompt_for.
  destruct intent; intros Hllm; open_generator; now rewrite Hllm.
Qed.

(** The model answered [raw] and [_clean_sql] had an index out of range. *)
Lemma generator_clean_raises (intent : Intent) (nl_query : string)
    (user_id : option string) (w : World) (raw : string)
    (e : PyExc) (l : LLM) :
  llm_call (prompt_for intent nl_query user_id (w_db w)) (w_llm w)
  = (inr raw, l) ->
  _clean_sql raw = inl e ->
  generator intent nl_query user_id w = (generation_error e, after_model w l).
Proof.
  unfold generator, prompt_for.
  destruct intent; intros Hllm Hclean;
    open_generator; now rewrite Hllm, Hclean.
Qed.

(** The first test of every generator. *)
Lemma generator_wrong_keyword (intent : Intent) (nl_query : string)
    (user_id : option string) (w : World) (raw sql : string) (l : LLM) :
  llm_call (prompt_for intent nl_query user_id (w_db w)) (w_llm w)
  = (inr raw, l) ->
  _clean_sql raw = inr sql ->
  startswith (upper sql) (keyword intent) = false ->
  generator intent nl_query user_id w
  = ("REJECTED_SQL: Must be " +:+ keyword intent
       +:+ " statement -> " +:+ sql,
     after_model w l).
Proof.
  unfold generator, prompt_for.
  destruct intent; cbn [keyword]; intros Hllm Hclean Hkw;
    open_generator; now rewrite Hllm, Hclean, Hkw.
Qed.

(** What is left of the two sentinels once [execute_sql] has removed the
    marker. *)
Lemma replace_wrong_keyword (intent : Intent) (sql : string) :
  replace ("REJECTED_SQL: Must be " +:+ keyword intent
             +:+ " statement -> " +:+ sql) "REJECTED_SQL: " ""
  = "Must be " +:+ keyword intent +:+ " statement -> "
      +:+ replace sql "REJECTED_SQL: " "".
Proof. destruct intent; reflexivity. Qed.

Lemma replace_generation_error (e : PyExc) :
  replace (generation_error e) "REJECTED_SQL: " ""
  = "Generation error: " +:+ replace (exc_str e) "REJECTED_SQL: " "".
Proof. reflexivity. Qed.

End WithPlatform.
End GenerateFacts.

Section Rejection.
Context `{Platform}.
Import PyStr PyStrFacts SQLAgent Pipeline ExecuteFacts GenerateFacts.

(** C6. For each of the four kinds: when the model call raises, the
    generator returns a REJECTED sentinel that carries the generation
    error instead of raising, and [execute_sql] on that sentinel, under
    any role, returns an error and leaves the world as it was: no
    statement reaches the store. *)
Theorem model_failure_is_rejected_and_not_executed (intent : Intent)
    (nl_query : string) (user_id : option string) (w : World)
    (e : PyExc) (l : LLM) :
  llm_call (prompt_for intent nl_query user_id (w_db w)) (w_llm w)
  = (inl e, l) ->
  let out := fst (generator intent nl_query user_id w) in
  let w1 := snd (generator intent nl_query user_id w) in
  is_rejected out = true
  /\ out = "REJECTED_SQL: Generation error: " +:+ exc_str e
  /\ store_saw w w1 []
  /\ forall executing_role,
       execute_sql out executing_role w1
       = (dict_of [ ("error",
                     PStr ("Generation error: "
                             +:+ replace (exc_str e) "REJECTED_SQL: " "")) ],
          w1).
Proof.
  intros Hllm. cbn zeta.
  rewrite (generator_model_raises _ _ _ _ _ _ Hllm). cbn [fst snd].
  assert (Hrej : is_rejected (generation_error e) = true) by reflexivity.
  split; [exact Hrej|]. split; [reflexivity|]. split.
  - unfold store_saw, after_model. cbn. now rewrite app_nil_r.
  - intros executing_role.
    now rewrite (execute_sql_rejected _ _ _ Hrej), replace_generation_error.
Qed.

End Rejection.

Section RejectionExamples.
Import PyStr SQLAgent Pipeline.

(** C4, at an input where the code departs from it.  HR asks for an
    update and the model answers a text whose first word is UPDATED.  Its
    leading keyword is not UPDATE; the text starts with the letters of
    UPDATE and holds the letters WHERE, which is all the generator tests,
    so it is returned as it is and not as a sentinel, and [execute_sql]
    hands it to the store, which refuses it. *)
Theorem statement_with_other_leading_keyword_is_accepted :
  classify_sql_intent "update the salary of employee 1 to 50000" (Some "hr")
  = UPDATE
  /\ fst (@generate_sql DemoStrict.platform
            "update the salary of employee 1 to 50000" None (Some "hr")
            (DemoStrict.world Demo.store
               [inr "UPDATED employees SET MonthlyIncome = 50000 WHERE EmployeeNumber = '1'"]
               None))
     = "UPDATED employees SET MonthlyIncome = 50000 WHERE EmployeeNumber = '1'"
  /\ is_rejected
       "UPDATED employees SET MonthlyIncome = 50000 WHERE EmployeeNumber = '1'"
     = false
  /\ SqlText.leading_keyword
       "UPDATED employees SET MonthlyIncome = 50000 WHERE EmployeeNumber = '1'"
     = "UPDATED"
  /\ "UPDATED" <> keyword UPDATE
  /\ w_trace
       (snd (@execute_sql DemoStrict.platform
               "UPDATED employees SET MonthlyIncome = 50000 WHERE EmployeeNumber = '1'"
               (Some "hr") (DemoStrict.world Demo.store [] None)))
     = [ OpConnect;
         OpExecute
           "UPDATED employees SET MonthlyIncome = 50000 WHERE EmployeeNumber = '1'" ]
  /\ fst (@execute_sql DemoStrict.platform
            "UPDATED employees SET MonthlyIncome = 50000 WHERE EmployeeNumber = '1'"
            (Some "hr") (DemoStrict.world Demo.store [] None))
     !! "error"
     = Some (PStr ("Database error: "
                     +:+ DemoStrict.syntax_error
                           "UPDATED employees SET MonthlyIncome = 50000 WHERE EmployeeNumber = '1'")).
Proof.
  repeat split; try (vm_compute; reflexivity). discriminate.
Qed.

Lemma model_failure_is_rejected_and_not_executed_witness :
  fst (@generator Demo.platform DELETE "delete employee id E001" None
         (Demo.world Demo.store [] None))
  = "REJECTED_SQL: Generation error: model call timed out".
Proof.
  apply (@model_failure_is_rejected_and_not_executed Demo.platform DELETE
           "delete employee id E001" None (Demo.world Demo.store [] None)
           (PyException "model call timed out") []);
    reflexivity.
Defined.

End RejectionExamples.

(** ** The letters WHERE and the WHERE clause *)

Module SqlTextFacts.
Import PyStr PyStrFacts SqlText.

Lemma string_of_list_ascii_app (l1 l2 : list ascii) :
  string_of_list_ascii (l1 ++ l2)
  = string_of_list_ascii l1 +:+ string_of_list_ascii l2.
Proof.
  induction l1 as [|c l1 IH]; [reflexivity|].
  cbn [app string_of_list_ascii]. now rewrite IH, append_cons.
Qed.

Lemma pending_word_step (c : ascii) (cur : list ascii) (s : string) :
  string_of_list_ascii (rev (c :: cur)) +:+ s
  = string_of_list_ascii (rev cur) +:+ String c s.
Proof.
  cbn [rev]. now rewrite string_of_list_ascii_app, append_assoc.
Qed.

(** A word of the pending text followed by something is inside it. *)
Lemma flush_inside (cur : list ascii) (s w : string) :
  In w (flush cur) ->
  exists a b, string_of_list_ascii (rev cur) +:+ s = a +:+ w +:+ b.
Proof.
  destruct cur as [|c cur]; [intros []|].
  intros [<- | []]. now exists "", s.
Qed.

(** Every word the reader yields is a piece of the text it read: of the
    pending word followed by the rest outside a literal, of the rest inside
    one. *)
Lemma sql_words_go_inside (s : string) :
  forall (quoted : bool) (cur : list ascii) (w : string),
    (quoted = true -> cur = []) ->
    In w (sql_words_go s quoted cur) ->
    exists a b, string_of_list_ascii (rev cur) +:+ s = a +:+ w +:+ b.
Proof.
  induction s as [|c s IH]; intros quoted cur w Hq Hin.
  - cbn [sql_words_go] in Hin.
    destruct (flush_inside cur "" w Hin) as (a & b & E). eauto.
  - cbn [sql_words_go] in Hin. destruct quoted.
    + rewrite (Hq eq_refl). cbn [rev string_of_list_ascii].
      destruct (IH _ [] w (fun _ => eq_refl) Hin) as (a & b & E).
      cbn [rev string_of_list_ascii] in E. rewrite append_empty_l in *.
      exists (String c a), b. now rewrite append_cons, <- E.
    + destruct (Ascii.eqb c "'").
      * apply in_app_or in Hin as [Hin | Hin];
          [now apply flush_inside|].
        destruct (IH _ [] w (fun _ => eq_refl) Hin) as (a & b & E).
        cbn [rev string_of_list_ascii] in E. rewrite append_empty_l in E.
        exists (string_of_list_ascii (rev cur) +:+ String c a), b.
        now rewrite append_assoc, append_cons, <- E.
      * destruct (is_word_char c).
        -- destruct (IH false (c :: cur) w ltac:(discriminate) Hin)
             as (a & b & E).
           rewrite pending_word_step in E. eauto.
        -- apply in_app_or in Hin as [Hin | Hin];
             [now apply flush_inside|].
           destruct (IH _ [] w (fun _ => eq_refl) Hin) as (a & b & E).
           cbn [rev string_of_list_ascii] in E. rewrite append_empty_l in E.
           exists (string_of_list_ascii (rev cur) +:+ String c a), b.
           now rewrite append_assoc, append_cons, <- E.
Qed.

(** The test of the guardrail is necessary for a WHERE clause: a statement
    with the keyword as a word has the letters.  The converse fails, as
    the letters can sit in a literal or in a longer word. *)
Lemma where_clause_has_letters (sql : string) :
  has_where_clause sql = true -> contains "WHERE" (upper sql) = true.
Proof.
  unfold has_where_clause, sql_words. intros Hex.
  apply existsb_exists in Hex as (w & Hin & Hw).
  apply String.eqb_eq in Hw.
  destruct (sql_words_go_inside sql false [] w ltac:(discriminate) Hin)
    as (a & b & E).
  cbn [rev string_of_list_ascii] in E. rewrite append_empty_l in E.
  rewrite E, !upper_app, Hw. apply contains_mid.
Qed.

Example letters_without_clause :
  contains "WHERE" (upper "UPDATE employees SET Location = 'Elsewhere'") = true
  /\ has_where_clause "UPDATE employees SET Location = 'Elsewhere'" = false
  /\ has_where_clause
       "UPDATE employees SET Location = 'Elsewhere' where Department = 'IT'"
     = true.
Proof. repeat split; reflexivity. Qed.

End SqlTextFacts.

(** ** The WHERE guardrail of UPDATE and DELETE *)

Module GuardrailFacts.
Section WithPlatform.
Context `{Platform}.
Import PyStr PyStrFacts SQLAgent Pipeline ExecuteFacts GenerateFacts.

(** The second test of the UPDATE and DELETE generators: a statement
    without the letters WHERE is rejected, and the reason says so. *)
Lemma generator_missing_where (intent : Intent) (nl_query : string)
    (user_id : option string) (w : World) (raw sql : string) (l : LLM) :
  intent = UPDATE \/ intent = DELETE ->
  llm_call (prompt_for intent nl_query user_id (w_db w)) (w_llm w)
  = (inr raw, l) ->
  _clean_sql raw = inr sql ->
  startswith (upper sql) (keyword intent) = true ->
  contains "WHERE" (upper sql) = false ->
  generator intent nl_query user_id w
  = (missing_where intent sql, after_model w l).
Proof.
  unfold generator, prompt_for, missing_where.
  intros [-> | ->]; cbn [keyword]; intros Hllm Hclean Hkw Hwhere;
    open_generator; now rewrite Hllm, Hclean, Hkw, Hwhere.
Qed.

(** What the guardrail does guarantee: an UPDATE or DELETE that is not
    rejected starts with its keyword and has the letters WHERE somewhere
    in its text. *)
Lemma generator_where_letters (intent : Intent) (nl_query : string)
    (user_id : option string) (w : World) :
  intent = UPDATE \/ intent = DELETE ->
  let out := fst (generator intent nl_query user_id w) in
  is_rejected out = true
  \/ (startswith (upper out) (keyword intent) = true
      /\ contains "WHERE" (upper out) = true).
Proof.
  unfold generator.
  intros [-> | ->]; cbn [keyword]; open_generator;
    destruct (llm_call _ (w_llm w)) as [[e|raw] l];
    try (left; reflexivity);
    destruct (_clean_sql raw) as [e|sql];
    try (left; reflexivity);
    destruct (startswith (upper sql) _) eqn:Hkw;
    try (left; reflexivity);
    destruct (contains "WHERE" (upper sql)) eqn:Hwhere;
    try (left; reflexivity);
    right; cbv beta iota zeta delta [fst negb]; split; assumption.
Qed.

End WithPlatform.
End GuardrailFacts.

Section GuardrailExamples.
Import PyStr SQLAgent Pipeline.

(** C3, at an input where the code departs from it.  HR asks to set a
    location and the model answers an UPDATE with no WHERE clause whose
    literal holds the letters WHERE.  The guardrail lets the statement
    through; executed, it reaches the store and is committed. *)
Theorem update_without_where_clause_is_accepted :
  classify_sql_intent "set the location of the Pune office staff to Elsewhere"
    (Some "hr") = UPDATE
  /\ fst (@generate_sql Demo.platform
            "set the location of the Pune office staff to Elsewhere"
            None (Some "hr")
            (Demo.world Demo.store
               [inr "UPDATE employees SET Location = 'Elsewhere'"] None))
     = "UPDATE employees SET Location = 'Elsewhere'"
  /\ is_rejected "UPDATE employees SET Location = 'Elsewhere'" = false
  /\ SqlText.has_where_clause "UPDATE employees SET Location = 'Elsewhere'"
     = false
  /\ w_trace
       (snd (@execute_sql Demo.platform
               "UPDATE employees SET Location = 'Elsewhere'" (Some "hr")
               (Demo.world Demo.store [] None)))
     = [ OpConnect;
         OpExecute "UPDATE employees SET Location = 'Elsewhere'";
         OpCommit; OpClose ].
Proof. repeat split; vm_compute; reflexivity. Qed.

End GuardrailExamples.

(** ** The identity filter of SELECT *)

Module SelectFacts.
Section WithPlatform.
Context `{Platform}.
Import PyStr PyStrFacts SQLAgent Pipeline ExecuteFacts GenerateFacts.

(** [_ensure_user_filter] only ever appends: the synthesized statement is
    kept whole, followed by nothing, by WHERE and the condition, or by AND
    and the condition. *)
Lemma ensure_user_filter_appends (d : DB) (sql user_id : string) :
  let cond := user_condition (DbSetup.get_employee_id_column d) user_id in
  _ensure_user_filter d sql user_id = sql
  \/ (contains "where" (lower sql) = false
      /\ _ensure_user_filter d sql user_id = sql +:+ " WHERE " +:+ cond)
  \/ (contains "where" (lower sql) = true
      /\ _ensure_user_filter d sql user_id = sql +:+ " AND " +:+ cond).
Proof.
  cbn zeta. unfold _ensure_user_filter.
  destruct (contains "where" (lower sql)); cbn [negb].
  - destruct (negb _ || negb _); [right; right|left]; auto.
  - right; left; auto.
Qed.

(** When the rewrite fires, the result ends with the condition on the
    caller's identifier. *)
Lemma ensure_user_filter_changed (d : DB) (sql user_id : string) :
  _ensure_user_filter d sql user_id <> sql ->
  contains (user_condition (DbSetup.get_employee_id_column d) user_id)
    (_ensure_user_filter d sql user_id) = true.
Proof.
  intros Hneq.
  destruct (ensure_user_filter_appends d sql user_id)
    as [Heq | [[_ Heq] | [_ Heq]]]; [congruence| |];
    rewrite Heq; apply contains_app_r, contains_app_r, contains_refl.
Qed.

(** A statement without WHERE always gets the condition. *)
Lemma ensure_user_filter_adds_where (d : DB) (sql user_id : string) :
  contains "where" (lower sql) = false ->
  _ensure_user_filter d sql user_id
  = sql +:+ " WHERE "
      +:+ user_condition (DbSetup.get_employee_id_column d) user_id.
Proof. intros Hw. unfold _ensure_user_filter. now rewrite Hw. Qed.

(** The rewrite keeps the leading keyword. *)
Lemma ensure_user_filter_keeps_select (d : DB) (sql user_id : string) :
  startswith (upper sql) "SELECT" = true ->
  startswith (upper (_ensure_user_filter d sql user_id)) "SELECT" = true.
Proof.
  intros Hsel.
  destruct (ensure_user_filter_appends d sql user_id)
    as [Heq | [[_ Heq] | [_ Heq]]]; rewrite Heq; [assumption| |];
    rewrite upper_app; now apply startswith_app.
Qed.

(** The SELECT generator returns a sentinel or a statement that starts
    with SELECT. *)
Lemma generate_select_sql_kind (nl_query : string)
    (user_id : option string) (w : World) :
  let out := fst (generate_select_sql nl_query user_id w) in
  is_rejected out = true \/ startswith (upper out) "SELECT" = true.
Proof.
  open_generator.
  destruct (llm_call _ (w_llm w)) as [[e|raw] l]; [left; reflexivity|].
  destruct (_clean_sql raw) as [e|sql]; [left; reflexivity|].
  destruct (startswith (upper sql) "SELECT") eqn:Hsel;
    [|left; reflexivity].
  right. destruct user_id as [uid|]; cbv beta iota zeta delta [fst negb].
  - now apply ensure_user_filter_keeps_select.
  - assumption.
Qed.

End WithPlatform.
End SelectFacts.

Section SelectExamples.
Import PyStr SQLAgent Pipeline.

(** C2, at an input where the code departs from it.  The caller is
    employee 1 and the model answers a SELECT filtered on employee 10.
    The statement has a WHERE, names the identity column and holds the
    character 1, so it is returned as it is: the condition on the caller's
    own identifier is not in the final statement, whose only filter is the
    one on employee 10. *)
Theorem select_for_other_employee_is_not_rewritten :
  @DbSetup.get_employee_id_column Demo.platform Demo.store = "EmployeeNumber"
  /\ fst (@generate_sql Demo.platform "what is my salary" (Some "1")
            (Some "employee")
            (Demo.world Demo.store
               [inr "SELECT Name, MonthlyIncome FROM employees WHERE EmployeeNumber = '10'"]
               None))
     = "SELECT Name, MonthlyIncome FROM employees WHERE EmployeeNumber = '10'"
  /\ contains (user_condition "EmployeeNumber" "1")
       "SELECT Name, MonthlyIncome FROM employees WHERE EmployeeNumber = '10'"
     = false
  /\ contains (user_condition "EmployeeNumber" "10")
       "SELECT Name, MonthlyIncome FROM employees WHERE EmployeeNumber = '10'"
     = true.
Proof. repeat split; vm_compute; reflexivity. Qed.

End SelectExamples.

(** ** The fusion path *)

Module FusionFacts.
Import PyStr PyStrFacts SQLAgent Pipeline ExecuteFacts GenerateFacts SelectFacts.

(** Case analysis on everything a computation branches on. *)
Ltac split_cases :=
  repeat (cbv beta iota;
          match goal with
          | |- context [match ?x with _ => _ end] =>
              lazymatch x with
              | context [match _ with _ => _ end] => fail
              | _ => destruct x eqn:?
              end
          end).

Section WithPlatform.
Context `{Platform}.

Lemma store_saw_same (w w' : World) :
  w_db w' = w_db w -> w_trace w' = w_trace w -> store_saw w w' [].
Proof. unfold store_saw. intros -> ->. now rewrite app_nil_r. Qed.

Lemma store_saw_refl (w : World) : store_saw w w [].
Proof. now apply store_saw_same. Qed.

Lemma store_saw_trans (w1 w2 w3 : World) (ops1 ops2 : list DbOp) :
  store_saw w1 w2 ops1 -> store_saw w2 w3 ops2 ->
  store_saw w1 w3 (ops1 ++ ops2).
Proof.
  unfold store_saw. intros [Hd1 Ht1] [Hd2 Ht2]. split; [congruence|].
  now rewrite Ht2, Ht1, <- app_assoc.
Qed.

Lemma read_only_app (ops1 ops2 : list DbOp) :
  read_only ops1 = true -> read_only ops2 = true ->
  read_only (ops1 ++ ops2) = true.
Proof.
  unfold read_only. intros H1 H2. now rewrite forallb_app, H1, H2.
Qed.

(** A model call leaves the store alone. *)
Lemma llm__call_quiet (prompt : string) (w : World) :
  store_saw w (snd (llm__call prompt w)) [].
Proof.
  unfold llm__call. destruct (llm_call prompt (w_llm w)) as [r l].
  now apply store_saw_same.
Qed.

(** So does every generator. *)
Lemma generator_quiet (intent : Intent) (nl_query : string)
    (user_id : option string) (w : World) :
  store_saw w (snd (generator intent nl_query user_id w)) [].
Proof.
  unfold generator. destruct intent; open_generator;
    destruct (llm_call _ (w_llm w)) as [[e|raw] l];
    try (now apply store_saw_same);
    destruct (_clean_sql raw) as [e|sql];
    try (now apply store_saw_same);
    split_cases; now apply store_saw_same.
Qed.

(** And the policy agent. *)
Lemma policy_query_quiet (question : string) (return_raw : bool)
    (w : World) :
  store_saw w (snd (PolicyAgent.query question return_raw w)) [].
Proof.
  unfold PolicyAgent.query, PolicyAgent._build_context, bind, llm__call.
  split_cases; cbn [snd];
    repeat match goal with
           | E : (_, _) = (_, _) |- _ => inversion E; subst; clear E
           end;
    now apply store_saw_same.
Qed.

(** [PolicyAgent.query] has no key [source_documents] in any of the
    dictionaries it returns. *)
Lemma policy_query_has_no_source_documents (question : string)
    (return_raw : bool) (w w' : World) (policy_result : gmap string PyVal) :
  PolicyAgent.query question return_raw w = (inr policy_result, w') ->
  policy_result !! "source_documents" = None.
Proof.
  unfold PolicyAgent.query, PolicyAgent._build_context, bind, llm__call.
  split_cases; intros E; inversion E; subst; reflexivity.
Qed.

(** A sentinel or a SELECT is executed without changing rows. *)
Lemma execute_sql_read_only (sql : string) (user_role : option string)
    (w : World) :
  is_rejected sql = true \/ startswith (upper sql) "SELECT" = true ->
  exists ops,
    store_saw w (snd (execute_sql sql user_role w)) ops
    /\ read_only ops = true.
Proof.
  intros [Hrej | Hsel].
  - rewrite (execute_sql_rejected _ _ _ Hrej).
    exists []. split; [apply store_saw_refl|reflexivity].
  - destruct (sqlite_connect (w_db w)) as [e|[]] eqn:Hconn.
    + rewrite (execute_sql_connect_failed _ _ _ _
                 (select_not_rejected _ Hsel) Hconn).
      exists []. split; [apply store_saw_refl|reflexivity].
    + rewrite (execute_sql_select _ _ _ Hsel Hconn).
      destruct (pd_read_sql sql (w_db w)) as [e|df].
      * exists [OpConnect; OpReadSql sql]. now repeat split.
      * exists [OpConnect; OpReadSql sql; OpClose]. now repeat split.
Qed.

(** Under a role that is not HR no text changes rows, whatever it starts
    with: it is answered as a sentinel, read, refused or unsupported. *)
Lemma execute_sql_unprivileged (sql : string) (user_role : option string)
    (w : World) :
  is_hr user_role = false ->
  exists ops,
    store_saw w (snd (execute_sql sql user_role w)) ops
    /\ read_only ops = true.
Proof.
  intros Hrole.
  destruct (is_rejected sql) eqn:Hrej;
    [apply execute_sql_read_only; now left|].
  destruct (startswith (upper sql) "SELECT") eqn:Hsel;
    [apply execute_sql_read_only; now right|].
  destruct (sqlite_connect (w_db w)) as [e|[]] eqn:Hconn.
  { rewrite (execute_sql_connect_failed _ _ _ _ Hrej Hconn).
    exists []. split; [apply store_saw_refl|reflexivity]. }
  destruct (is_mutating sql) eqn:Hmut.
  - rewrite (execute_sql_denied _ _ _ Hmut Hrole Hconn).
    exists [OpConnect; OpClose]. now repeat split.
  - rewrite (execute_sql_unsupported _ _ _ Hrej Hsel Hmut Hconn).
    exists [OpConnect; OpClose]. now repeat split.
Qed.

(** With the default role the SELECT generator is the one called. *)
Lemma generate_sql_default_role (nl_query : string)
    (user_id : option string) :
  generate_sql nl_query user_id (Some "employee")
  = generate_select_sql nl_query user_id.
Proof. reflexivity. Qed.

(** The two branches of the fusion path change no rows. *)
Lemma fusion_branches_read_only (a : MainAgent.Agent) (question : string)
    (w : World) :
  exists ops,
    store_saw w (snd (MainAgent.fusion_branches a question w)) ops
    /\ read_only ops = true.
Proof.
  unfold MainAgent.fusion_branches.
  pose proof (generator_quiet SELECT question (MainAgent.current_user_id a) w)
    as Hgen.
  cbn [generator] in Hgen.
  rewrite generate_sql_default_role in *.
  destruct (generate_select_sql question (MainAgent.current_user_id a) w)
    as [sql w1].
  cbn [snd] in Hgen.
  destruct (execute_sql_unprivileged sql (Some "employee") w1 eq_refl)
    as (ops & Hexec & Hro).
  destruct (execute_sql sql (Some "employee") w1) as [sql_result w2].
  cbn [snd] in Hexec.
  pose proof (policy_query_quiet question false w2) as Hpol.
  unfold bind, ret.
  destruct (PolicyAgent.query question false w2) as [[e|policy_result] w3];
    cbn [snd] in Hpol |- *;
    exists (([] ++ ops) ++ []);
    (split; [eauto using store_saw_trans
            | rewrite app_nil_r; exact Hro]).
Qed.

(** The combining model call changes nothing in the store either. *)
Lemma execute_fusion_query_read_only (a : MainAgent.Agent)
    (question : string) (w : World) :
  exists ops,
    store_saw w (snd (MainAgent.execute_fusion_query a question w)) ops
    /\ read_only ops = true.
Proof.
  destruct (fusion_branches_read_only a question w) as (ops & Hbr & Hro).
  unfold MainAgent.execute_fusion_query, bind, ret.
  destruct (MainAgent.fusion_branches a question w) as [[e|branches] w2];
    cbn [snd] in Hbr |- *; [now exists ops|].
  match goal with
  | |- context [llm__call ?p w2] =>
      pose proof (llm__call_quiet p w2) as Hllm;
      destruct (llm__call p w2) as [[e|response] w3]
  end;
    cbn [snd] in Hllm |- *;
    exists (ops ++ []);
    (split; [eauto using store_saw_trans
            | rewrite app_nil_r; exact Hro]).
Qed.

(** What the fusion path lists: the employee database when the execution
    succeeded, and nothing else. *)
Lemma fusion_sources_of_branches (a : MainAgent.Agent) (question : string)
    (w w' : World) (sql : string)
    (sql_result policy_result : gmap string PyVal) :
  MainAgent.fusion_branches a question w
  = (inr (sql, sql_result, policy_result), w') ->
  MainAgent.fusion_sources sql_result policy_result
  = if has_key "success" sql_result
    then [MainAgent.employee_database] else [].
Proof.
  unfold MainAgent.fusion_branches, MainAgent.fusion_sources, bind, ret.
  destruct (generate_sql _ _ _ w) as [sql0 w1].
  destruct (execute_sql sql0 _ w1) as [sql_result0 w2].
  destruct (PolicyAgent.query question false w2) as [[e|pr] w3] eqn:Hpol;
    intros E; inversion E; subst.
  rewrite (policy_query_has_no_source_documents _ _ _ _ _ Hpol).
  cbn [truthy]. now rewrite app_nil_r.
Qed.

End WithPlatform.
End FusionFacts.

Section FusionExamples.
Import PyStr SQLAgent Pipeline.

(** C9, at an input where the code departs from it.  On the fusion path
    employee 1 asks about leave and the model answers the data question
    with a sentence whose first word is Selecting.  The text starts with
    the letters of SELECT, which is all the generator tests, so it is
    returned with the condition on the caller appended: the statement
    generated is neither a SELECT nor a sentinel, and the fusion path hands
    it to the store as a read, which fails. *)
Theorem fusion_statement_is_not_a_select :
  fst (@generate_sql DemoStrict.platform
         "am I eligible for leave under the policy" (Some "1")
         (Some "employee")
         (DemoStrict.world Demo.store
            [inr "Selecting the row first is not needed."]
            (Some "Leave: 12 days per year")))
  = "Selecting the row first is not needed. WHERE EmployeeNumber = '1'"
  /\ is_rejected
       "Selecting the row first is not needed. WHERE EmployeeNumber = '1'"
     = false
  /\ SqlText.leading_keyword
       "Selecting the row first is not needed. WHERE EmployeeNumber = '1'"
     = "SELECTING"
  /\ "SELECTING" <> keyword SELECT
  /\ w_trace
       (snd (@MainAgent.execute_fusion_query DemoStrict.platform
               (MainAgent.mkAgent (Some "1") (Some "employee"))
               "am I eligible for leave under the policy"
               (DemoStrict.world Demo.store
                  [ inr "Selecting the row first is not needed.";
                    inr "• 12 days of leave a year";
                    inr "You have 12 days of leave." ]
                  (Some "Leave: 12 days per year"))))
     = [ OpConnect;
         OpReadSql
           "Selecting the row first is not needed. WHERE EmployeeNumber = '1'" ].
Proof.
  repeat split; try (vm_compute; reflexivity). discriminate.
Qed.

(** C7, at an input where the code departs from it (scenario E of the
    specification).  The store cannot be opened, the policy index is
    loaded and returns a context, and every model call answers.  The data
    branch fails, the policy branch succeeds, a narrative is produced, and
    the list of sources after it is empty: the policy documents are not
    listed. *)
Theorem fusion_does_not_list_policy_documents :
  fst (@PolicyAgent.query Demo.platform "am I eligible for leave" false
         (Demo.world Demo.offline_store [inr "• 12 days of leave a year"]
            (Some "Leave: 12 days per year")))
  = inr (dict_of [ ("success", PBool true);
                   ("answer", PStr "• 12 days of leave a year") ])
  /\ fst (@MainAgent.execute_fusion_query Demo.platform
            (MainAgent.mkAgent (Some "1") (Some "employee"))
            "am I eligible for leave"
            (Demo.world Demo.offline_store
               [ inr "SELECT Name FROM employees WHERE EmployeeNumber = '1'";
                 inr "• 12 days of leave a year";
                 inr "You have 12 days of leave." ]
               (Some "Leave: 12 days per year")))
     = inr ("You have 12 days of leave." +:+ LF +:+ LF +:+ "---" +:+ LF
              +:+ "📚 Sources: ")
  /\ fst (@MainAgent.execute_fusion_query Demo.platform
            (MainAgent.mkAgent (Some "1") (Some "employee"))
            "am I eligible for leave"
            (Demo.world Demo.store
               [ inr "SELECT Name FROM employees WHERE EmployeeNumber = '1'";
                 inr "• 12 days of leave a year";
                 inr "You have 12 days of leave." ]
               (Some "Leave: 12 days per year")))
     = inr ("You have 12 days of leave." +:+ LF +:+ LF +:+ "---" +:+ LF
              +:+ "📚 Sources: " +:+ MainAgent.employee_database).
Proof. repeat split; vm_compute; reflexivity. Qed.

End FusionExamples.

(* ===================================================================== *)
(** * Part III: further properties of the code                            *)
(* ===================================================================== *)

(** ** Cleaning keeps the keyword *)

Module KeywordFacts.
Import PyStr PyStrFacts SQLAgent Lexicon.

(** A character whose upper case is a capital letter is a letter. *)
Lemma upper_letter_plain (c : ascii) :
  is_ascii_upper (upper_char c) = true -> plain c = true.
Proof. destruct c as [[] [] [] [] [] [] [] []]; vm_compute; congruence. Qed.

(** A text whose upper case starts with capital letters starts with as
    many letters. *)
Lemma upper_prefix_plain (kw s : string) :
  all_upper kw = true -> startswith (upper s) kw = true ->
  exists p r, s = p +:+ r /\ upper p = kw /\ all_plain p = true.
Proof.
  revert s. induction kw as [|k kw IH]; intros s Hup Hs.
  - now exists "", s.
  - destruct s as [|c s]; [discriminate|].
    cbn [upper startswith all_upper] in *.
    apply andb_true_iff in Hup as [Hk Hup].
    destruct (Ascii.eqb_spec k (upper_char c)) as [->|]; [|discriminate].
    destruct (IH s Hup Hs) as (p & r & -> & Hp & Hplain).
    exists (String c p), r. cbn [upper all_plain].
    rewrite Hp, Hplain, (upper_letter_plain _ Hk). now rewrite append_cons.
Qed.

Lemma rstrip_by_keep (f : ascii -> bool) (c : ascii) (s : string) :
  f c = false -> rstrip_by f (String c s) = String c (rstrip_by f s).
Proof.
  intros Hc. cbn [rstrip_by]. destruct (rstrip_by f s); [now rewrite Hc|reflexivity].
Qed.

(** Stripping on the right keeps a prefix of characters that are not
    stripped. *)
Lemma rstrip_by_prefix (f : ascii -> bool) (p r : string) :
  (forall c, plain c = true -> f c = false) ->
  all_plain p = true ->
  p <> "" ->
  exists r', rstrip_by f (p +:+ r) = p +:+ r'.
Proof.
  intros Hf. induction p as [|c p IH]; intros Hp Hne; [congruence|].
  cbn [all_plain] in Hp. apply andb_true_iff in Hp as [Hc Hp].
  rewrite append_cons, (rstrip_by_keep f c _ (Hf c Hc)).
  destruct p as [|c' p'].
  - exists (rstrip_by f r). reflexivity.
  - destruct (IH Hp ltac:(discriminate)) as (r' & ->).
    exists r'. now rewrite <- append_cons.
Qed.

Lemma plain_not_space (c : ascii) : plain c = true -> isspace c = false.
Proof.
  unfold plain. intros Hc. apply andb_true_iff in Hc as [Hc _].
  now apply negb_true_iff in Hc.
Qed.

Lemma plain_not_semicolon (c : ascii) :
  plain c = true -> mem_char c ";" = false.
Proof.
  unfold plain. intros Hc. apply andb_true_iff in Hc as [_ Hc].
  now apply negb_true_iff in Hc.
Qed.

(** The last step of [_clean_sql] keeps a leading keyword. *)
Lemma tidy_keeps_keyword (kw s : string) :
  all_upper kw = true -> kw <> "" ->
  startswith (upper s) kw = true ->
  startswith (upper (strip (rstrip_chars s ";"))) kw = true.
Proof.
  intros Hup Hne Hs.
  destruct (upper_prefix_plain kw s Hup Hs) as (p & r & -> & Hp & Hplain).
  assert (Hpne : p <> "") by (intros ->; cbn in Hp; congruence).
  unfold strip, rstrip_chars.
  destruct (rstrip_by_prefix (fun c => mem_char c ";") p r
              plain_not_semicolon Hplain Hpne) as (r1 & ->).
  destruct (rstrip_by_prefix isspace p r1 plain_not_space Hplain Hpne)
    as (r2 & ->).
  destruct p as [|c p]; [congruence|].
  cbn [all_plain] in Hplain. apply andb_true_iff in Hplain as [Hc _].
  rewrite append_cons. cbn [lstrip_by]. rewrite (plain_not_space _ Hc).
  rewrite <- append_cons, upper_app, Hp. apply startswith_refl_app.
Qed.

Lemma tidy_keeps_any_keyword (s : string) :
  startswith_any (upper s) statement_keywords = true ->
  startswith_any (upper (strip (rstrip_chars s ";"))) statement_keywords
  = true.
Proof.
  unfold startswith_any, statement_keywords. cbn [existsb].
  rewrite !orb_false_r, !orb_true_iff.
  intros [Hs | [Hs | [Hs | Hs]]];
    [left | right; left | right; right; left | right; right; right];
    (apply tidy_keeps_keyword; [reflexivity | discriminate | exact Hs]).
Qed.

Lemma no_fence_no_sql_fence (raw : string) :
  contains "```" raw = false -> contains "```sql" raw = false.
Proof.
  intros Hno. destruct (contains "```sql" raw) eqn:Hin; [|reflexivity].
  apply (contains_part "" "```" "sql") in Hin. congruence.
Qed.

End KeywordFacts.

Section Cleaning.
Import PyStr PyStrFacts SQLAgent Lexicon KeywordFacts.

(** X1. [_clean_sql] never has an index out of range: whatever the model
    answers, with or without fences, it returns a text. *)
Theorem clean_sql_never_raises (raw : string) :
  exists sql, _clean_sql raw = inr sql.
Proof.
  unfold _clean_sql.
  destruct (contains "```sql" raw) eqn:Hsql;
    [|destruct (contains "```" raw) eqn:Hfence]; [| |eauto].
  - destruct (CleanFacts.split_has_second "```sql" raw)
      as (a & b & rest & ->); [discriminate|assumption|].
    pose proof (CleanFacts.split_go_nonempty "```" b 0 []) as Hne.
    unfold split. destruct (split_go "```" b 0 []); [congruence|eauto].
  - destruct (CleanFacts.split_has_second "```" raw)
      as (a & b & rest & ->); [discriminate|assumption|].
    pose proof (CleanFacts.split_go_nonempty "```" b 0 []) as Hne.
    unfold split. destruct (split_go "```" b 0 []); [congruence|eauto].
Qed.

(** X2. When the answer of the model is ASCII text without a code fence
    and one of its lines, stripped, starts with the letters of SELECT,
    UPDATE, INSERT or DELETE in any letter case, the cleaned text is the
    first such line, be it a statement or a sentence, without its trailing
    semicolons and the whitespace around them, and it still starts with
    the letters of one of the four keywords. *)
Theorem clean_sql_takes_first_keyword_line (raw line : string) :
  is_ascii raw = true ->
  contains "```" raw = false ->
  In line (map strip (split raw LF)) ->
  startswith_any (upper line) statement_keywords = true ->
  exists first,
    find (fun l => startswith_any (upper l) statement_keywords)
         (map strip (split raw LF)) = Some first
    /\ _clean_sql raw = inr (strip (rstrip_chars first ";"))
    /\ startswith_any (upper (strip (rstrip_chars first ";")))
         statement_keywords = true.
Proof.
  intros _ Hfence Hin Hline.
  destruct (find (fun l => startswith_any (upper l) statement_keywords)
                 (map strip (split raw LF))) as [found|] eqn:Hfind.
  - exists found. split; [reflexivity|]. split.
    + unfold _clean_sql.
      rewrite (no_fence_no_sql_fence _ Hfence), Hfence.
      unfold statement_keywords in Hfind. now rewrite Hfind.
    + apply find_some in Hfind as [_ Hfound].
      now apply tidy_keeps_any_keyword.
  - exfalso. pose proof (find_none _ _ Hfind line Hin) as Hnone.
    cbv beta in Hnone. congruence.
Qed.

End Cleaning.

Section CleaningExamples.
Import PyStr SQLAgent Lexicon.

Lemma clean_sql_takes_first_keyword_line_witness :
  _clean_sql ("Sure, here it is:" +:+ LF
                +:+ "   select Name from employees ;;" +:+ LF +:+ "Done.")
  = inr "select Name from employees".
Proof.
  destruct (clean_sql_takes_first_keyword_line
              ("Sure, here it is:" +:+ LF
                 +:+ "   select Name from employees ;;" +:+ LF +:+ "Done.")
              "select Name from employees ;;")
    as (first & Hfirst & Hclean & _);
    [reflexivity | reflexivity | vm_compute; tauto | reflexivity |].
  vm_compute in Hfirst. injection Hfirst as <-. exact Hclean.
Defined.

End CleaningExamples.

(** ** The execution engine, branch by branch *)

Module WordFacts.
Import PyStr PyStrFacts Lexicon KeywordFacts.

Lemma startswith_app_inv (s a b : string) :
  startswith s (a +:+ b) = true -> startswith s a = true.
Proof.
  revert s. induction a as [|c a IH]; intros s Hs; [reflexivity|].
  rewrite append_cons in Hs. destruct s as [|d s]; [discriminate|].
  cbn [startswith] in *. destruct (Ascii.eqb c d); [auto|discriminate].
Qed.

Lemma startswith_upper (s p : string) :
  startswith s p = true -> startswith (upper s) (upper p) = true.
Proof.
  intros Hs. destruct (startswith_inv _ _ Hs) as (b & ->).
  rewrite upper_app. apply startswith_refl_app.
Qed.

(** A pending word is the start of the first word read. *)
Lemma words_go_pending (s : string) :
  forall cur, cur <> [] ->
    exists first rest,
      words_go s cur = first :: rest
      /\ startswith first (string_of_list_ascii (rev cur)) = true.
Proof.
  induction s as [|c s IH]; intros cur Hcur.
  - destruct cur as [|a cur]; [congruence|].
    eexists _, _. split; [reflexivity|apply startswith_refl].
  - cbn [words_go]. destruct (isspace c).
    + destruct cur as [|a cur]; [congruence|].
      eexists _, _. split; [reflexivity|apply startswith_refl].
    + destruct (IH (c :: cur) ltac:(discriminate)) as (first & rest & E & Hp).
      exists first, rest. split; [exact E|].
      cbn [rev] in Hp. rewrite SqlTextFacts.string_of_list_ascii_app in Hp.
      now apply startswith_app_inv in Hp.
Qed.

(** Letters at the start of a text are the start of its first word. *)
Lemma words_go_plain (p r : string) :
  forall cur, all_plain p = true -> p <> "" ->
    exists first rest,
      words_go (p +:+ r) cur = first :: rest
      /\ startswith first (string_of_list_ascii (rev cur) +:+ p) = true.
Proof.
  induction p as [|c p IH]; intros cur Hp Hne; [congruence|].
  cbn [all_plain] in Hp. apply andb_true_iff in Hp as [Hc Hp].
  rewrite append_cons. cbn [words_go]. rewrite (plain_not_space _ Hc).
  destruct p as [|c' p'].
  - destruct (words_go_pending r (c :: cur) ltac:(discriminate))
      as (first & rest & E & Hfirst).
    exists first, rest. split; [exact E|].
    cbn [rev] in Hfirst. now rewrite SqlTextFacts.string_of_list_ascii_app in Hfirst.
  - destruct (IH (c :: cur) Hp ltac:(discriminate)) as (first & rest & E & Hfirst).
    exists first, rest. split; [exact E|].
    cbn [rev] in Hfirst.
    now rewrite SqlTextFacts.string_of_list_ascii_app, append_assoc in Hfirst.
Qed.

(** A text that starts with a keyword has a first word, which starts with
    the keyword. *)
Lemma first_word_keyword (kw sql : string) :
  all_upper kw = true -> kw <> "" ->
  startswith (upper sql) kw = true ->
  exists first rest,
    split_ws sql = first :: rest /\ startswith (upper first) kw = true.
Proof.
  intros Hup Hne Hs.
  destruct (upper_prefix_plain kw sql Hup Hs) as (p & r & -> & Hp & Hplain).
  assert (Hpne : p <> "") by (intros ->; cbn in Hp; congruence).
  destruct (words_go_plain p r [] Hplain Hpne) as (first & rest & E & Hfirst).
  exists first, rest. split; [exact E|].
  cbn [rev string_of_list_ascii] in Hfirst. rewrite append_empty_l in Hfirst.
  rewrite <- Hp. now apply startswith_upper.
Qed.

Lemma first_word_of_mutation (sql : string) :
  Pipeline.is_mutating sql = true ->
  exists first rest,
    split_ws sql = first :: rest
    /\ startswith_any (upper first) ["UPDATE"; "INSERT"; "DELETE"] = true.
Proof.
  unfold Pipeline.is_mutating, startswith_any. cbn [existsb].
  rewrite !orb_false_r, !orb_true_iff.
  intros [Hs | [Hs | Hs]];
    (match type of Hs with
     | startswith _ ?kw = true =>
         destruct (first_word_keyword kw sql eq_refl ltac:(discriminate) Hs)
           as (first & rest & E & Hfirst)
     end);
    exists first, rest; (split; [exact E|]); rewrite Hfirst;
    repeat rewrite orb_true_r; reflexivity.
Qed.

End WordFacts.

Module ExecuteBranches.
Import PyStr PyStrFacts SQLAgent Pipeline ExecuteFacts Lexicon.

Section WithPlatform.
Context `{Platform}.

(** HR, and the store runs the statement. *)
Lemma execute_sql_committed (sql : string) (user_role : option string)
    (w : World) (pending : DB) (rows_affected : Z) (first : string)
    (rest : list string) :
  is_mutating sql = true ->
  is_hr user_role = true ->
  sqlite_connect (w_db w) = inr tt ->
  cursor_execute sql (w_db w) = inr (pending, rows_affected) ->
  conn_commit (w_db w) pending = inr tt ->
  split_ws sql = first :: rest ->
  execute_sql sql user_role w
  = (mutation_report sql first rows_affected,
     mkWorld pending (w_llm w) (w_index w)
             (w_trace w ++ [OpConnect; OpExecute sql; OpCommit; OpClose])).
Proof.
  intros Hmut Hrole Hconn Hexec Hcommit Hwords.
  pose proof (mutating_not_rejected _ Hmut) as Hrej.
  pose proof (mutating_not_select _ Hmut) as Hsel.
  unfold execute_sql, execute_sql_body.
  unfold is_rejected in Hrej. unfold is_mutating in Hmut.
  rewrite Hrej, Hsel, Hmut, Hrole, Hwords.
  unfold try_except, bind, connect, execute, commit, close, bind, log, ret.
  rewrite Hconn. cbn [negb w_db w_llm w_index w_trace]. rewrite Hexec.
  cbn [fst snd w_db w_llm w_index w_trace]. rewrite Hcommit.
  cbn [fst snd w_db w_llm w_index w_trace]. unfold mutation_report.
  now rewrite <- !app_assoc.
Qed.

(** HR, the store runs the statement, and the commit raises. *)
Lemma execute_sql_commit_failed (sql : string) (user_role : option string)
    (w : World) (pending : DB) (rows_affected : Z) (e : PyExc) :
  is_mutating sql = true ->
  is_hr user_role = true ->
  sqlite_connect (w_db w) = inr tt ->
  cursor_execute sql (w_db w) = inr (pending, rows_affected) ->
  conn_commit (w_db w) pending = inl e ->
  execute_sql sql user_role w
  = (execution_error sql e,
     mkWorld (w_db w) (w_llm w) (w_index w)
             (w_trace w ++ [OpConnect; OpExecute sql])).
Proof.
  intros Hmut Hrole Hconn Hexec Hcommit.
  pose proof (mutating_not_rejected _ Hmut) as Hrej.
  pose proof (mutating_not_select _ Hmut) as Hsel.
  unfold execute_sql, execute_sql_body.
  unfold is_rejected in Hrej. unfold is_mutating in Hmut.
  rewrite Hrej, Hsel, Hmut, Hrole.
  unfold try_except, bind, connect, execute, commit, bind, log, ret.
  rewrite Hconn. cbn [negb w_db w_llm w_index w_trace]. rewrite Hexec.
  cbn [fst snd w_db w_llm w_index w_trace]. rewrite Hcommit.
  now rewrite <- !app_assoc.
Qed.

(** HR, and the store refuses the statement. *)
Lemma execute_sql_refused (sql : string) (user_role : option string)
    (w : World) (e : PyExc) :
  is_mutating sql = true ->
  is_hr user_role = true ->
  sqlite_connect (w_db w) = inr tt ->
  cursor_execute sql (w_db w) = inl e ->
  execute_sql sql user_role w
  = (execution_error sql e,
     mkWorld (w_db w) (w_llm w) (w_index w)
             (w_trace w ++ [OpConnect; OpExecute sql])).
Proof.
  intros Hmut Hrole Hconn Hexec.
  pose proof (mutating_not_rejected _ Hmut) as Hrej.
  pose proof (mutating_not_select _ Hmut) as Hsel.
  unfold execute_sql, execute_sql_body.
  unfold is_rejected in Hrej. unfold is_mutating in Hmut.
  rewrite Hrej, Hsel, Hmut, Hrole.
  unfold try_except, bind, connect, execute, bind, log, ret.
  rewrite Hconn. cbn [negb w_db w_llm w_index w_trace]. rewrite Hexec.
  now rewrite <- !app_assoc.
Qed.

End WithPlatform.
End ExecuteBranches.

Module SqlAgentFacts.
Import PyStr PyStrFacts SQLAgent Pipeline ExecuteFacts GenerateFacts.
Import SelectFacts GuardrailFacts EnsureUserFilterFacts.

Section WithPlatform.
Context `{Platform}.

(** Every generator returns a sentinel or a text that starts with its
    keyword. *)
Lemma generator_kind (intent : Intent) (nl_query : string)
    (user_id : option string) (w : World) :
  is_rejected (fst (generator intent nl_query user_id w)) = true
  \/ startswith (upper (fst (generator intent nl_query user_id w)))
       (keyword intent) = true.
Proof.
  destruct intent.
  - apply generate_select_sql_kind.
  - destruct (generator_where_letters UPDATE nl_query user_id w (or_introl eq_refl))
      as [Hr | [Hk _]]; [now left | now right].
  - cbn [generator keyword]. open_generator.
    destruct (llm_call _ (w_llm w)) as [[e|raw] l]; [left; reflexivity|].
    destruct (_clean_sql raw) as [e|sql]; [left; reflexivity|].
    destruct (startswith (upper sql) "INSERT") eqn:Hkw;
      [right; exact Hkw | left; reflexivity].
  - destruct (generator_where_letters DELETE nl_query user_id w (or_intror eq_refl))
      as [Hr | [Hk _]]; [now left | now right].
Qed.

(** The result of the rewrite passes the three tests of the rewrite. *)
Lemma ensure_user_filter_checks (d : DB) (sql user_id : string) :
  contains "where" (lower (_ensure_user_filter d sql user_id)) = true
  /\ contains (lower (DbSetup.get_employee_id_column d))
       (lower (_ensure_user_filter d sql user_id)) = true
  /\ contains user_id (_ensure_user_filter d sql user_id) = true.
Proof.
  unfold _ensure_user_filter.
  destruct (contains "where" (lower sql)) eqn:Hw; cbn [negb].
  - destruct (contains (lower (DbSetup.get_employee_id_column d)) (lower sql))
      eqn:Hc; cbn [negb orb].
    + destruct (contains user_id sql) eqn:Hu; cbn [negb]; [auto|].
      repeat split;
        [rewrite lower_app; now apply contains_app_l
        | apply appended_mentions_column | apply appended_mentions_user].
    + repeat split;
        [rewrite lower_app; now apply contains_app_l
        | apply appended_mentions_column | apply appended_mentions_user].
  - repeat split;
      [apply appended_where
      | apply appended_mentions_column | apply appended_mentions_user].
Qed.

Lemma any_in_grows (ks : list string) (a q b : string) :
  any_in ks (lower q) = true -> any_in ks (lower (a +:+ q +:+ b)) = true.
Proof.
  unfold any_in. rewrite !existsb_exists. intros (k & Hin & Hk).
  exists k. split; [exact Hin|].
  rewrite !lower_app. now apply contains_app_r, contains_app_l.
Qed.

End WithPlatform.
End SqlAgentFacts.

Section SqlAgentProperties.
Context `{Platform}.
Import PyStr PyStrFacts SQLAgent Pipeline ExecuteFacts GenerateFacts.
Import SelectFacts SqlAgentFacts ExecuteBranches WordFacts FusionFacts.
Import Lexicon.

(** X3. For an ASCII query and whatever ASCII text the model answers,
    [generate_sql] returns a REJECTED sentinel or a text that starts, in
    any letter case, with the letters of the keyword of the kind the query
    was classified as. *)
Theorem generate_sql_statement_kind (nl_query : string)
    (user_id user_role : option string) (w : World) :
  is_ascii nl_query = true ->
  ascii_answer (classify_sql_intent nl_query user_role) nl_query user_id w ->
  let out := fst (generate_sql nl_query user_id user_role w) in
  is_rejected out = true
  \/ startswith (upper out)
       (keyword (classify_sql_intent nl_query user_role)) = true.
Proof.
  intros _ _. cbn zeta. rewrite generate_sql_dispatch. apply generator_kind.
Qed.

(** X5. Every dictionary [execute_sql] returns has exactly one of the keys
    [error] and [success]: for every text, role and state of the store. *)
Theorem execute_sql_error_xor_success (sql : string)
    (user_role : option string) (w : World) :
  let result := fst (execute_sql sql user_role w) in
  has_key "error" result = negb (has_key "success" result).
Proof.
  cbn zeta. destruct (is_rejected sql) eqn:Hrej.
  { now rewrite (execute_sql_rejected _ _ _ Hrej). }
  destruct (sqlite_connect (w_db w)) as [e|[]] eqn:Hconn.
  { rewrite (execute_sql_connect_failed _ _ _ _ Hrej Hconn).
    now destruct e. }
  destruct (startswith (upper sql) "SELECT") eqn:Hsel.
  { rewrite (execute_sql_select _ _ _ Hsel Hconn).
    destruct (pd_read_sql sql (w_db w)) as [e|df]; [now destruct e|].
    now destruct (df_empty df). }
  destruct (is_mutating sql) eqn:Hmut.
  2: { now rewrite (execute_sql_unsupported _ _ _ Hrej Hsel Hmut Hconn). }
  destruct (is_hr user_role) eqn:Hrole.
  2: { now rewrite (execute_sql_denied _ _ _ Hmut Hrole Hconn). }
  destruct (cursor_execute sql (w_db w)) as [e|[pending n]] eqn:Hexec.
  { rewrite (execute_sql_refused _ _ _ _ Hmut Hrole Hconn Hexec).
    now destruct e. }
  destruct (conn_commit (w_db w) pending) as [e|[]] eqn:Hcommit.
  { rewrite (execute_sql_commit_failed _ _ _ _ _ _ Hmut Hrole Hconn Hexec Hcommit).
    now destruct e. }
  destruct (first_word_of_mutation _ Hmut) as (first & rest & Hwords & _).
  now rewrite (execute_sql_committed _ _ _ _ _ _ _
                 Hmut Hrole Hconn Hexec Hcommit Hwords).
Qed.

(** X6. In every successful result of a SELECT the count is the number of
    records in the data list, empty result included. *)
Theorem select_count_is_number_of_records (sql : string)
    (user_role : option string) (w : World) :
  startswith (upper sql) "SELECT" = true ->
  has_key "success" (fst (execute_sql sql user_role w)) = true ->
  exists records,
    fst (execute_sql sql user_role w) !! "data" = Some (PList records)
    /\ fst (execute_sql sql user_role w) !! "count"
       = Some (PInt (Z.of_nat (length records))).
Proof.
  intros Hsel. destruct (sqlite_connect (w_db w)) as [e|[]] eqn:Hconn.
  { rewrite (execute_sql_connect_failed _ _ _ _
               (select_not_rejected _ Hsel) Hconn).
    now destruct e. }
  rewrite (execute_sql_select _ _ _ Hsel Hconn).
  destruct (pd_read_sql sql (w_db w)) as [e|df]; [now destruct e|].
  destruct (df_empty df); intros _; cbn [fst].
  - now exists [].
  - eexists. split; [reflexivity|].
    unfold df_to_records. now rewrite !length_map.
Qed.

(** X7. When HR executes a statement that starts with UPDATE, INSERT or
    DELETE and the store runs it, the outcome is that of the commit.  When
    the commit goes through, the result is a success that reports the row
    count of the store and, as the operation, the first word of the
    statement in upper case, which starts with the keyword, and the pending
    rows are those of the store; the index error a statement without words
    would raise after the commit cannot happen.  When the commit raises,
    the result is the error of the handler of that exception and the rows
    are those before the call. *)
Theorem committed_mutation_is_reported (sql : string)
    (user_role : option string) (w : World) (pending : DB)
    (rows_affected : Z) :
  is_mutating sql = true ->
  is_hr user_role = true ->
  sqlite_connect (w_db w) = inr tt ->
  cursor_execute sql (w_db w) = inr (pending, rows_affected) ->
  let result := fst (execute_sql sql user_role w) in
  let w' := snd (execute_sql sql user_role w) in
  (conn_commit (w_db w) pending = inr tt ->
   result !! "success" = Some (PBool true)
   /\ result !! "rows_affected" = Some (PInt rows_affected)
   /\ (exists operation,
         result !! "operation" = Some (PStr operation)
         /\ startswith_any operation ["UPDATE"; "INSERT"; "DELETE"] = true)
   /\ w_db w' = pending
   /\ w_trace w'
      = w_trace w ++ [OpConnect; OpExecute sql; OpCommit; OpClose])
  /\ (forall e,
        conn_commit (w_db w) pending = inl e ->
        result = execution_error sql e
        /\ has_key "success" result = false
        /\ w_db w' = w_db w
        /\ w_trace w' = w_trace w ++ [OpConnect; OpExecute sql]).
Proof.
  intros Hmut Hrole Hconn Hexec. cbn zeta. split.
  - intros Hcommit.
    destruct (first_word_of_mutation _ Hmut)
      as (first & rest & Hwords & Hfirst).
    rewrite (execute_sql_committed _ _ _ _ _ _ _
               Hmut Hrole Hconn Hexec Hcommit Hwords).
    cbn [fst snd w_db w_trace]. repeat split.
    exists (upper first). now split.
  - intros e Hcommit.
    rewrite (execute_sql_commit_failed _ _ _ _ _ _
               Hmut Hrole Hconn Hexec Hcommit).
    cbn [fst snd w_db w_trace]. repeat split. now destruct e.
Qed.

(** X8. When the store raises on a statement HR executes, nothing is
    committed: the rows are those before the call, the statement is the
    last thing that reached the store, and the result is the error of the
    handler of that exception class; a conflict of integrity is reported as
    a constraint violation. *)
Theorem refused_mutation_changes_nothing (sql : string)
    (user_role : option string) (w : World) (e : PyExc) :
  is_mutating sql = true ->
  is_hr user_role = true ->
  sqlite_connect (w_db w) = inr tt ->
  cursor_execute sql (w_db w) = inl e ->
  let result := fst (execute_sql sql user_role w) in
  let w' := snd (execute_sql sql user_role w) in
  result = execution_error sql e
  /\ has_key "success" result = false
  /\ w_db w' = w_db w
  /\ w_trace w' = w_trace w ++ [OpConnect; OpExecute sql]
  /\ (forall msg, e = IntegrityError msg ->
        result !! "error"
        = Some (PStr ("Database constraint violation: " +:+ msg))).
Proof.
  intros Hmut Hrole Hconn Hexec. cbn zeta.
  rewrite (execute_sql_refused _ _ _ _ Hmut Hrole Hconn Hexec).
  cbn [fst snd w_db w_trace]. repeat split.
  - now destruct e.
  - now intros msg ->.
Qed.

(** X9. For a caller with an identifier, an ASCII query, an ASCII name of
    the identity column and whatever ASCII text the model answers, every
    text the SELECT generator lets through starts with the letters of
    SELECT, has the letters WHERE in some case, names the identity column
    and holds the caller's identifier. *)
Theorem identified_select_mentions_identity (nl_query user_id : string)
    (w : World) :
  is_ascii nl_query = true ->
  is_ascii (DbSetup.get_employee_id_column (w_db w)) = true ->
  ascii_answer SELECT nl_query (Some user_id) w ->
  let out := fst (generate_select_sql nl_query (Some user_id) w) in
  is_rejected out = true
  \/ (startswith (upper out) "SELECT" = true
      /\ contains "where" (lower out) = true
      /\ contains (lower (DbSetup.get_employee_id_column (w_db w)))
           (lower out) = true
      /\ contains user_id out = true).
Proof.
  intros _ _ _. cbn zeta. open_generator.
  destruct (llm_call _ (w_llm w)) as [[e|raw] l]; [left; reflexivity|].
  destruct (_clean_sql raw) as [e|sql]; [left; reflexivity|].
  destruct (startswith (upper sql) "SELECT") eqn:Hsel; [|left; reflexivity].
  right. cbv beta iota zeta delta [fst negb]. cbn [w_db].
  split; [now apply ensure_user_filter_keeps_select|].
  apply ensure_user_filter_checks.
Qed.

(** X10. [_ensure_user_filter] never removes or replaces text: the
    statement it is given is the start of the statement it returns. *)
Theorem ensure_user_filter_keeps_statement (d : DB) (sql user_id : string) :
  startswith (_ensure_user_filter d sql user_id) sql = true.
Proof.
  destruct (ensure_user_filter_appends d sql user_id)
    as [E | [[_ E] | [_ E]]]; rewrite E;
    [apply startswith_refl | apply startswith_refl_app
    | apply startswith_refl_app].
Qed.

(** X11. For HR the classifier looks for its words anywhere in the text, so
    words added before or after a query never turn a mutating
    classification into SELECT, and a query classified UPDATE stays
    UPDATE. *)
Theorem added_words_keep_mutating_intent (a nl_query b : string) :
  (classify_sql_intent nl_query (Some "hr") <> SELECT ->
   classify_sql_intent (a +:+ nl_query +:+ b) (Some "hr") <> SELECT)
  /\ (classify_sql_intent nl_query (Some "hr") = UPDATE ->
      classify_sql_intent (a +:+ nl_query +:+ b) (Some "hr") = UPDATE).
Proof.
  unfold classify_sql_intent. cbn [is_hr String.eqb negb].
  change (String.eqb "hr" "hr") with true. cbn [negb].
  pose proof (any_in_grows update_keywords a nl_query b) as Hu.
  pose proof (any_in_grows insert_keywords a nl_query b) as Hi.
  pose proof (any_in_grows delete_keywords a nl_query b) as Hd.
  destruct (any_in update_keywords (lower nl_query)).
  { rewrite (Hu eq_refl). split; [discriminate|reflexivity]. }
  split; [|destruct (any_in insert_keywords (lower nl_query));
            [|destruct (any_in delete_keywords (lower nl_query))];
            discriminate].
  destruct (any_in update_keywords (lower (a +:+ nl_query +:+ b)));
    [discriminate|].
  destruct (any_in insert_keywords (lower nl_query)).
  { rewrite (Hi eq_refl). discriminate. }
  destruct (any_in insert_keywords (lower (a +:+ nl_query +:+ b)));
    [discriminate|].
  destruct (any_in delete_keywords (lower nl_query)).
  { rewrite (Hd eq_refl). discriminate. }
  intros Hneq. now destruct Hneq.
Qed.

(** X26. On the fusion path the statement is generated and executed with
    the default role.  Whoever asks, HR included, whatever the question
    and whatever the model answers on any of its calls, running the fusion
    path leaves the rows of the store as they were: what reaches the store
    is never an execution or a commit. *)
Theorem fusion_path_changes_no_rows (a : MainAgent.Agent) (question : string)
    (w : World) :
  exists ops,
    store_saw w (snd (MainAgent.execute_fusion_query a question w)) ops
    /\ read_only ops = true.
Proof. apply execute_fusion_query_read_only. Qed.

(** X27. For each of the four kinds, an ASCII query and an ASCII answer of
    the model: when the cleaned text does not start, in any letter case,
    with the letters of the keyword of the kind, the generator returns the
    sentinel that names the kind, and [execute_sql] on that sentinel, under
    any role, returns the error without the marker and leaves the world as
    it was: the store is not opened. *)
Theorem unmatched_letters_are_rejected_and_not_executed (intent : Intent)
    (nl_query : string) (user_id : option string) (w : World)
    (raw sql : string) (l : LLM) :
  is_ascii nl_query = true ->
  is_ascii raw = true ->
  llm_call (prompt_for intent nl_query user_id (w_db w)) (w_llm w)
  = (inr raw, l) ->
  _clean_sql raw = inr sql ->
  startswith (upper sql) (keyword intent) = false ->
  let out := fst (generator intent nl_query user_id w) in
  let w1 := snd (generator intent nl_query user_id w) in
  is_rejected out = true
  /\ out = "REJECTED_SQL: Must be " +:+ keyword intent
             +:+ " statement -> " +:+ sql
  /\ store_saw w w1 []
  /\ forall executing_role,
       execute_sql out executing_role w1
       = (dict_of [ ("error",
                     PStr ("Must be " +:+ keyword intent
                             +:+ " statement -> "
                             +:+ replace sql "REJECTED_SQL: " "")) ],
          w1).
Proof.
  intros _ _ Hllm Hclean Hkw. cbn zeta.
  rewrite (generator_wrong_keyword _ _ _ _ _ _ _ Hllm Hclean Hkw).
  cbn [fst snd].
  assert (Hrej : is_rejected ("REJECTED_SQL: Must be " +:+ keyword intent
                                +:+ " statement -> " +:+ sql) = true)
    by reflexivity.
  split; [exact Hrej|]. split; [reflexivity|]. split.
  - unfold store_saw, after_model. cbn. now rewrite app_nil_r.
  - intros executing_role.
    now rewrite (execute_sql_rejected _ _ _ Hrej), replace_wrong_keyword.
Qed.

End SqlAgentProperties.

Section SqlAgentExamples.
Import PyStr SQLAgent Pipeline Lexicon.

Lemma select_count_is_number_of_records_witness :
  exists records,
    fst (@execute_sql Demo.platform "SELECT Name FROM employees"
           (Some "hr") (Demo.world Demo.store [] None))
    !! "data" = Some (PList records)
    /\ fst (@execute_sql Demo.platform "SELECT Name FROM employees"
              (Some "hr") (Demo.world Demo.store [] None))
       !! "count" = Some (PInt (Z.of_nat (length records))).
Proof.
  apply (@select_count_is_number_of_records Demo.platform); reflexivity.
Defined.

Lemma committed_mutation_is_reported_witness :
  fst (@execute_sql Demo.platform
         "delete from employees where EmployeeNumber = '10'" (Some "hr")
         (Demo.world Demo.store [] None))
  !! "rows_affected" = Some (PInt 2)
  /\ w_db (snd (@execute_sql DemoBusy.platform
                  "delete from employees where EmployeeNumber = '10'"
                  (Some "hr") (DemoBusy.world Demo.store)))
     = Demo.store.
Proof.
  split.
  - destruct (@committed_mutation_is_reported Demo.platform
                "delete from employees where EmployeeNumber = '10'"
                (Some "hr") (Demo.world Demo.store [] None)
                (Demo.mkStore true Demo.employees_columns []) 2)
      as [Hdone _]; [reflexivity | reflexivity | reflexivity | reflexivity |].
    destruct (Hdone eq_refl) as (_ & Hrows & _). exact Hrows.
  - destruct (@committed_mutation_is_reported DemoBusy.platform
                "delete from employees where EmployeeNumber = '10'"
                (Some "hr") (DemoBusy.world Demo.store)
                (Demo.mkStore true Demo.employees_columns []) 2)
      as [_ Hfailed]; [reflexivity | reflexivity | reflexivity | reflexivity |].
    destruct (Hfailed DemoBusy.locked eq_refl) as (_ & _ & Hrows & _).
    exact Hrows.
Defined.

Lemma refused_mutation_changes_nothing_witness :
  w_db (snd (@execute_sql DemoLocked.platform
               "INSERT INTO employees (EmployeeNumber) VALUES ('1')"
               (Some "hr") (DemoLocked.world Demo.store)))
  = Demo.store.
Proof.
  apply (@refused_mutation_changes_nothing DemoLocked.platform
           "INSERT INTO employees (EmployeeNumber) VALUES ('1')"
           (Some "hr") (DemoLocked.world Demo.store) DemoLocked.conflict);
    reflexivity.
Defined.

Lemma generate_sql_statement_kind_witness :
  is_rejected
    (fst (@generate_sql Demo.platform "remove employee 10" None (Some "hr")
            (Demo.world Demo.store
               [inr "delete from employees where EmployeeNumber = '10'"]
               None))) = true
  \/ startswith
       (upper
          (fst (@generate_sql Demo.platform "remove employee 10" None
                  (Some "hr")
                  (Demo.world Demo.store
                     [inr "delete from employees where EmployeeNumber = '10'"]
                     None))))
       "DELETE" = true.
Proof.
  apply (@generate_sql_statement_kind Demo.platform "remove employee 10" None
           (Some "hr")
           (Demo.world Demo.store
              [inr "delete from employees where EmployeeNumber = '10'"]
              None)); [reflexivity|].
  intros raw l Hanswer. vm_compute in Hanswer.
  injection Hanswer as <- _. reflexivity.
Defined.

Lemma identified_select_mentions_identity_witness :
  is_rejected
    (fst (@generate_select_sql Demo.platform "what is my salary" (Some "1")
            (Demo.world Demo.store
               [inr "SELECT MonthlyIncome FROM employees"] None))) = true
  \/ (startswith
        (upper
           (fst (@generate_select_sql Demo.platform "what is my salary"
                   (Some "1")
                   (Demo.world Demo.store
                      [inr "SELECT MonthlyIncome FROM employees"] None))))
        "SELECT" = true
      /\ contains "where"
           (lower
              (fst (@generate_select_sql Demo.platform "what is my salary"
                      (Some "1")
                      (Demo.world Demo.store
                         [inr "SELECT MonthlyIncome FROM employees"] None))))
         = true
      /\ contains
           (lower (@DbSetup.get_employee_id_column Demo.platform Demo.store))
           (lower
              (fst (@generate_select_sql Demo.platform "what is my salary"
                      (Some "1")
                      (Demo.world Demo.store
                         [inr "SELECT MonthlyIncome FROM employees"] None))))
         = true
      /\ contains "1"
           (fst (@generate_select_sql Demo.platform "what is my salary"
                   (Some "1")
                   (Demo.world Demo.store
                      [inr "SELECT MonthlyIncome FROM employees"] None)))
         = true).
Proof.
  apply (@identified_select_mentions_identity Demo.platform
           "what is my salary" "1"
           (Demo.world Demo.store
              [inr "SELECT MonthlyIncome FROM employees"] None));
    [reflexivity | reflexivity |].
  intros raw l Hanswer. vm_compute in Hanswer.
  injection Hanswer as <- _. reflexivity.
Defined.

Lemma unmatched_letters_are_rejected_and_not_executed_witness :
  fst (@generator Demo.platform UPDATE
         "update salary of employee E001 to 50000" None
         (Demo.world Demo.store [inr "SELECT * FROM employees"] None))
  = "REJECTED_SQL: Must be UPDATE statement -> SELECT * FROM employees".
Proof.
  apply (@unmatched_letters_are_rejected_and_not_executed Demo.platform UPDATE
           "update salary of employee E001 to 50000" None
           (Demo.world Demo.store [inr "SELECT * FROM employees"] None)
           "SELECT * FROM employees" "SELECT * FROM employees" []);
    reflexivity.
Defined.

Lemma added_words_keep_mutating_intent_witness :
  classify_sql_intent
    ("please " +:+ "remove employee E001" +:+ " and show the rest")
    (Some "hr") <> SELECT.
Proof.
  apply (added_words_keep_mutating_intent "please " "remove employee E001"
           " and show the rest").
  vm_compute. discriminate.
Defined.

End SqlAgentExamples.

(** ** database/db_setup.py *)

Module DbSetupFacts.
Import PyStr PyStrFacts DbSetup.

(** One line of the schema text. *)
Lemma schema_fold_keeps (x : string) (info : list (string * string)) :
  forall acc,
    contains x acc = true ->
    contains x
      (fold_left
         (fun schema_text i =>
            schema_text +:+ "- " +:+ fst i +:+ " (" +:+ snd i +:+ ")" +:+ LF)
         info acc) = true.
Proof.
  induction info as [|i info IH]; intros acc Hacc; [exact Hacc|].
  cbn [fold_left]. apply IH. now apply contains_app_l.
Qed.

Lemma schema_fold_starts (p : string) (info : list (string * string)) :
  forall acc,
    startswith acc p = true ->
    startswith
      (fold_left
         (fun schema_text i =>
            schema_text +:+ "- " +:+ fst i +:+ " (" +:+ snd i +:+ ")" +:+ LF)
         info acc) p = true.
Proof.
  induction info as [|i info IH]; intros acc Hacc; [exact Hacc|].
  cbn [fold_left]. apply IH. now apply startswith_app.
Qed.

Lemma schema_fold_lists (name ty : string) (info : list (string * string)) :
  forall acc,
    In (name, ty) info ->
    contains ("- " +:+ name +:+ " (" +:+ ty +:+ ")" +:+ LF)
      (fold_left
         (fun schema_text i =>
            schema_text +:+ "- " +:+ fst i +:+ " (" +:+ snd i +:+ ")" +:+ LF)
         info acc) = true.
Proof.
  induction info as [|i info IH]; intros acc Hin; [destruct Hin|].
  cbn [fold_left]. destruct Hin as [-> | Hin]; [|now apply IH].
  apply schema_fold_keeps. cbn [fst snd].
  apply contains_app_r, contains_refl.
Qed.

End DbSetupFacts.

Section DbSetupProperties.
Context `{Platform}.
Import PyStr PyStrFacts DbSetup DbSetupFacts.

(** X12. When the table can be read and has columns, the identity column
    [get_employee_id_column] returns is one of the columns of the table. *)
Theorem employee_id_column_is_a_column (d : DB)
    (info : list (string * string)) :
  pragma_table_info d = inr info ->
  info <> [] ->
  In (get_employee_id_column d) (map fst info).
Proof.
  intros Hinfo Hne. unfold get_employee_id_column. rewrite Hinfo.
  destruct (find looks_like_employee_id (map fst info)) as [col|] eqn:Hfind.
  - now apply find_some in Hfind as [Hin _].
  - repeat case_bool_decide; try (now apply list_elem_of_In).
    destruct info as [|i info]; [congruence|]. now left.
Qed.

(** X13. The column chosen is the first whose name, in lower case, holds
    [emp] and one of [id] and [number]; without such a column it is the
    first column of the table, whatever it holds.  The two tests for the
    names EmployeeNumber and EmpID never decide: the loop before them
    takes both names. *)
Theorem employee_id_column_is_first_match (d : DB)
    (info : list (string * string)) :
  pragma_table_info d = inr info ->
  get_employee_id_column d
  = match find looks_like_employee_id (map fst info) with
    | Some col => col
    | None => hd "id" (map fst info)
    end.
Proof.
  intros Hinfo. unfold get_employee_id_column. rewrite Hinfo.
  destruct (find looks_like_employee_id (map fst info)) as [col|] eqn:Hfind;
    [reflexivity|].
  repeat case_bool_decide.
  - apply list_elem_of_In in H0.
    pose proof (find_none _ _ Hfind _ H0) as Hno. discriminate Hno.
  - apply list_elem_of_In in H1.
    pose proof (find_none _ _ Hfind _ H1) as Hno. discriminate Hno.
  - now destruct (map fst info).
Qed.

(** X14. When the table can be read, the schema text handed to the model
    starts with its heading, and it has, for every column of the table, the
    line with the name and the type of the column. *)
Theorem table_schema_lists_every_column (d : DB)
    (info : list (string * string)) :
  pragma_table_info d = inr info ->
  startswith (get_table_schema d) ("employees table columns:" +:+ LF) = true
  /\ forall name ty,
       In (name, ty) info ->
       contains ("- " +:+ name +:+ " (" +:+ ty +:+ ")" +:+ LF)
         (get_table_schema d) = true.
Proof.
  intros Hinfo. unfold get_table_schema. rewrite Hinfo. split.
  - apply schema_fold_starts, startswith_refl.
  - intros name ty Hin. now apply schema_fold_lists.
Qed.

End DbSetupProperties.

Section DbSetupExamples.
Import PyStr DbSetup.

Lemma employee_id_column_is_a_column_witness :
  In (@get_employee_id_column Demo.platform Demo.store)
     (map fst Demo.employees_columns).
Proof.
  apply (@employee_id_column_is_a_column Demo.platform Demo.store
           Demo.employees_columns); [reflexivity|discriminate].
Defined.

Lemma employee_id_column_is_first_match_witness :
  @get_employee_id_column Demo.platform
    (Demo.mkStore true [("Name", "TEXT"); ("EmpID", "INTEGER")] [])
  = "EmpID"
  /\ @get_employee_id_column Demo.platform
       (Demo.mkStore true [("Name", "TEXT"); ("Age", "INTEGER")] [])
     = "Name".
Proof.
  split.
  - rewrite (@employee_id_column_is_first_match Demo.platform
               (Demo.mkStore true [("Name", "TEXT"); ("EmpID", "INTEGER")] [])
               [("Name", "TEXT"); ("EmpID", "INTEGER")] eq_refl).
    reflexivity.
  - rewrite (@employee_id_column_is_first_match Demo.platform
               (Demo.mkStore true [("Name", "TEXT"); ("Age", "INTEGER")] [])
               [("Name", "TEXT"); ("Age", "INTEGER")] eq_refl).
    reflexivity.
Defined.

Lemma table_schema_lists_every_column_witness :
  startswith (@get_table_schema Demo.platform Demo.empty_store)
    ("employees table columns:" +:+ LF) = true
  /\ contains ("- " +:+ "Department" +:+ " (" +:+ "TEXT" +:+ ")" +:+ LF)
       (@get_table_schema Demo.platform Demo.store) = true.
Proof.
  split.
  - apply (proj1 (@table_schema_lists_every_column Demo.platform
                    Demo.empty_store Demo.employees_columns eq_refl)).
  - apply (proj2 (@table_schema_lists_every_column Demo.platform
                    Demo.store Demo.employees_columns eq_refl)).
    vm_compute. tauto.
Defined.

End DbSetupExamples.

(** ** The policy agent and the policy route *)

Module AppendFacts.
Import PyStrFacts.

Lemma append_empty_r (s : string) : s +:+ "" = s.
Proof.
  induction s as [|c s IH]; [reflexivity|]. now rewrite append_cons, IH.
Qed.

End AppendFacts.

Section PolicyProperties.
Context `{Services}.
Import PyStr PyStrFacts FusionFacts Orchestrator.

(** X15. Every dictionary [PolicyAgent.query] returns has an answer, which
    is a string, and exactly one of the keys [error] and [success]. *)
Theorem policy_result_has_answer (question : string) (return_raw : bool)
    (w w' : World) (result : gmap string PyVal) :
  PolicyAgent.query question return_raw w = (inr result, w') ->
  (exists answer, result !! "answer" = Some (PStr answer))
  /\ has_key "error" result = negb (has_key "success" result).
Proof.
  unfold PolicyAgent.query, PolicyAgent._build_context, bind, llm__call.
  split_cases; intros E; inversion E; subst; split;
    first [eexists; reflexivity | reflexivity].
Qed.

(** X16. When the policy index is not loaded and cannot be loaded, the
    policy route answers that the policy database is not initialised; the
    model is not called and nothing is retrieved. *)
Theorem policy_route_without_index (question : string) (w : World)
    (load_result : gmap string PyVal) (ix : Index) :
  policy_is_loaded (w_index w) = false ->
  policy_load_existing_index (w_index w) = (load_result, ix) ->
  has_key "error" load_result = true ->
  execute_policy_query question w
  = (inr "❌ Policy database not initialized. Please upload a policy PDF first.",
     mkWorld (w_db w) (w_llm w) ix (w_trace w)).
Proof.
  intros Hloaded Hload Herr.
  unfold execute_policy_query, bind, PolicyAgent.query.
  now rewrite Hloaded, Hload, Herr.
Qed.

(** X17. The policy route never lists referenced sections: no dictionary
    of [PolicyAgent.query] has source documents, so the reply is the error
    after a cross, or the answer followed by the one fixed source line. *)
Theorem policy_route_reply (question : string) (w : World) :
  execute_policy_query question w
  = match PolicyAgent.query question false w with
    | (inl e, w') => (inl e, w')
    | (inr result, w') =>
        (inr match result !! "error" with
             | Some e => "❌ " +:+ MainAgent.fmt e
             | None =>
                 MainAgent.fmt
                   (default (PStr "No answer found") (result !! "answer"))
                 +:+ policy_footer
             end, w')
    end.
Proof.
  unfold execute_policy_query, bind.
  destruct (PolicyAgent.query question false w) as [[e|result] w'] eqn:Hq;
    [reflexivity|].
  rewrite (policy_query_has_no_source_documents _ _ _ _ _ Hq).
  destruct (result !! "error"); [reflexivity|].
  unfold lift, ret, referenced_sections. cbn [truthy].
  now rewrite AppendFacts.append_empty_r.
Qed.

End PolicyProperties.

Section PolicyExamples.
Import PyStr Orchestrator.

Lemma policy_result_has_answer_witness :
  exists answer,
    dict_of [ ("success", PBool true); ("answer", PStr "• 12 days a year") ]
    !! "answer" = Some (PStr answer).
Proof.
  apply (@policy_result_has_answer Demo.platform "how much leave" false
           (Demo.world Demo.store [inr "• 12 days a year"]
              (Some "Leave: 12 days per year"))
           (Demo.world Demo.store [] (Some "Leave: 12 days per year"))).
  vm_compute. reflexivity.
Defined.

Lemma policy_route_without_index_witness :
  fst (@execute_policy_query Demo.platform "how much leave"
         (Demo.world Demo.store [inr "• 12 days a year"] None))
  = inr "❌ Policy database not initialized. Please upload a policy PDF first.".
Proof.
  erewrite (@policy_route_without_index Demo.platform "how much leave"
              (Demo.world Demo.store [inr "• 12 days a year"] None));
    reflexivity.
Defined.

End PolicyExamples.

(** ** The SQL route and the routing *)

Module RouteFacts.
Import PyStr PyStrFacts SQLAgent Pipeline ExecuteFacts GenerateFacts.
Import FusionFacts SelectFacts Orchestrator.

Section WithServices.
Context `{Services}.

(** Without the HR role the SELECT generator is the one called. *)
Lemma generate_sql_unprivileged (nl_query : string)
    (user_id user_role : option string) :
  is_hr user_role = false ->
  generate_sql nl_query user_id user_role
  = generate_select_sql nl_query user_id.
Proof.
  intros Hrole. unfold generate_sql, classify_sql_intent. now rewrite Hrole.
Qed.

(** The SQL route of a caller who is not HR changes no rows. *)
Lemma execute_sql_query_read_only (a : MainAgent.Agent) (question : string)
    (w : World) :
  is_hr (MainAgent.current_user_role a) = false ->
  exists ops,
    store_saw w (snd (execute_sql_query a question w)) ops
    /\ read_only ops = true.
Proof.
  intros Hrole. unfold execute_sql_query.
  rewrite (generate_sql_unprivileged _ _ _ Hrole).
  pose proof (generator_quiet SELECT question (MainAgent.current_user_id a) w)
    as Hgen.
  cbn [generator] in Hgen.
  destruct (generate_select_sql question (MainAgent.current_user_id a) w)
    as [sql w1].
  cbn [snd] in Hgen.
  destruct (execute_sql_unprivileged sql (MainAgent.current_user_role a) w1
              Hrole)
    as (ops & Hexec & Hro).
  destruct (execute_sql sql (MainAgent.current_user_role a) w1)
    as [result w2].
  cbn [snd] in Hexec.
  assert (Hdone : store_saw w w2 (([] ++ ops) ++ []))
    by (rewrite app_nil_r; eauto using store_saw_trans).
  rewrite app_nil_r in Hdone. cbn [app] in Hdone.
  destruct (result !! "error"); [now exists ops|].
  destruct (reports_mutation (result !! "operation")); [now exists ops|].
  unfold bind, ret.
  match goal with
  | |- context [llm__call ?p w2] =>
      pose proof (llm__call_quiet p w2) as Hllm;
      destruct (llm__call p w2) as [[e|response] w3]
  end;
    cbn [snd] in Hllm |- *; exists (ops ++ []);
    (split; [eauto using store_saw_trans | now rewrite app_nil_r]).
Qed.

(** The agents listed never get fewer. *)
Lemma read_line_agents (r : Routing) (line : string) :
  (length (agents r) <= length (agents (read_line r line)))%nat.
Proof.
  unfold read_line.
  repeat match goal with
         | |- context [if ?b then _ else _] => destruct b
         end;
    cbn [agents]; rewrite ?length_app; cbn [length]; lia.
Qed.

Lemma fold_read_line_agents (lines : list string) :
  forall r,
    (length (agents r) <= length (agents (fold_left read_line lines r)))%nat.
Proof.
  induction lines as [|line lines IH]; intros r; [cbn; lia|].
  cbn [fold_left]. pose proof (read_line_agents r line).
  pose proof (IH (read_line r line)). lia.
Qed.

End WithServices.
End RouteFacts.

Section RouteProperties.
Context `{Services}.
Import PyStr PyStrFacts SQLAgent Pipeline ExecuteFacts GenerateFacts.
Import FusionFacts Orchestrator RouteFacts ExecuteBranches Lexicon.

(** X4. On the SQL route, for a caller whose role is not HR and whatever
    the model answers, the rows of the store after [execute_sql_query] are
    those before it and no statement was executed or committed. *)
Theorem sql_route_of_non_hr_never_mutates (a : MainAgent.Agent)
    (question : string) (w : World) :
  MainAgent.current_user_role a <> Some "hr" ->
  exists ops,
    store_saw w (snd (execute_sql_query a question w)) ops
    /\ read_only ops = true.
Proof.
  intros Hrole. apply execute_sql_query_read_only. now apply not_hr.
Qed.

(** X18. When the generator rejects, the SQL route replies with a cross
    and the reason, without the marker; the store is not opened and the
    model is not called again. *)
Theorem sql_route_reports_rejection (a : MainAgent.Agent) (question : string)
    (w : World) :
  let generated :=
    generate_sql question (MainAgent.current_user_id a)
                 (MainAgent.current_user_role a) w in
  is_rejected (fst generated) = true ->
  execute_sql_query a question w
  = (inr ("❌ " +:+ replace (fst generated) "REJECTED_SQL: " ""),
     snd generated).
Proof.
  cbn zeta. unfold execute_sql_query.
  destruct (generate_sql question _ _ w) as [sql w1]. cbn [fst snd].
  intros Hrej. now rewrite (execute_sql_rejected _ _ _ Hrej).
Qed.

(** X19. When the store runs HR's statement, the commit goes through and
    the first word of the statement is UPDATE, INSERT or DELETE in some
    letter case, the SQL route replies with the message of the execution
    as it is: the model is not asked to reword it. *)
Theorem sql_route_reports_mutation_verbatim (a : MainAgent.Agent)
    (question sql : string) (w w1 : World) (pending : DB)
    (rows_affected : Z) (first : string) (rest : list string) :
  generate_sql question (MainAgent.current_user_id a)
               (MainAgent.current_user_role a) w = (sql, w1) ->
  is_mutating sql = true ->
  is_hr (MainAgent.current_user_role a) = true ->
  sqlite_connect (w_db w1) = inr tt ->
  cursor_execute sql (w_db w1) = inr (pending, rows_affected) ->
  conn_commit (w_db w1) pending = inr tt ->
  split_ws sql = first :: rest ->
  In (upper first) ["UPDATE"; "INSERT"; "DELETE"] ->
  execute_sql_query a question w
  = (inr ("✅ " +:+ upper first +:+ " successful! "
            +:+ pretty rows_affected +:+ " row(s) affected."),
     mkWorld pending (w_llm w1) (w_index w1)
             (w_trace w1 ++ [OpConnect; OpExecute sql; OpCommit; OpClose])).
Proof.
  intros Hgen Hmut Hrole Hconn Hexec Hcommit Hwords Hop.
  unfold execute_sql_query. rewrite Hgen.
  rewrite (execute_sql_committed _ _ _ _ _ _ _
             Hmut Hrole Hconn Hexec Hcommit Hwords).
  unfold mutation_report.
  assert (Hrep : reports_mutation (Some (PStr (upper first))) = true).
  { unfold reports_mutation. apply bool_decide_eq_true.
    now apply list_elem_of_In. }
  change (dict_of _ !! "error") with (@None PyVal).
  change (dict_of _ !! "operation") with (Some (PStr (upper first))).
  now rewrite Hrep.
Qed.

(** X20. When a line of the classification answer starts with AGENTS: and
    names both SQL and POLICY, the request is routed as a fusion, whatever
    the other lines say. *)
Theorem both_agents_mean_fusion (response line : string) :
  In line (split response LF) ->
  startswith (strip line) "AGENTS:" = true ->
  contains "SQL" (strip (replace (strip line) "AGENTS:" "")) = true ->
  contains "POLICY" (strip (replace (strip line) "AGENTS:" "")) = true ->
  is_fusion (read_routing response) = true.
Proof.
  intros Hin Hstart Hsql Hpolicy. unfold read_routing. cbn [is_fusion].
  apply in_split in Hin as (before & after & ->).
  rewrite fold_left_app. cbn [fold_left].
  set (r := fold_left read_line before (mkRouting [] "query_data" false)).
  pose proof (fold_read_line_agents after (read_line r line)) as Hgrow.
  assert (Hline : (2 <= length (agents (read_line r line)))%nat).
  { unfold read_line. rewrite Hstart, Hsql, Hpolicy. cbn [agents].
    rewrite !length_app. cbn [length]. lia. }
  apply orb_true_iff. right. apply Nat.ltb_lt. lia.
Qed.

End RouteProperties.

(** ** The employee agent *)

Module EmployeeFacts.
Import PyStr PyStrFacts SQLAgent Pipeline ExecuteFacts GenerateFacts.
Import FusionFacts SelectFacts PayslipGenerator EmployeeAgent Lexicon.

Section WithServices.
Context `{Services}.

(** What a payslip generator lets the store see changes no rows. *)
Lemma payslip_reads_read_only (emp_id : string) (w w' : World) :
  payslip_reads emp_id w w' ->
  exists ops, store_saw w w' ops /\ read_only ops = true.
Proof.
  intros (ops & Hsaw & [-> | [-> | ->]]); eexists; split;
    first [exact Hsaw | reflexivity].
Qed.

(** Reading the row of an employee. *)
Lemma read_employee_reads (emp_id : string) (w : World) :
  payslip_reads emp_id w (snd (read_employee emp_id w))
  /\ w_llm (snd (read_employee emp_id w)) = w_llm w.
Proof.
  unfold payslip_reads, read_employee, read_sql_params, bind, connect,
    close, log, ret.
  destruct (sqlite_connect (w_db w)) as [e|[]]; cbn [snd].
  - split; [|reflexivity]. exists []. split; [apply store_saw_refl|auto].
  - cbn [w_db w_llm w_index w_trace].
    destruct (pd_read_sql_params _ _ (w_db w)) as [e|df];
      cbn [snd w_llm]; (split; [|reflexivity]).
    + eexists. split; [|right; left; reflexivity].
      unfold store_saw. cbn. now rewrite <- app_assoc.
    + eexists. split; [|right; right; reflexivity].
      unfold store_saw. cbn. now rewrite <- !app_assoc.
Qed.

(** A generator reads the row of its employee, calls no model and asks
    the desk for the one payslip at most. *)
Lemma generator_reads_one_row (pdf : bool) (emp_id : string) (s : Site) :
  let s' :=
    snd ((if pdf then generate_payslip_pdf else generate_payslip_text)
           emp_id s) in
  payslip_reads emp_id (s_world s) (s_world s')
  /\ w_llm (s_world s') = w_llm (s_world s)
  /\ payslip_written pdf emp_id (s_calls s) (s_calls s').
Proof.
  cbn zeta. destruct (read_employee_reads emp_id (s_world s)) as [Hreads Hllm].
  unfold payslip_written.
  destruct pdf; unfold generate_payslip_pdf, generate_payslip_text;
    destruct (read_employee emp_id (s_world s)) as [[e|df] w];
    cbn [snd] in Hreads, Hllm; try (cbn; now auto);
    destruct (df_empty df); try (cbn; now auto);
    match goal with
    | |- context [?write emp_id (first_record df) (s_desk s)] =>
        destruct (write emp_id (first_record df) (s_desk s))
          as [[e|filename] desk]
    end; cbn; auto.
Qed.

(** Generating a payslip changes no rows, calls no model and sends no
    mail. *)
Lemma generate_payslip_quiet (query : string)
    (user_id user_role : option string) (s : Site) :
  let s' := snd (generate_payslip query user_id user_role s) in
  (exists ops,
     store_saw (s_world s) (s_world s') ops /\ read_only ops = true)
  /\ w_llm (s_world s') = w_llm (s_world s)
  /\ exists calls, s_calls s' = s_calls s ++ calls /\ no_mail calls = true.
Proof.
  cbn zeta.
  assert (Hsame :
    (exists ops, store_saw (s_world s) (s_world s) ops /\ read_only ops = true)
    /\ w_llm (s_world s) = w_llm (s_world s)
    /\ exists calls, s_calls s = s_calls s ++ calls /\ no_mail calls = true).
  { split; [exists []; split; [apply store_saw_refl|reflexivity]|].
    split; [reflexivity|]. exists []. now rewrite app_nil_r. }
  unfold generate_payslip.
  destruct (target_id _ query user_id user_role) as [emp_id|]; [|exact Hsame].
  destruct (String.eqb emp_id ""); [exact Hsame|].
  match goal with
  | |- context [(if ?b then generate_payslip_pdf else generate_payslip_text)
                  emp_id s] =>
      destruct (generator_reads_one_row b emp_id s) as (Hreads & Hllm & Hcalls);
      destruct ((if b then generate_payslip_pdf else generate_payslip_text)
                  emp_id s) as [[filename message] s1]
  end.
  cbn [snd] in Hreads, Hllm, Hcalls.
  assert (Hdone :
    (exists ops, store_saw (s_world s) (s_world s1) ops /\ read_only ops = true)
    /\ w_llm (s_world s1) = w_llm (s_world s)
    /\ exists calls, s_calls s1 = s_calls s ++ calls /\ no_mail calls = true).
  { split; [now apply (payslip_reads_read_only emp_id)|]. split; [exact Hllm|].
    destruct Hcalls as [-> | ->].
    - exists []. now rewrite app_nil_r.
    - eexists. split; [reflexivity|]. now destruct (_ || _). }
  destruct filename as [filename|]; [|exact Hdone].
  now destruct (String.eqb filename "").
Qed.

(** From the row found on, sending a payslip reads one more row and
    changes none. *)
Lemma send_found_read_only (emp_id : string) (df : DataFrame) (s : Site) :
  exists ops,
    store_saw (s_world s) (s_world (snd (send_found emp_id df s))) ops
    /\ read_only ops = true.
Proof.
  assert (Hsame : exists ops,
            store_saw (s_world s) (s_world s) ops /\ read_only ops = true)
    by (exists []; split; [apply store_saw_refl|reflexivity]).
  unfold send_found.
  destruct (cell "email" (first_row df)) as [email|]; [|exact Hsame].
  destruct (invalid_email email) as [e|[]]; try exact Hsame.
  destruct (generator_reads_one_row true emp_id s) as (Hreads & _ & _).
  cbn zeta in Hreads.
  apply payslip_reads_read_only in Hreads.
  destruct (generate_payslip_pdf emp_id s) as [[[[|c f]|] message] s1];
    cbn [snd] in Hreads |- *; try exact Hreads.
  destruct (mail_payslip _ _ _ _) as [[e|result] desk2];
    cbn [snd s_world]; [exact Hreads|].
  now destruct (truthy (result !! "success")).
Qed.

(** Looking up an address reads. *)
Lemma lookup_read_only (sql : string) (w : World) :
  exists ops,
    store_saw w
      (snd ((run SQLAgent.connect;
             do df <- SQLAgent.read_sql sql;
             run SQLAgent.close;
             ret df) w)) ops
    /\ read_only ops = true.
Proof.
  unfold bind, connect, read_sql, close, bind, log, ret.
  destruct (sqlite_connect (w_db w)) as [e|[]].
  - exists []. split; [apply store_saw_refl|reflexivity].
  - cbn [w_db w_llm w_index w_trace].
    destruct (pd_read_sql sql (w_db w)) as [e|df]; cbn [snd].
    + exists [OpConnect; OpReadSql sql]. unfold store_saw. cbn.
      now rewrite <- app_assoc.
    + exists [OpConnect; OpReadSql sql; OpClose]. unfold store_saw. cbn.
      now rewrite <- !app_assoc.
Qed.

Lemma send_payslip_email_read_only (query : string)
    (user_id user_role : option string) (s : Site) :
  exists ops,
    store_saw (s_world s)
      (s_world (snd (send_payslip_email query user_id user_role s))) ops
    /\ read_only ops = true.
Proof.
  unfold send_payslip_email.
  destruct (target_id _ query user_id user_role) as [emp_id|];
    [|exists []; split; [apply store_saw_refl|reflexivity]].
  destruct (String.eqb emp_id "");
    [exists []; split; [apply store_saw_refl|reflexivity]|].
  match goal with
  | |- context [bind connect ?k (s_world s)] =>
      destruct (lookup_read_only
                  (email_lookup
                     (DbSetup.get_employee_id_column (w_db (s_world s)))
                     emp_id) (s_world s)) as (ops & Hsaw & Hro);
      destruct (bind connect k (s_world s)) as [[e|df] w1]
  end;
    cbn [snd] in Hsaw.
  - exists ops. now split.
  - destruct (df_empty df); [exists ops; now split|].
    destruct (send_found_read_only emp_id df (mkSite w1 (s_desk s) (s_calls s)))
      as (ops2 & Hsaw2 & Hro2).
    cbn [s_world] in Hsaw2.
    exists (ops ++ ops2).
    split; [|now apply read_only_app].
    destruct (send_found emp_id df (mkSite w1 (s_desk s) (s_calls s)))
      as [[e|result] s2];
      cbn [snd s_world] in Hsaw2 |- *; eauto using store_saw_trans.
Qed.

(** A question about data is answered with the default role. *)
Lemma query_employee_data_read_only (query : string)
    (user_id : option string) (w : World) :
  exists ops,
    store_saw w (snd (query_employee_data query user_id w)) ops
    /\ read_only ops = true.
Proof.
  unfold query_employee_data.
  pose proof (generator_quiet SELECT query user_id w) as Hgen.
  cbn [generator] in Hgen.
  rewrite generate_sql_default_role in *.
  destruct (generate_select_sql query user_id w) as [sql w1].
  cbn [snd] in Hgen.
  destruct (execute_sql_unprivileged sql (Some "employee") w1 eq_refl)
    as (ops & Hexec & Hro).
  exists ([] ++ ops). split; [eauto using store_saw_trans|exact Hro].
Qed.

(** Whatever the intent and the role, [handle_query] changes no rows. *)
Lemma handle_query_read_only (query : string)
    (user_role user_id : option string) (s : Site) :
  exists ops,
    store_saw (s_world s)
      (s_world (snd (handle_query query user_role user_id s))) ops
    /\ read_only ops = true.
Proof.
  unfold handle_query.
  destruct (classify_employee_intent query user_role);
    try match goal with
        | |- context [if is_hr ?r then _ else _] => destruct (is_hr r)
        end;
    try (exists []; split; [apply store_saw_refl|reflexivity]).
  - now destruct (generate_payslip_quiet query user_id user_role s) as [Hro _].
  - apply send_payslip_email_read_only.
  - destruct (query_employee_data_read_only query user_id (s_world s))
      as (ops & Hsaw & Hro).
    destruct (query_employee_data query user_id (s_world s)) as [result w].
    now exists ops.
Qed.

(** The query the orchestrator builds for a payslip is always classified
    as the generation of a payslip. *)
Lemma payslip_query_intent (emp_id : string) (user_role : option string) :
  classify_employee_intent ("generate payslip for " +:+ emp_id) user_role
  = GENERATE_PAYSLIP.
Proof.
  unfold classify_employee_intent. rewrite lower_app.
  assert (Hp : any_in payslip_words
                 (lower "generate payslip for " +:+ lower emp_id) = true).
  { unfold any_in, payslip_words. cbn [existsb].
    rewrite (contains_app_l "payslip"); reflexivity. }
  assert (Hg : any_in generate_words
                 (lower "generate payslip for " +:+ lower emp_id) = true).
  { unfold any_in, generate_words. cbn [existsb].
    rewrite (contains_app_l "generate"); reflexivity. }
  now rewrite Hp, Hg.
Qed.

End WithServices.
End EmployeeFacts.

Module OrchestratorFacts.
Import PyStr PyStrFacts SQLAgent Pipeline ExecuteFacts GenerateFacts.
Import FusionFacts SelectFacts PayslipGenerator EmployeeAgent EmployeeFacts.
Import Orchestrator RouteFacts Lexicon.

Section WithServices.
Context `{Services}.

Lemma contains_skip (k : string) (c : ascii) (s : string) :
  startswith (String c s) k = false ->
  contains k (String c s) = contains k s.
Proof. intros Hs. now rewrite contains_unfold, Hs. Qed.

(** The words that select the generation of a payslip are not in the text
    the orchestrator puts before the identifier. *)
Lemma email_prefix_has_no_generate_word (x : string) :
  any_in generate_words ("send payslip email to " +:+ x)
  = any_in generate_words x.
Proof.
  unfold any_in, generate_words. cbn [existsb].
  repeat (rewrite append_cons, !contains_skip by reflexivity).
  now rewrite append_empty_l.
Qed.


(** Finding the identifier changes nothing in the store. *)
Lemma resolve_emp_id_quiet (a : MainAgent.Agent) (question : string)
    (w : World) :
  store_saw w (snd (resolve_emp_id a question w)) [].
Proof.
  unfold resolve_emp_id.
  destruct (is_hr (MainAgent.current_user_role a)); [|apply store_saw_refl].
  unfold bind.
  pose proof (llm__call_quiet (prompt_extract_id question) w) as Hllm.
  destruct (llm__call (prompt_extract_id question) w) as [[e|response] w1];
    cbn [snd] in Hllm |- *; [exact Hllm|].
  now destruct (negb _ && negb _).
Qed.

(** The two handlers change no rows, for HR as for anyone. *)
Lemma handle_payslip_generation_read_only (a : MainAgent.Agent)
    (question : string) (s : Site) :
  exists ops,
    store_saw (s_world s)
      (s_world (snd (handle_payslip_generation a question s))) ops
    /\ read_only ops = true.
Proof.
  unfold handle_payslip_generation, at_site.
  pose proof (resolve_emp_id_quiet a question (s_world s)) as Hres.
  destruct (resolve_emp_id a question (s_world s)) as [[e|emp_id] w1];
    cbn [snd] in Hres |- *.
  - exists []. now split.
  - destruct emp_id as [[|c i]|]; try (exists []; now split).
    match goal with
    | |- context [handle_query ?q ?r ?u ?s1] =>
        destruct (handle_query_read_only q r u s1) as (ops & Hsaw & Hro);
        destruct (handle_query q r u s1) as [result s2]
    end.
    cbn [snd s_world] in Hsaw.
    exists ([] ++ ops).
    destruct (truthy (result !! "success")); cbn [snd];
      (split; [eauto using store_saw_trans|exact Hro]).
Qed.

Lemma handle_email_sending_read_only (a : MainAgent.Agent)
    (question : string) (s : Site) :
  exists ops,
    store_saw (s_world s)
      (s_world (snd (handle_email_sending a question s))) ops
    /\ read_only ops = true.
Proof.
  unfold handle_email_sending, at_site.
  pose proof (resolve_emp_id_quiet a question (s_world s)) as Hres.
  destruct (resolve_emp_id a question (s_world s)) as [[e|emp_id] w1];
    cbn [snd] in Hres |- *.
  - exists []. now split.
  - destruct emp_id as [[|c i]|]; try (exists []; now split).
    match goal with
    | |- context [handle_query ?q ?r ?u ?s1] =>
        destruct (handle_query_read_only q r u s1) as (ops & Hsaw & Hro);
        destruct (handle_query q r u s1) as [result s2]
    end.
    cbn [snd s_world] in Hsaw.
    exists ([] ++ ops).
    destruct (truthy (result !! "success")); cbn [snd];
      (split; [eauto using store_saw_trans|exact Hro]).
Qed.

(** The policy route changes nothing in the store. *)
Lemma execute_policy_query_quiet (question : string) (w : World) :
  store_saw w (snd (execute_policy_query question w)) [].
Proof.
  unfold execute_policy_query, bind, lift, ret.
  pose proof (policy_query_quiet question false w) as Hq.
  destruct (PolicyAgent.query question false w) as [[e|result] w1];
    cbn [snd] in Hq |- *; [exact Hq|].
  destruct (result !! "error"); [exact Hq|].
  now destruct (referenced_sections (result !! "source_documents")).
Qed.

(** A computation on the world that changes no rows changes none on the
    site. *)
Lemma at_site_read_only {A} (m : M A) (s : Site) (ops : list DbOp) :
  store_saw (s_world s) (snd (m (s_world s))) ops ->
  store_saw (s_world s) (s_world (snd (at_site m s))) ops.
Proof. unfold at_site. now destruct (m (s_world s)). Qed.

Lemma route_read_only (a : MainAgent.Agent) (question : string) (s : Site) :
  is_hr (MainAgent.current_user_role a) = false ->
  exists ops,
    store_saw (s_world s) (s_world (snd (route a question s))) ops
    /\ read_only ops = true.
Proof.
  intros Hrole. unfold route.
  assert (Hcls : store_saw (s_world s)
                   (s_world (snd (at_site (classify_intent a question) s))) []).
  { apply at_site_read_only. unfold classify_intent, bind, ret.
    match goal with
    | |- context [llm__call ?p ?w] =>
        pose proof (llm__call_quiet p w) as Hllm;
        now destruct (llm__call p w) as [[e|response] w1]
    end. }
  destruct (at_site (classify_intent a question) s) as [[e|intent] s1];
    cbn [snd] in Hcls |- *; [exists []; now split|].
  assert (Hthen : forall s2,
            (exists ops, store_saw (s_world s1) (s_world s2) ops
                         /\ read_only ops = true) ->
            exists ops, store_saw (s_world s) (s_world s2) ops
                        /\ read_only ops = true).
  { intros s2 (ops & Hsaw & Hro). exists ([] ++ ops).
    split; [eauto using store_saw_trans|exact Hro]. }
  apply Hthen.
  destruct (String.eqb (action intent) "generate_payslip");
    [apply handle_payslip_generation_read_only|].
  destruct (String.eqb (action intent) "send_email");
    [apply handle_email_sending_read_only|].
  destruct (is_fusion intent).
  { destruct (execute_fusion_query_read_only a question (s_world s1))
      as (ops & Hsaw & Hro).
    exists ops. split; [now apply at_site_read_only|exact Hro]. }
  case_bool_decide.
  { exists []. split; [|reflexivity].
    apply at_site_read_only, execute_policy_query_quiet. }
  case_bool_decide.
  { destruct (execute_sql_query_read_only a question (s_world s1) Hrole)
      as (ops & Hsaw & Hro).
    exists ops. split; [now apply at_site_read_only|exact Hro]. }
  exists []. split; [apply store_saw_refl|reflexivity].
Qed.

End WithServices.
End OrchestratorFacts.

Section EmployeeProperties.
Context `{Services}.
Import PyStr PyStrFacts SQLAgent Pipeline ExecuteFacts FusionFacts.
Import PayslipGenerator EmployeeAgent EmployeeFacts Orchestrator.
Import OrchestratorFacts Lexicon.

(** X21. For a caller whose role is not HR, the employee agent only ever
    sees a request for a payslip, for a payslip by mail, or for data:
    sending mail and creating, updating or deleting an employee are never
    what it classifies the query as. *)
Theorem employee_intents_without_hr_role (query : string)
    (user_role : option string) :
  user_role <> Some "hr" ->
  classify_employee_intent query user_role = GENERATE_PAYSLIP
  \/ classify_employee_intent query user_role = SEND_PAYSLIP_EMAIL
  \/ classify_employee_intent query user_role = QUERY_DATA.
Proof.
  intros Hrole. apply not_hr in Hrole.
  unfold classify_employee_intent. rewrite Hrole, andb_false_r.
  destruct (any_in payslip_words (lower query)); [|tauto].
  destruct (any_in generate_words (lower query)); [tauto|].
  destruct (any_in mail_words (lower query)); tauto.
Qed.

(** X22. The query the orchestrator builds for a payslip is classified as
    the generation of a payslip, for every identifier and role.  The query
    it builds for sending one is not always classified as sending: when
    the identifier, in lower case, holds one of [generate], [create] and
    [make], the query is classified as the generation of a payslip,
    [handle_query] does what [generate_payslip] does and the mailer is not
    called.  For an ASCII identifier that holds none of the three words
    the query is classified as sending. *)
Theorem handler_queries_intent (emp_id : string)
    (user_role user_id : option string) (s : Site) :
  classify_employee_intent ("generate payslip for " +:+ emp_id) user_role
  = GENERATE_PAYSLIP
  /\ (any_in generate_words (lower emp_id) = true ->
      classify_employee_intent ("send payslip email to " +:+ emp_id) user_role
      = GENERATE_PAYSLIP
      /\ handle_query ("send payslip email to " +:+ emp_id) user_role user_id s
         = generate_payslip ("send payslip email to " +:+ emp_id)
             user_id user_role s
      /\ exists calls,
           s_calls (snd (handle_query ("send payslip email to " +:+ emp_id)
                           user_role user_id s))
           = s_calls s ++ calls
           /\ no_mail calls = true)
  /\ (is_ascii emp_id = true ->
      any_in generate_words (lower emp_id) = false ->
      classify_employee_intent ("send payslip email to " +:+ emp_id) user_role
      = SEND_PAYSLIP_EMAIL).
Proof.
  split; [apply payslip_query_intent|].
  assert (Hcls :
    classify_employee_intent ("send payslip email to " +:+ emp_id) user_role
    = if any_in generate_words (lower emp_id)
      then GENERATE_PAYSLIP else SEND_PAYSLIP_EMAIL).
  { unfold classify_employee_intent. rewrite lower_app.
    change (lower "send payslip email to ") with "send payslip email to ".
    rewrite email_prefix_has_no_generate_word.
    assert (Hp : any_in payslip_words
                   ("send payslip email to " +:+ lower emp_id) = true).
    { unfold any_in, payslip_words. cbn [existsb].
      rewrite (contains_app_l "payslip"); reflexivity. }
    assert (Hm : any_in mail_words
                   ("send payslip email to " +:+ lower emp_id) = true).
    { unfold any_in, mail_words. cbn [existsb].
      rewrite (contains_app_l "email"); reflexivity. }
    now rewrite Hp, Hm. }
  split.
  - intros Hword. rewrite Hword in Hcls. split; [exact Hcls|].
    assert (Hq :
      handle_query ("send payslip email to " +:+ emp_id) user_role user_id s
      = generate_payslip ("send payslip email to " +:+ emp_id)
          user_id user_role s)
      by (unfold handle_query; now rewrite Hcls).
    split; [exact Hq|]. rewrite Hq.
    now destruct (generate_payslip_quiet
                    ("send payslip email to " +:+ emp_id) user_id user_role s)
      as (_ & _ & Hcalls).
  - intros _ Hword. now rewrite Hword in Hcls.
Qed.

(** X23. The employee agent changes no rows of the store, whatever the
    query, the role, HR included, and the answers of the model: creating,
    updating and deleting are placeholders, and a question about data is
    generated and executed with the default role. *)
Theorem employee_agent_never_mutates (query : string)
    (user_role user_id : option string) (s : Site) :
  exists ops,
    store_saw (s_world s)
      (s_world (snd (handle_query query user_role user_id s))) ops
    /\ read_only ops = true.
Proof. apply handle_query_read_only. Qed.


(** X25. Whatever the model answers on any of its calls and whichever
    route is taken (payslip, mail, fusion, policy, SQL), a query of a caller
    whose role is not HR leaves the rows of the employee store as they
    were: no statement is executed or committed. *)
Theorem query_of_non_hr_never_mutates (a : MainAgent.Agent)
    (question : string) (s : Site) :
  MainAgent.current_user_role a <> Some "hr" ->
  exists ops,
    store_saw (s_world s) (s_world (snd (query a question s))) ops
    /\ read_only ops = true.
Proof.
  intros Hrole. apply not_hr in Hrole. unfold query.
  destruct (route_read_only a question s Hrole) as (ops & Hsaw & Hro).
  destruct (route a question s) as [[e|answer] s']; now exists ops.
Qed.

End EmployeeProperties.

Section RouteExamples.
Import PyStr SQLAgent Pipeline PayslipGenerator EmployeeAgent Orchestrator.
Import Lexicon.

Lemma sql_route_of_non_hr_never_mutates_witness :
  exists ops,
    store_saw
      (Demo.world Demo.store
         [inr "UPDATE employees SET MonthlyIncome = 100000 WHERE EmployeeNumber = '1'"]
         None)
      (snd (@execute_sql_query Demo.platform DemoServices.services
              (MainAgent.mkAgent (Some "1") (Some "employee"))
              "update my salary to 100000"
              (Demo.world Demo.store
                 [inr "UPDATE employees SET MonthlyIncome = 100000 WHERE EmployeeNumber = '1'"]
                 None)))
      ops
    /\ read_only ops = true.
Proof.
  apply (@sql_route_of_non_hr_never_mutates Demo.platform DemoServices.services).
  discriminate.
Defined.

Lemma sql_route_reports_rejection_witness :
  fst (@execute_sql_query Demo.platform DemoServices.services
         (MainAgent.mkAgent (Some "1") (Some "employee"))
         "update my salary to 100000"
         (Demo.world Demo.store
            [inr "UPDATE employees SET MonthlyIncome = 100000 WHERE EmployeeNumber = '1'"]
            None))
  = inr "❌ Must be SELECT statement -> UPDATE employees SET MonthlyIncome = 100000 WHERE EmployeeNumber = '1'".
Proof.
  rewrite (@sql_route_reports_rejection Demo.platform DemoServices.services);
    reflexivity.
Defined.

Lemma sql_route_reports_mutation_verbatim_witness :
  fst (@execute_sql_query Demo.platform DemoServices.services
         (MainAgent.mkAgent None (Some "hr")) "delete employee 10"
         (Demo.world Demo.store
            [inr "delete from employees where EmployeeNumber = '10'"] None))
  = inr "✅ DELETE successful! 2 row(s) affected.".
Proof.
  rewrite (@sql_route_reports_mutation_verbatim Demo.platform
             DemoServices.services (MainAgent.mkAgent None (Some "hr"))
             "delete employee 10"
             "delete from employees where EmployeeNumber = '10'"
             (Demo.world Demo.store
                [inr "delete from employees where EmployeeNumber = '10'"] None)
             (Demo.world Demo.store [] None)
             (Demo.mkStore true Demo.employees_columns []) 2
             "delete"
             ["from"; "employees"; "where"; "EmployeeNumber"; "="; "'10'"]);
    try reflexivity.
  vm_compute. tauto.
Defined.

Lemma both_agents_mean_fusion_witness :
  is_fusion (read_routing ("AGENTS: [SQL, POLICY]" +:+ LF
                             +:+ "ACTION: query_data" +:+ LF
                             +:+ "FUSION: false")) = true.
Proof.
  apply (both_agents_mean_fusion _ "AGENTS: [SQL, POLICY]");
    [vm_compute; tauto | reflexivity | reflexivity | reflexivity].
Defined.

Lemma employee_intents_without_hr_role_witness :
  classify_employee_intent "delete employee E001 and mail everyone"
    (Some "employee") = GENERATE_PAYSLIP
  \/ classify_employee_intent "delete employee E001 and mail everyone"
       (Some "employee") = SEND_PAYSLIP_EMAIL
  \/ classify_employee_intent "delete employee E001 and mail everyone"
       (Some "employee") = QUERY_DATA.
Proof. apply employee_intents_without_hr_role. discriminate. Defined.

Lemma handler_queries_intent_witness :
  classify_employee_intent "send payslip email to maker7" (Some "hr")
  = GENERATE_PAYSLIP
  /\ classify_employee_intent "send payslip email to E001" (Some "hr")
     = SEND_PAYSLIP_EMAIL.
Proof.
  split.
  - destruct (@handler_queries_intent Demo.platform DemoServices.services
                "maker7" (Some "hr") (Some "maker7")
                (DemoServices.site Demo.store [] None))
      as (_ & Hgenerate & _).
    now destruct (Hgenerate eq_refl) as (Hcls & _).
  - destruct (@handler_queries_intent Demo.platform DemoServices.services
                "E001" (Some "hr") (Some "E001")
                (DemoServices.site Demo.store [] None))
      as (_ & _ & Hsend).
    exact (Hsend eq_refl eq_refl).
Defined.


Lemma query_of_non_hr_never_mutates_witness :
  exists ops,
    store_saw
      (Demo.world Demo.store
         [inr "AGENTS: [SQL]";
          inr "DELETE FROM employees WHERE EmployeeNumber = '10'"] None)
      (s_world
         (snd (@query Demo.platform DemoServices.services
                 (MainAgent.mkAgent (Some "1") (Some "employee"))
                 "delete employee 10"
                 (DemoServices.site Demo.store
                    [inr "AGENTS: [SQL]";
                     inr "DELETE FROM employees WHERE EmployeeNumber = '10'"]
                    None))))
      ops
    /\ read_only ops = true.
Proof.
  apply (@query_of_non_hr_never_mutates Demo.platform DemoServices.services
           (MainAgent.mkAgent (Some "1") (Some "employee"))
           "delete employee 10"
           (DemoServices.site Demo.store
              [inr "AGENTS: [SQL]";
               inr "DELETE FROM employees WHERE EmployeeNumber = '10'"]
              None)).
  discriminate.
Defined.

End RouteExamples.
